(** * Portfolio valuation and reconciliation engine (AKMoCap/PMS)

    A shallow embedding of the derived calculations of the fund dashboard:
    the SQL aggregates of the API router in [server/index.js] (holdings, cash residual,
    checker, perf-tracker upserts, bulk trade import) and the client-side
    valuation code of [client/src/App.js] (price merge, portfolio value,
    returns, enriched holdings).

    Numbers.  SQLite REAL and JavaScript numbers are modelled as exact
    rationals [Q]; rounding and overflow of binary64 are outside that model.
    The non-finite results of a JavaScript division are kept ([jsnum]).
    SQL NULL / JavaScript null and undefined are [None].  Where overflow
    decides the question (whether a return can be NaN or infinite) the
    return calculator is embedded a second time over IEEE 754 binary64
    numbers, in module [Binary64]. *)

From Stdlib Require Import PrimFloat.
From Stdlib Require Import QArith Qabs Lqa Lia Permutation Sorted.
From Stdlib Require Import Ascii String DecimalString OrderedTypeEx.
From stdpp Require Import gmap strings list.

Local Open Scope Q_scope.
Local Open Scope string_scope.

(** ** JavaScript and SQL scalar helpers *)

(** [x || y] at a number [x]: 0 is falsy. *)
Definition js_or (x y : Q) : Q := if Qeq_bool x 0 then y else x.

(** [x || y] where [x] may be null or undefined. *)
Definition js_or_null (x : option Q) (y : Q) : Q :=
  match x with
  | Some v => js_or v y
  | None => y
  end.

(** SQL unary minus: NULL stays NULL. *)
Definition sql_neg (v : option Q) : option Q :=
  match v with
  | Some x => Some (- x)
  | None => None
  end.

(** One step of the SQL [SUM] aggregate: NULL inputs are skipped. *)
Definition sum_step (acc v : option Q) : option Q :=
  match v with
  | None => acc
  | Some x =>
      match acc with
      | None => Some x
      | Some a => Some (a + x)
      end
  end.

(** SQL [SUM(col)]: NULL when no non-NULL input was seen. *)
Definition SUM (col : list (option Q)) : option Q :=
  fold_left sum_step col None.

(** SQL [COALESCE(v, d)]. *)
Definition COALESCE (v : option Q) (d : Q) : Q :=
  match v with
  | Some x => x
  | None => d
  end.

(** The mathematical sum the specification writes as a capital sigma. *)
Definition Qsum (l : list Q) : Q := fold_right Qplus 0 l.

(** ASCII upper-casing, as SQL [UPPER] and (on ASCII input)
    [String.prototype.toUpperCase] do it. *)
Definition upper_ascii (c : ascii) : ascii :=
  let n := nat_of_ascii c in
  if ((97 <=? n)%nat && (n <=? 122)%nat)%bool then ascii_of_nat (n - 32) else c.

Fixpoint toUpperCase (s : string) : string :=
  match s with
  | EmptyString => EmptyString
  | String c s' => String (upper_ascii c) (toUpperCase s')
  end.

Definition lower_ascii (c : ascii) : ascii :=
  let n := nat_of_ascii c in
  if ((65 <=? n)%nat && (n <=? 90)%nat)%bool then ascii_of_nat (n + 32) else c.

Fixpoint toLowerCase (s : string) : string :=
  match s with
  | EmptyString => EmptyString
  | String c s' => String (lower_ascii c) (toLowerCase s')
  end.

(** ** Ledger store (server/database.js) *)

Inductive TradeType := Buy | Sell | Income.
Inductive InvestorType := GP | LP.

(** Table [trades]: [avg_price] and [total] are nullable. *)
Record Trade := mkTrade {
  t_date : string;
  t_token : string;
  t_units : Q;
  t_avg_price : option Q;
  t_total : option Q;
  t_type : TradeType
}.

(** Table [investors]. *)
Record Investor := mkInvestor {
  i_month : string;
  i_client : string;
  i_type : InvestorType;
  i_amount : Q
}.

(** Table [perf_tracker]; every writer of the table stores numbers
    ([x || 0], [isNaN(x) ? 0 : x] or the column default 0). *)
Record PerfRecord := mkPerf {
  month : string;
  gp_subs : Q;
  lp_subs : Q;
  initial_value : Q;
  ending_value : Q;
  motus_return : Q;
  btc_return : Q;
  eth_return : Q;
  cci30_return : Q;
  sp_ex_mega_return : Q;
  spx_return : Q;
  qqq_return : Q;
  fund_expenses : Q;
  mgmt_fees : Q;
  setup_costs : Q
}.

(** Table [exits]. *)
Record Exit := mkExit {
  e_token : string;
  e_cost_basis : Q;
  e_exit_date : option string
}.

(** Table [manual_prices]. *)
Record ManualPrice := mkManual {
  mp_token : string;
  mp_price : Q
}.

Record Db := mkDb {
  trades : list Trade;
  investors : list Investor;
  perf_tracker : list PerfRecord;
  exits : list Exit
}.

(** ** Cash residual: GET /portfolio/usdc *)

(** [CASE WHEN type = 'Buy' THEN total WHEN type = 'Sell' THEN -total ELSE 0 END] *)
Definition case_cost (t : Trade) : option Q :=
  match t_type t with
  | Buy => t_total t
  | Sell => sql_neg (t_total t)
  | Income => Some 0
  end.

(** [WHERE UPPER(token) != 'USDC'] *)
Definition not_usdc (token : string) : bool :=
  negb (String.eqb (toUpperCase token) "USDC").

Record UsdcData := mkUsdc {
  total_subscriptions : Q;
  cost_basis : Q;
  total_expenses : Q;
  exits_cost_basis : Q;
  usdc_balance : Q
}.

Definition getPortfolioUsdc (db : Db) : UsdcData :=
  let subscriptions_total :=
    COALESCE (SUM (map (fun i => Some (i_amount i)) (investors db))) 0 in
  let costBasis_total :=
    COALESCE (SUM (map case_cost
                     (List.filter (fun t => not_usdc (t_token t)) (trades db)))) 0 in
  let expenses_fund_expenses :=
    COALESCE (SUM (map (fun p => Some (fund_expenses p)) (perf_tracker db))) 0 in
  let expenses_mgmt_fees :=
    COALESCE (SUM (map (fun p => Some (mgmt_fees p)) (perf_tracker db))) 0 in
  let expenses_setup_costs :=
    COALESCE (SUM (map (fun p => Some (setup_costs p)) (perf_tracker db))) 0 in
  let totalExpenses :=
    js_or expenses_fund_expenses 0 + js_or expenses_mgmt_fees 0
    + js_or expenses_setup_costs 0 in
  let exitsCostBasis_total :=
    COALESCE (SUM (map (fun e => Some (e_cost_basis e)) (exits db))) 0 in
  let usdcBalance :=
    js_or subscriptions_total 0 - js_or costBasis_total 0 - totalExpenses
    - js_or exitsCostBasis_total 0 in
  {| total_subscriptions := js_or subscriptions_total 0;
     cost_basis := js_or costBasis_total 0;
     total_expenses := totalExpenses;
     exits_cost_basis := js_or exitsCostBasis_total 0;
     usdc_balance := usdcBalance |}.

(** The signed cost of one trade as the specification states it:
    Buy adds its total, Sell subtracts it, Income adds nothing; a trade
    stored without a total has nothing to add. *)
Definition signed_total (t : Trade) : Q :=
  match t_type t with
  | Buy => COALESCE (t_total t) 0
  | Sell => - COALESCE (t_total t) 0
  | Income => 0
  end.

(** ** Ordering of query results and of JavaScript arrays *)

Section SortingDefs.
Context {A : Type} (le : A -> A -> bool).

(** Stable insertion: [x] goes before the first element it does not
    exceed, so an element keeps its place before later equal ones. *)
Fixpoint insert_sorted (x : A) (l : list A) : list A :=
  match l with
  | [] => [x]
  | y :: l' => if le x y then x :: y :: l' else y :: insert_sorted x l'
  end.

Definition sort_by (l : list A) : list A := fold_right insert_sorted [] l.

End SortingDefs.

Definition Qlt_bool (x y : Q) : bool := negb (Qle_bool y x).

(** ** Holdings aggregator: GET /portfolio *)

(** [CASE WHEN type = 'Buy' THEN units WHEN type = 'Sell' THEN -units
    WHEN type = 'Income' THEN units ELSE 0 END]; [units] is NOT NULL. *)
Definition case_units (t : Trade) : Q :=
  match t_type t with
  | Buy => t_units t
  | Sell => - t_units t
  | Income => t_units t
  end.

(** [SUM] over a NOT NULL column of a GROUP BY group (never empty). *)
Definition SUM_nn (col : list Q) : Q := fold_left Qplus col 0.

(** [GROUP BY token]: the distinct stored tokens (BINARY collation). *)
Definition group_keys (ts : list Trade) : list string :=
  nodup string_dec (map t_token ts).

Definition rows_of (tok : string) (ts : list Trade) : list Trade :=
  List.filter (fun t => String.eqb (t_token t) tok) ts.

Record Holding := mkHolding {
  token : string;
  total_units : Q;
  holding_cost_basis : option Q
}.

Definition aggregate (ts : list Trade) (tok : string) : Holding :=
  let g := rows_of tok ts in
  {| token := tok;
     total_units := SUM_nn (map case_units g);
     holding_cost_basis := SUM (map case_cost g) |}.

(** The dust threshold of the HAVING clause. *)
Definition dust : Q := 1 # 10000.

(** [HAVING total_units > 0.0001 OR total_units < -0.0001] *)
Definition having (h : Holding) : bool :=
  Qlt_bool dust (total_units h) || Qlt_bool (total_units h) (- dust).

(** [ORDER BY cost_basis DESC]: NULL sorts as the smallest value. *)
Definition cost_desc (a b : Holding) : bool :=
  match holding_cost_basis a, holding_cost_basis b with
  | _, None => true
  | None, Some _ => false
  | Some x, Some y => Qle_bool y x
  end.

Definition getPortfolio (ts : list Trade) : list Holding :=
  sort_by cost_desc (List.filter having (map (aggregate ts) (group_keys ts))).

(** ** Checker: GET /checker/portfolio *)

Definition case_when (ty : TradeType) (v : Trade -> option Q) (t : Trade) : option Q :=
  match t_type t, ty with
  | Buy, Buy | Sell, Sell | Income, Income => v t
  | _, _ => Some 0
  end.

Record TokenBreakdown := mkBreakdown {
  cb_token : string;
  buy_units : option Q;
  sell_units : option Q;
  income_units : option Q;
  net_units : Q;
  buy_total : option Q;
  sell_total : option Q;
  cb_cost_basis : option Q;
  trade_count : nat
}.

Definition breakdown (ts : list Trade) (tok : string) : TokenBreakdown :=
  let g := rows_of tok ts in
  {| cb_token := tok;
     buy_units := SUM (map (case_when Buy (fun t => Some (t_units t))) g);
     sell_units := SUM (map (case_when Sell (fun t => Some (t_units t))) g);
     income_units := SUM (map (case_when Income (fun t => Some (t_units t))) g);
     net_units := SUM_nn (map case_units g);
     buy_total := SUM (map (case_when Buy t_total) g);
     sell_total := SUM (map (case_when Sell t_total) g);
     cb_cost_basis := SUM (map case_cost g);
     trade_count := length g |}.

(** [ORDER BY token] *)
Definition token_asc (a b : TokenBreakdown) : bool :=
  String.leb (cb_token a) (cb_token b).

Definition checker_holdings (ts : list Trade) : list TokenBreakdown :=
  sort_by token_asc (map (breakdown ts) (group_keys ts)).

(** [holdings.filter(h => h.token.toUpperCase() !== 'USDC')
             .reduce((sum, h) => sum + (h.cost_basis || 0), 0)] *)
Definition totalCostBasis (hs : list TokenBreakdown) : Q :=
  fold_left (fun sum h => sum + js_or_null (cb_cost_basis h) 0)
    (List.filter (fun h => not_usdc (cb_token h)) hs) 0.

Record CheckerCalculations := mkCalc {
  calc_total_subscriptions : Q;
  calc_total_cost_basis : Q;
  calc_total_expenses : Q;
  calc_exits_cost_basis : Q;
  calc_usdc_balance : Q
}.

Record CheckerInvestors := mkCheckerInvestors {
  gp_total : Q;
  lp_total : Q;
  inv_total_subscriptions : Q
}.

Record CheckerExpenses := mkCheckerExpenses {
  exp_fund_expenses : Q;
  exp_mgmt_fees : Q;
  exp_setup_costs : Q;
  exp_total : Q
}.

Record CheckerResponse := mkChecker {
  chk_holdings : list TokenBreakdown;
  chk_investors : CheckerInvestors;
  chk_expenses : CheckerExpenses;
  chk_exits_cost_basis : Q;
  calculations : CheckerCalculations
}.

(** [CASE WHEN type = ty THEN amount ELSE 0 END] on the investors table. *)
Definition amount_of (ty : InvestorType) (i : Investor) : option Q :=
  match i_type i, ty with
  | GP, GP | LP, LP => Some (i_amount i)
  | _, _ => Some 0
  end.

Definition checkerPortfolio (db : Db) : CheckerResponse :=
  let holdings := checker_holdings (trades db) in
  let investors_gp_total := COALESCE (SUM (map (amount_of GP) (investors db))) 0 in
  let investors_lp_total := COALESCE (SUM (map (amount_of LP) (investors db))) 0 in
  let investors_total_subscriptions :=
    COALESCE (SUM (map (fun i => Some (i_amount i)) (investors db))) 0 in
  let expenses_fund_expenses :=
    COALESCE (SUM (map (fun p => Some (fund_expenses p)) (perf_tracker db))) 0 in
  let expenses_mgmt_fees :=
    COALESCE (SUM (map (fun p => Some (mgmt_fees p)) (perf_tracker db))) 0 in
  let expenses_setup_costs :=
    COALESCE (SUM (map (fun p => Some (setup_costs p)) (perf_tracker db))) 0 in
  let totalExpenses :=
    js_or expenses_fund_expenses 0 + js_or expenses_mgmt_fees 0
    + js_or expenses_setup_costs 0 in
  let exitsCostBasis_total :=
    COALESCE (SUM (map (fun e => Some (e_cost_basis e)) (exits db))) 0 in
  let usdcBalance :=
    js_or investors_total_subscriptions 0 - totalCostBasis holdings - totalExpenses
    - js_or exitsCostBasis_total 0 in
  {| chk_holdings := holdings;
     chk_investors :=
       {| gp_total := investors_gp_total;
          lp_total := investors_lp_total;
          inv_total_subscriptions := investors_total_subscriptions |};
     chk_expenses :=
       {| exp_fund_expenses := js_or expenses_fund_expenses 0;
          exp_mgmt_fees := js_or expenses_mgmt_fees 0;
          exp_setup_costs := js_or expenses_setup_costs 0;
          exp_total := totalExpenses |};
     chk_exits_cost_basis := js_or exitsCostBasis_total 0;
     calculations :=
       {| calc_total_subscriptions := js_or investors_total_subscriptions 0;
          calc_total_cost_basis := totalCostBasis holdings;
          calc_total_expenses := totalExpenses;
          calc_exits_cost_basis := js_or exitsCostBasis_total 0;
          calc_usdc_balance := usdcBalance |} |}.

(** The sum of the cost bases of a holdings list, USDC left out. *)
Definition holdings_cost_excl_usdc (hs : list Holding) : Q :=
  Qsum (map (fun h => COALESCE (holding_cost_basis h) 0)
          (List.filter (fun h => not_usdc (token h)) hs)).

(** The groups the HAVING clause removes. *)
Definition dust_groups (ts : list Trade) : list Holding :=
  List.filter (fun h => negb (having h)) (map (aggregate ts) (group_keys ts)).

(** Is a token listed in the holdings? *)
Definition held (tok : string) (hs : list Holding) : bool :=
  existsb (fun h => String.eqb (token h) tok) hs.

(** Net position of a token as the specification states it. *)
Definition signed_units (t : Trade) : Q :=
  match t_type t with
  | Buy => t_units t
  | Sell => - t_units t
  | Income => t_units t
  end.

Definition net_position (tok : string) (ts : list Trade) : Q :=
  Qsum (map signed_units (rows_of tok ts)).

(** ** Price resolver: [mergedPrices] (client/src/App.js) *)

(** A quote of the [/prices] map or a manual override.  Fields a quote
    object does not carry ([isManual] of a live quote, [market_cap] of a
    manual one) are [false] / [None]. *)
Record Quote := mkQuote {
  price : Q;
  isManual : bool;
  percent_change_24h : option Q;
  percent_change_7d : option Q;
  percent_change_30d : option Q;
  percent_change_60d : option Q;
  market_cap : option Q;
  volume_24h : option Q;
  name : option string
}.

(** The object literal [mergedPrices] stores for a manual price. *)
Definition manual_quote (p : Q) : Quote :=
  {| price := p;
     isManual := true;
     percent_change_24h := None;
     percent_change_7d := None;
     percent_change_30d := None;
     percent_change_60d := None;
     market_cap := None;
     volume_24h := None;
     name := None |}.

(** [!merged[tok] || !merged[tok].price] *)
Definition no_usable_price (merged : gmap string Quote) (tok : string) : bool :=
  match merged !! tok with
  | None => true
  | Some q => Qeq_bool (price q) 0
  end.

(** The body of the [forEach] of [mergedPrices]. *)
Definition merge_step (merged : gmap string Quote) (mp : ManualPrice)
  : gmap string Quote :=
  if no_usable_price merged (mp_token mp)
  then <[mp_token mp := manual_quote (mp_price mp)]> merged
  else merged.

Definition mergedPrices (prices : gmap string Quote)
  (manualPrices : list ManualPrice) : gmap string Quote :=
  fold_left merge_step manualPrices prices.

(** ** Valuation: [calculatePortfolioValue] *)

(** [mergedPrices[token]?.price || 0] *)
Definition price_or_zero (prices : gmap string Quote) (tok : string) : Q :=
  match prices !! tok with
  | Some q => js_or (price q) 0
  | None => 0
  end.

Definition calculatePortfolioValue (holdings : list Holding)
  (merged : gmap string Quote) (usdcData : option UsdcData) : Q :=
  let totalValue :=
    fold_left
      (fun totalValue holding =>
         totalValue
         + total_units holding * price_or_zero merged (toUpperCase (token holding)))
      holdings 0 in
  match usdcData with
  | Some u => totalValue + usdc_balance u
  | None => totalValue
  end.

(** ** Return calculator: [calculateReturns] *)

(** The value of a JavaScript division and of arithmetic on it. *)
Inductive jsnum :=
| Fin (q : Q)
| PosInf
| NegInf
| NaN.

(** [x / y] on finite operands: only a zero divisor leaves the finite
    numbers. *)
Definition js_div (x y : Q) : jsnum :=
  if Qeq_bool y 0 then
    if Qeq_bool x 0 then NaN
    else if Qlt_bool 0 x then PosInf else NegInf
  else Fin (x / y).

Definition js_sub (a : jsnum) (b : Q) : jsnum :=
  match a with
  | Fin x => Fin (x - b)
  | PosInf => PosInf
  | NegInf => NegInf
  | NaN => NaN
  end.

Definition js_mul (a : jsnum) (b : Q) : jsnum :=
  match a with
  | Fin x => Fin (x * b)
  | PosInf => if Qeq_bool b 0 then NaN else if Qlt_bool 0 b then PosInf else NegInf
  | NegInf => if Qeq_bool b 0 then NaN else if Qlt_bool 0 b then NegInf else PosInf
  | NaN => NaN
  end.

(** [d > 0 ? ((totalValue / d) - 1) * 100 : 0] *)
Definition pct_return (totalValue d : Q) : jsnum :=
  if Qlt_bool 0 d then js_mul (js_sub (js_div totalValue d) 1) 100 else Fin 0.

(** The comparator [(a, b) => a.month.localeCompare(b.month)]: on the
    stored "YYYY-MM" strings the locale order is the code-unit order. *)
Definition month_le (a b : PerfRecord) : bool := String.leb (month a) (month b).

Definition sortedPerf (perfTracker : list PerfRecord) : list PerfRecord :=
  sort_by month_le perfTracker.

(** [sortedPerf.filter(p => p.month < currentMonth).pop()] *)
Definition lastMonthRecord (perfTracker : list PerfRecord) (currentMonth : string)
  : option PerfRecord :=
  last (List.filter (fun p => String.ltb (month p) currentMonth)
          (sortedPerf perfTracker)).

(** [usdcData?.total_subscriptions || 0] *)
Definition subscriptions_or_zero (usdcData : option UsdcData) : Q :=
  match usdcData with
  | Some u => js_or (total_subscriptions u) 0
  | None => 0
  end.

(** [lastMonthRecord?.ending_value || (usdcData?.total_subscriptions || 0)] *)
Definition beginningValue (perfTracker : list PerfRecord)
  (usdcData : option UsdcData) (currentMonth : string) : Q :=
  match lastMonthRecord perfTracker currentMonth with
  | Some r => js_or (ending_value r) (subscriptions_or_zero usdcData)
  | None => subscriptions_or_zero usdcData
  end.

(** [String(currentYear - 1)] *)
Definition String_of_year (y : Z) : string :=
  DecimalString.NilZero.string_of_int (Z.to_int y).

(** [sortedPerf.filter(p => p.month.startsWith(String(currentYear - 1))).pop()] *)
Definition lastYearEnd (perfTracker : list PerfRecord) (currentYear : Z)
  : option PerfRecord :=
  last (List.filter
          (fun p => String.prefix (String_of_year (currentYear - 1)) (month p))
          (sortedPerf perfTracker)).

(** [lastYearEnd?.ending_value || beginningValue] *)
Definition yearStartValue (perfTracker : list PerfRecord)
  (usdcData : option UsdcData) (currentMonth : string) (currentYear : Z) : Q :=
  match lastYearEnd perfTracker currentYear with
  | Some r => js_or (ending_value r) (beginningValue perfTracker usdcData currentMonth)
  | None => beginningValue perfTracker usdcData currentMonth
  end.

(** [firstRecord ? (firstRecord.gp_subs + firstRecord.lp_subs)
                 : (usdcData?.total_subscriptions || 0)] *)
Definition initialValue (perfTracker : list PerfRecord)
  (usdcData : option UsdcData) : Q :=
  match hd_error (sortedPerf perfTracker) with
  | Some firstRecord => gp_subs firstRecord + lp_subs firstRecord
  | None => subscriptions_or_zero usdcData
  end.

Record Returns := mkReturns {
  mtd : jsnum;
  ytd : jsnum;
  sinceInception : jsnum
}.

(** The state of the [App] component the calculation reads, with the
    clock ([new Date()]) made explicit. *)
Record AppState := mkApp {
  st_prices : gmap string Quote;
  st_holdings : list Holding;
  st_perfTracker : list PerfRecord;
  st_usdcData : option UsdcData;
  st_manualPrices : list ManualPrice;
  st_currentMonth : string;
  st_currentYear : Z
}.

Definition portfolioValue (st : AppState) : Q :=
  calculatePortfolioValue (st_holdings st)
    (mergedPrices (st_prices st) (st_manualPrices st)) (st_usdcData st).

Definition calculateReturns (st : AppState) : Returns :=
  let totalValue := portfolioValue st in
  let bv := beginningValue (st_perfTracker st) (st_usdcData st) (st_currentMonth st) in
  let ysv := yearStartValue (st_perfTracker st) (st_usdcData st)
               (st_currentMonth st) (st_currentYear st) in
  let iv := initialValue (st_perfTracker st) (st_usdcData st) in
  {| mtd := pct_return totalValue bv;
     ytd := pct_return totalValue ysv;
     sinceInception := pct_return totalValue iv |}.

(** ** Valuation engine: [enrichedHoldings] of [PortfolioTab] *)

Record EnrichedHolding := mkEnriched {
  eh_token : string;
  eh_total_units : Q;
  eh_cost_basis : option Q;
  currentPrice : Q;
  currentValue : Q;
  pnl : Q;
  weight : jsnum;
  hasCMCData : bool;
  isManualPrice : bool;
  eh_percent_change_24h : option Q;
  eh_percent_change_7d : option Q;
  eh_percent_change_30d : option Q;
  eh_percent_change_60d : option Q
}.

(** [pv > 0 ? (v / pv) * 100 : 0] *)
Definition weight_of (v pv : Q) : jsnum :=
  if Qlt_bool 0 pv then js_mul (js_div v pv) 100 else Fin 0.

(** The [map] callback; an absent quote is the empty object [{}];
    [currentValue - holding.cost_basis] takes a null cost basis as 0. *)
Definition enrich (prices cmcPrices : gmap string Quote) (pv : Q) (holding : Holding)
  : EnrichedHolding :=
  let tok := toUpperCase (token holding) in
  let priceData := prices !! tok in
  let currentPrice := price_or_zero prices tok in
  let currentValue := total_units holding * currentPrice in
  {| eh_token := token holding;
     eh_total_units := total_units holding;
     eh_cost_basis := holding_cost_basis holding;
     currentPrice := currentPrice;
     currentValue := currentValue;
     pnl := currentValue - COALESCE (holding_cost_basis holding) 0;
     weight := weight_of currentValue pv;
     hasCMCData := negb (no_usable_price cmcPrices tok);
     isManualPrice := match priceData with Some q => isManual q | None => false end;
     eh_percent_change_24h := priceData ≫= percent_change_24h;
     eh_percent_change_7d := priceData ≫= percent_change_7d;
     eh_percent_change_30d := priceData ≫= percent_change_30d;
     eh_percent_change_60d := priceData ≫= percent_change_60d |}.

(** The object pushed for USDC. *)
Definition usdc_holding (u : UsdcData) (pv : Q) : EnrichedHolding :=
  {| eh_token := "USDC";
     eh_total_units := usdc_balance u;
     eh_cost_basis := Some (usdc_balance u);
     currentPrice := 1;
     currentValue := usdc_balance u;
     pnl := 0;
     weight := weight_of (usdc_balance u) pv;
     hasCMCData := true;
     isManualPrice := false;
     eh_percent_change_24h := Some 0;
     eh_percent_change_7d := Some 0;
     eh_percent_change_30d := Some 0;
     eh_percent_change_60d := Some 0 |}.

Definition enrichedHoldings (holdings : list Holding)
  (prices cmcPrices : gmap string Quote) (usdcData : option UsdcData) (pv : Q)
  : list EnrichedHolding :=
  let items :=
    map (enrich prices cmcPrices pv)
      (List.filter (fun h => not_usdc (token h)) holdings) in
  match usdcData with
  | Some u =>
      if negb (Qeq_bool (usdc_balance u) 0)
      then items ++ [usdc_holding u pv]
      else items
  | None => items
  end.

(** ** Monthly performance upserts *)

(** [INSERT ... ON CONFLICT(month) DO UPDATE SET ...]: the row whose
    [month] conflicts is rewritten by [conflict_update old excluded];
    without a conflict the new row is added. *)
Fixpoint upsert (conflict_update : PerfRecord -> PerfRecord -> PerfRecord)
  (excluded : PerfRecord) (tbl : list PerfRecord) : list PerfRecord :=
  match tbl with
  | [] => [excluded]
  | r :: tl =>
      if String.eqb (month r) (month excluded)
      then conflict_update r excluded :: tl
      else r :: upsert conflict_update excluded tl
  end.

(** The SET list of POST /perf-tracker. *)
Definition manual_conflict_update (old excluded : PerfRecord) : PerfRecord :=
  {| month := month old;
     gp_subs := gp_subs excluded;
     lp_subs := lp_subs excluded;
     initial_value := initial_value excluded;
     ending_value := ending_value excluded;
     motus_return := motus_return excluded;
     btc_return := btc_return excluded;
     eth_return := eth_return excluded;
     cci30_return := cci30_return excluded;
     sp_ex_mega_return := sp_ex_mega_return excluded;
     spx_return := spx_return excluded;
     qqq_return := qqq_return excluded;
     fund_expenses := fund_expenses excluded;
     mgmt_fees := mgmt_fees excluded;
     setup_costs := setup_costs excluded |}.

(** The SET list of POST /upload/perf-tracker. *)
Definition upload_conflict_update (old excluded : PerfRecord) : PerfRecord :=
  {| month := month old;
     gp_subs := gp_subs excluded;
     lp_subs := lp_subs excluded;
     initial_value := initial_value excluded;
     ending_value := ending_value excluded;
     motus_return := motus_return excluded;
     btc_return := btc_return excluded;
     eth_return := eth_return excluded;
     cci30_return := cci30_return excluded;
     sp_ex_mega_return := sp_ex_mega_return excluded;
     spx_return := spx_return excluded;
     qqq_return := qqq_return excluded;
     fund_expenses := fund_expenses old;
     mgmt_fees := mgmt_fees old;
     setup_costs := setup_costs old |}.

(** The request body of POST /perf-tracker; a field left out is [None]. *)
Record PerfBody := mkBody {
  b_month : string;
  b_gp_subs : option Q;
  b_lp_subs : option Q;
  b_initial_value : option Q;
  b_ending_value : option Q;
  b_motus_return : option Q;
  b_btc_return : option Q;
  b_eth_return : option Q;
  b_cci30_return : option Q;
  b_sp_ex_mega_return : option Q;
  b_spx_return : option Q;
  b_qqq_return : option Q;
  b_fund_expenses : option Q;
  b_mgmt_fees : option Q;
  b_setup_costs : option Q
}.

(** The values bound by [stmt.run(month, gp_subs || 0, ...)]. *)
Definition body_values (b : PerfBody) : PerfRecord :=
  {| month := b_month b;
     gp_subs := js_or_null (b_gp_subs b) 0;
     lp_subs := js_or_null (b_lp_subs b) 0;
     initial_value := js_or_null (b_initial_value b) 0;
     ending_value := js_or_null (b_ending_value b) 0;
     motus_return := js_or_null (b_motus_return b) 0;
     btc_return := js_or_null (b_btc_return b) 0;
     eth_return := js_or_null (b_eth_return b) 0;
     cci30_return := js_or_null (b_cci30_return b) 0;
     sp_ex_mega_return := js_or_null (b_sp_ex_mega_return b) 0;
     spx_return := js_or_null (b_spx_return b) 0;
     qqq_return := js_or_null (b_qqq_return b) 0;
     fund_expenses := js_or_null (b_fund_expenses b) 0;
     mgmt_fees := js_or_null (b_mgmt_fees b) 0;
     setup_costs := js_or_null (b_setup_costs b) 0 |}.

Definition postPerfTracker (b : PerfBody) (tbl : list PerfRecord) : list PerfRecord :=
  upsert manual_conflict_update (body_values b) tbl.

(** ** Spreadsheet rows *)

(** A cell of [XLSX.utils.sheet_to_json(sheet, { defval: null })] read
    with [cellDates: true]; a date carries [getFullYear()], [getMonth()]
    (from 0) and [getDate()]. *)
Inductive Cell :=
| CNull
| CNum (q : Q)
| CStr (s : string)
| CBool (b : bool)
| CDate (year month0 day : nat).

(** A row object: its keys in order with their values. *)
Definition Row := list (string * Cell).

Definition is_ws (c : ascii) : bool :=
  let n := nat_of_ascii c in
  ((n =? 32)%nat || ((9 <=? n)%nat && (n <=? 13)%nat))%bool.

Fixpoint trim_start (s : string) : string :=
  match s with
  | EmptyString => EmptyString
  | String c s' => if is_ws c then trim_start s' else s
  end.

Fixpoint trim_end (s : string) : string :=
  match s with
  | EmptyString => EmptyString
  | String c s' =>
      match trim_end s' with
      | EmptyString => if is_ws c then EmptyString else String c EmptyString
      | r => String c r
      end
  end.

Definition trim (s : string) : string := trim_end (trim_start s).

(** [row[name]]; [None] is undefined. *)
Fixpoint row_get (row : Row) (name : string) : option Cell :=
  match row with
  | [] => None
  | (k, v) :: r => if String.eqb k name then Some v else row_get r name
  end.

(** First loop of [getColumnValue]: the first name with a value that is
    neither undefined nor null. *)
Fixpoint first_defined (row : Row) (possibleNames : list string) : option Cell :=
  match possibleNames with
  | [] => None
  | n :: ns =>
      match row_get row n with
      | None | Some CNull => first_defined row ns
      | Some v => Some v
      end
  end.

(** Inner loop: the first key equal to [lowerName] once lower-cased and
    trimmed. *)
Fixpoint find_key (rowKeys : list string) (lowerName : string) : option string :=
  match rowKeys with
  | [] => None
  | key :: ks =>
      if String.eqb (trim (toLowerCase key)) lowerName then Some key
      else find_key ks lowerName
  end.

(** Second loop of [getColumnValue]. *)
Fixpoint first_insensitive (row : Row) (possibleNames : list string) : option Cell :=
  match possibleNames with
  | [] => None
  | n :: ns =>
      match find_key (map fst row) (trim (toLowerCase n)) with
      | Some key => row_get row key
      | None => first_insensitive row ns
      end
  end.

Definition getColumnValue (row : Row) (possibleNames : list string) : Cell :=
  match first_defined row possibleNames with
  | Some v => v
  | None =>
      match first_insensitive row possibleNames with
      | Some v => v
      | None => CNull
      end
  end.

(** JavaScript truthiness of a cell. *)
Definition truthy (c : Cell) : bool :=
  match c with
  | CNull => false
  | CNum q => negb (Qeq_bool q 0)
  | CStr s => negb (String.eqb s "")
  | CBool b => b
  | CDate _ _ _ => true
  end.

Definition string_of_nat (n : nat) : string :=
  DecimalString.NilZero.string_of_uint (Nat.to_uint n).

(** [String(n).padStart(2, '0')] and [s.padStart(2, '0')]. *)
Definition padStart2 (s : string) : string :=
  match String.length s with
  | O => "00" ++ s
  | S O => "0" ++ s
  | _ => s
  end.

Definition is_digit (c : ascii) : bool :=
  let n := nat_of_ascii c in ((48 <=? n)%nat && (n <=? 57)%nat)%bool.

Definition is_letter (c : ascii) : bool :=
  let n := nat_of_ascii c in
  (((65 <=? n)%nat && (n <=? 90)%nat) || ((97 <=? n)%nat && (n <=? 122)%nat))%bool.

Fixpoint all_chars (p : ascii -> bool) (s : string) : bool :=
  match s with
  | EmptyString => true
  | String c s' => (p c && all_chars p s')%bool
  end.

(** The pieces of [s] between occurrences of [sep]. *)
Fixpoint split_on (sep : ascii) (s : string) : list string :=
  match s with
  | EmptyString => [EmptyString]
  | String c s' =>
      if Ascii.eqb c sep then EmptyString :: split_on sep s'
      else
        match split_on sep s' with
        | [] => [String c EmptyString]
        | piece :: rest => String c piece :: rest
        end
  end.

(** [\d{lo,hi}] matching a whole piece. *)
Definition digits_between (lo hi : nat) (s : string) : bool :=
  (all_chars is_digit s && (lo <=? String.length s)%nat
   && (String.length s <=? hi)%nat)%bool.

(** [parseInt] of a string of decimal digits. *)
Definition parseInt_digits (s : string) : nat :=
  match DecimalString.NilZero.uint_of_string s with
  | Some u => Nat.of_uint u
  | None => 0%nat
  end.

Definition monthNames : list string :=
  ["jan"; "feb"; "mar"; "apr"; "may"; "jun"; "jul"; "aug"; "sep"; "oct"; "nov"; "dec"].

(** [monthNames.findIndex(m => s.startsWith(m))] *)
Fixpoint findIndex_prefix (names : list string) (s : string) (i : nat) : option nat :=
  match names with
  | [] => None
  | m :: ms => if String.prefix m s then Some i else findIndex_prefix ms s (S i)
  end.

(** [parseMonthValue]: "June-22" becomes "2022-06", "YYYY-MM" is kept, a
    date gives its year and month, anything else is null. *)
Definition parseMonthValue (value : Cell) : option string :=
  match value with
  | CStr s =>
      if String.eqb s "" then None
      else
        let monthStr := trim s in
        let named :=
          match split_on "-" monthStr with
          | [a; b] =>
              if (negb (String.eqb a "") && all_chars is_letter a
                  && digits_between 2 2 b)%bool
              then
                match findIndex_prefix monthNames (toLowerCase a) 0 with
                | Some monthIndex =>
                    Some (string_of_nat (parseInt_digits b + 2000) ++ "-"
                          ++ padStart2 (string_of_nat (monthIndex + 1)))
                | None => None
                end
              else None
          | _ => None
          end in
        match named with
        | Some m => Some m
        | None =>
            match split_on "-" monthStr with
            | [y; m] =>
                if (digits_between 4 4 y && digits_between 2 2 m)%bool
                then Some monthStr else None
            | _ => None
            end
        end
  | CDate y m0 _ => Some (string_of_nat y ++ "-" ++ padStart2 (string_of_nat (m0 + 1)))
  | _ => None
  end.

Section UploadModel.

(** JavaScript built-ins and the environment of an import run:
    [parseFloat] on a string ([None] is NaN), [String] of a number and of
    a date, the date of an Excel serial number, today's date, and the
    error, if any, that the INSERT statement raises for a row. *)
Variable parseFloat_string : string -> option Q.
Variable Number_toString : Q -> string.
Variable Date_toString : nat -> nat -> nat -> string.
Variable excel_serial_date : Q -> string.
Variable today : string.
Variable insert_error : list Trade -> Trade -> option string.

(** [String(v)] *)
Definition String_of (v : Cell) : string :=
  match v with
  | CNull => "null"
  | CNum q => Number_toString q
  | CStr s => s
  | CBool true => "true"
  | CBool false => "false"
  | CDate y m d => Date_toString y m d
  end.

(** [parseFloat(v)]: a number is read back from its own text; null,
    booleans and dates print as text that is no number. *)
Definition parseFloat (v : Cell) : option Q :=
  match v with
  | CNum q => Some q
  | CStr s => parseFloat_string s
  | _ => None
  end.

(** [s.replace(/[$,]/g, '')] *)
Fixpoint strip_money (s : string) : string :=
  match s with
  | EmptyString => EmptyString
  | String c s' =>
      if (Ascii.eqb c "$" || Ascii.eqb c ",")%bool then strip_money s'
      else String c (strip_money s')
  end.

(** A parsed amount: null, NaN or a number. *)
Inductive Parsed :=
| Pnull
| Pnan
| Pnum (q : Q).

(** [v ? parseFloat(String(v).replace(/[$,]/g, '')) : null] *)
Definition parse_money (v : Cell) : Parsed :=
  if truthy v then
    match v with
    | CNum q => Pnum q
    | CStr s =>
        match parseFloat_string (strip_money s) with
        | Some q => Pnum q
        | None => Pnan
        end
    | _ => Pnan
    end
  else Pnull.

Definition parsed_truthy (p : Parsed) : bool :=
  match p with
  | Pnum q => negb (Qeq_bool q 0)
  | _ => false
  end.

(** The SQL value bound for a parsed amount (NaN is stored as NULL). *)
Definition parsed_sql (p : Parsed) : option Q :=
  match p with
  | Pnum q => Some q
  | _ => None
  end.

(** [parseExcelDate] *)
Definition parseExcelDate (value : Cell) : option string :=
  if truthy value then
    match value with
    | CDate y m0 d =>
        Some (string_of_nat y ++ "-" ++ padStart2 (string_of_nat (m0 + 1))
              ++ "-" ++ padStart2 (string_of_nat d))
    | CStr s =>
        let dateStr := trim s in
        match split_on "/" dateStr with
        | [mo; da; ye] =>
            if (digits_between 1 2 mo && digits_between 1 2 da
                && digits_between 4 4 ye)%bool
            then Some (ye ++ "-" ++ padStart2 mo ++ "-" ++ padStart2 da)
            else Some dateStr
        | _ =>
            match split_on "-" dateStr with
            | [ye; mo; da] =>
                if (digits_between 4 4 ye && digits_between 1 2 mo
                    && digits_between 1 2 da)%bool
                then Some (ye ++ "-" ++ padStart2 mo ++ "-" ++ padStart2 da)
                else Some dateStr
            | _ => Some dateStr
            end
        end
    | CNum q => Some (excel_serial_date q)
    | _ => None
    end
  else None.

(** [normalizeTradeType] *)
Definition normalizeTradeType (type : Cell) : TradeType :=
  if truthy type then
    let normalized := toLowerCase (trim (String_of type)) in
    if String.eqb normalized "sell" then Sell
    else if String.eqb normalized "income" then Income
    else Buy
  else Buy.

(** ** Bulk import: POST /upload/trades *)

Record SkippedReasons := mkReasons {
  noToken : nat;
  zeroUnits : nat;
  invalidUnits : nat;
  other : nat
}.

(** A debugging entry of [skippedRows]; the row itself stands for the
    first 100 characters of its JSON text. *)
Record SkippedRow := mkSkippedRow {
  sr_row : nat;
  sr_reason : string;
  sr_data : option Row;
  sr_token : option Cell
}.

(** The variables the loop updates, with the [trades] table. *)
Record ImportState := mkImport {
  imported : nat;
  skipped : nat;
  errors : list string;
  skippedReasons : SkippedReasons;
  skippedRows : list SkippedRow;
  table : list Trade
}.

(** The reason counters together with the rows recorded in [errors]. *)
Definition accounted (st : ImportState) : nat :=
  noToken (skippedReasons st) + zeroUnits (skippedReasons st)
  + invalidUnits (skippedReasons st) + other (skippedReasons st)
  + length (errors st).

Definition initial_state (tbl : list Trade) : ImportState :=
  {| imported := 0;
     skipped := 0;
     errors := [];
     skippedReasons := {| noToken := 0; zeroUnits := 0; invalidUnits := 0; other := 0 |};
     skippedRows := [];
     table := tbl |}.

(** [if (skippedRows.length < 20) skippedRows.push(entry)] *)
Definition push_skipped (rows : list SkippedRow) (entry : SkippedRow) : list SkippedRow :=
  if (length rows <? 20)%nat then rows ++ [entry] else rows.

(** The fields bound to the INSERT statement for a row that passed the
    checks, after the missing one of average price and total is derived. *)
Definition trade_of_row (token dateValue type : Cell) (parsedUnits : Q)
  (parsedAvgPrice0 parsedTotal0 : Parsed) : Trade :=
  let units_truthy := negb (Qeq_bool parsedUnits 0) in
  let parsedAvgPrice :=
    if (negb (parsed_truthy parsedAvgPrice0) && parsed_truthy parsedTotal0
        && units_truthy)%bool
    then match parsedTotal0 with
         | Pnum tot => Pnum (Qabs (tot / parsedUnits))
         | _ => parsedAvgPrice0
         end
    else parsedAvgPrice0 in
  let parsedTotal :=
    if (negb (parsed_truthy parsedAvgPrice0) && parsed_truthy parsedTotal0
        && units_truthy)%bool
    then parsedTotal0
    else if (negb (parsed_truthy parsedTotal0) && parsed_truthy parsedAvgPrice0
             && units_truthy)%bool
    then match parsedAvgPrice0 with
         | Pnum avg => Pnum (avg * parsedUnits)
         | _ => parsedTotal0
         end
    else parsedTotal0 in
  {| t_date := match parseExcelDate dateValue with Some d => if String.eqb d "" then today else d | None => today end;
     t_token := trim (toUpperCase (String_of token));
     t_units := Qabs parsedUnits;
     t_avg_price := parsed_sql parsedAvgPrice;
     t_total := if parsed_truthy parsedTotal
                then match parsedTotal with Pnum q => Some (Qabs q) | _ => None end
                else None;
     t_type := normalizeTradeType type |}.

(** One iteration of the loop of [insertMany], for the row at index [i]. *)
Definition process_row (i : nat) (row : Row) (st : ImportState) : ImportState :=
  let token := getColumnValue row ["Token"; "token"; "TOKEN"; "SYMBOL"; "Symbol"] in
  let dateValue := getColumnValue row ["Date"; "date"; "DATE"] in
  let units :=
    getColumnValue row ["Units"; "units"; "UNITS"; "Quantity"; "quantity"; "QTY"; "Qty"] in
  let avgPrice :=
    getColumnValue row ["Avg Price"; "Avg. Price"; "avg_price"; "AVG PRICE"; "Price";
                        "price"; "PRICE"; "AvgPrice"] in
  let total :=
    getColumnValue row ["Total Bot"; "Total"; "total"; "TOTAL BOT"; "TOTAL"; "Amount";
                        "amount"; "TotalBot"] in
  let type :=
    getColumnValue row ["Buy/Sell/Income"; "Type"; "type"; "TYPE"; "Side"; "side";
                        "Action"; "action"] in
  let reasons := skippedReasons st in
  if (negb (truthy token) || String.eqb (trim (String_of token)) "")%bool then
    {| imported := imported st;
       skipped := S (skipped st);
       errors := errors st;
       skippedReasons :=
         {| noToken := S (noToken reasons); zeroUnits := zeroUnits reasons;
            invalidUnits := invalidUnits reasons; other := other reasons |};
       skippedRows :=
         push_skipped (skippedRows st)
           {| sr_row := i + 2; sr_reason := "No token"; sr_data := Some row;
              sr_token := None |};
       table := table st |}
  else
    let parsedAvgPrice := parse_money avgPrice in
    let parsedTotal := parse_money total in
    match parseFloat units with
    | None =>
        {| imported := imported st;
           skipped := S (skipped st);
           errors := errors st;
           skippedReasons :=
             {| noToken := noToken reasons; zeroUnits := zeroUnits reasons;
                invalidUnits := S (invalidUnits reasons); other := other reasons |};
           skippedRows :=
             push_skipped (skippedRows st)
               {| sr_row := i + 2; sr_reason := "Invalid units: " ++ String_of units;
                  sr_data := None; sr_token := Some token |};
           table := table st |}
    | Some parsedUnits =>
        if (Qeq_bool parsedUnits 0 && negb (parsed_truthy parsedTotal))%bool then
          {| imported := imported st;
             skipped := S (skipped st);
             errors := errors st;
             skippedReasons :=
               {| noToken := noToken reasons; zeroUnits := S (zeroUnits reasons);
                  invalidUnits := invalidUnits reasons; other := other reasons |};
             skippedRows :=
               push_skipped (skippedRows st)
                 {| sr_row := i + 2; sr_reason := "Zero units with no total";
                    sr_data := None; sr_token := Some token |};
             table := table st |}
        else
          let t := trade_of_row token dateValue type parsedUnits parsedAvgPrice
                     parsedTotal in
          match insert_error (table st) t with
          | None =>
              {| imported := S (imported st);
                 skipped := skipped st;
                 errors := errors st;
                 skippedReasons := reasons;
                 skippedRows := skippedRows st;
                 table := table st ++ [t] |}
          | Some message =>
              {| imported := imported st;
                 skipped := S (skipped st);
                 errors := errors st ++ ["Row " ++ string_of_nat (i + 2) ++ ": " ++ message];
                 skippedReasons := reasons;
                 skippedRows := skippedRows st;
                 table := table st |}
          end
    end.

(** [for (let i = 0; i < rows.length; i++)], from index [i]. *)
Fixpoint insertMany (i : nat) (rows : list Row) (st : ImportState) : ImportState :=
  match rows with
  | [] => st
  | row :: rest => insertMany (S i) rest (process_row i row st)
  end.

Record UploadResponse := mkResponse {
  success : bool;
  res_imported : nat;
  res_skipped : nat;
  res_total : nat;
  res_skippedReasons : SkippedReasons;
  res_skippedRows : list SkippedRow;
  res_errors : list string
}.

(** The handler once the sheet is read into [rawData]: an empty sheet is
    answered with status 400 and nothing is stored. *)
Definition uploadTrades (rawData : list Row) (tbl : list Trade)
  : string + (UploadResponse * list Trade) :=
  match rawData with
  | [] => inl "No data found in the file"
  | _ =>
      let st := insertMany 0 rawData (initial_state tbl) in
      inr ({| success := true;
              res_imported := imported st;
              res_skipped := skipped st;
              res_total := length rawData;
              res_skippedReasons := skippedReasons st;
              res_skippedRows := firstn 20 (skippedRows st);
              res_errors := firstn 10 (errors st) |},
           table st)
  end.

(** ** Spreadsheet upload of monthly performance *)

(** [parseFloat(getColumnValue(row, ...) || 0)], then [isNaN(x) ? 0 : x]. *)
Definition number_column (row : Row) (possibleNames : list string) : Q :=
  let v := getColumnValue row possibleNames in
  if truthy v then
    match parseFloat v with
    | Some q => q
    | None => 0
    end
  else 0.

(** The values bound by the upload's [stmt.run]; the three expense
    columns are not in its column list and take the column default 0. *)
Definition upload_values (parsedMonth : string) (row : Row) : PerfRecord :=
  {| month := parsedMonth;
     gp_subs := number_column row ["GP SUBS"; "GP Subs"; "gp_subs"];
     lp_subs := number_column row ["LP SUBS"; "LP Subs"; "lp_subs"];
     initial_value :=
       number_column row ["INITIAL VALUE"; "Initial Value"; "initial_value"];
     ending_value :=
       number_column row ["END/LIVE VALUE"; "END VALUE"; "ENDING VALUE"; "Ending Value";
                          "ending_value"; "End/Live Value"];
     motus_return := number_column row ["MOTUS"; "Motus"; "motus_return"; "Motus Return"];
     btc_return := number_column row ["BTC"; "Btc"; "btc_return"; "BTC Return"];
     eth_return := number_column row ["ETH"; "Eth"; "eth_return"; "ETH Return"];
     cci30_return := number_column row ["CCI30"; "Cci30"; "cci30_return"; "CCI30 Return"];
     sp_ex_mega_return :=
       number_column row ["S&PexMEGA"; "S&P ex MEGA"; "sp_ex_mega_return"; "S&PexMega";
                          "SPexMEGA"];
     spx_return := number_column row ["SPX"; "Spx"; "spx_return"; "SPX Return"];
     qqq_return := number_column row ["QQQ"; "Qqq"; "qqq_return"; "QQQ Return"];
     fund_expenses := 0;
     mgmt_fees := 0;
     setup_costs := 0 |}.

(** One row of POST /upload/perf-tracker: [None] when the row is skipped
    for want of a month. *)
Definition uploadPerfRow (row : Row) (tbl : list PerfRecord)
  : option (list PerfRecord) :=
  match parseMonthValue (getColumnValue row ["MONTH"; "Month"; "month"]) with
  | Some parsedMonth =>
      if String.eqb parsedMonth "" then None
      else Some (upsert upload_conflict_update (upload_values parsedMonth row) tbl)
  | None => None
  end.

End UploadModel.

(** ** Concrete ledgers and states used below *)

(** A position bought for 100 and sold in full for 150. *)
Definition closed_position_db : Db :=
  {| trades :=
       [ {| t_date := "2024-01-05"; t_token := "BTC"; t_units := 1;
            t_avg_price := Some 100; t_total := Some 100; t_type := Buy |};
         {| t_date := "2024-02-05"; t_token := "BTC"; t_units := 1;
            t_avg_price := Some 150; t_total := Some 150; t_type := Sell |} ];
     investors := [];
     perf_tracker := [];
     exits := [] |}.

(** A single purchase of exactly 0.0001 units. *)
Definition boundary_trades : list Trade :=
  [ {| t_date := "2024-03-01"; t_token := "XYZ"; t_units := 1 # 10000;
       t_avg_price := Some 10; t_total := Some (1 # 1000); t_type := Buy |} ].

(** Purchases of 0.00005 units of one token and 0.0002 units of another. *)
Definition dust_trades : list Trade :=
  [ {| t_date := "2024-03-01"; t_token := "AAA"; t_units := 5 # 100000;
       t_avg_price := Some 10; t_total := Some (5 # 10000); t_type := Buy |};
    {| t_date := "2024-03-02"; t_token := "BBB"; t_units := 2 # 10000;
       t_avg_price := Some 10; t_total := Some (2 # 1000); t_type := Buy |} ].

(** A live quote without trend data worth keeping: price [p], all four
    horizons 0 (the server stores [quote.price || 0] and so on). *)
Definition live_quote (p : Q) : Quote :=
  {| price := p;
     isManual := false;
     percent_change_24h := Some 0;
     percent_change_7d := Some 0;
     percent_change_30d := Some 0;
     percent_change_60d := Some 0;
     market_cap := Some 0;
     volume_24h := Some 0;
     name := None |}.

(** Live quotes in which XYZ is listed with price 0, and a manual price. *)
Definition zero_priced_quotes : gmap string Quote :=
  <["BTC" := live_quote 50000]> (<["XYZ" := live_quote 0]> ∅).

Definition xyz_manual : list ManualPrice :=
  [ {| mp_token := "XYZ"; mp_price := 10 |} ].

(** The scenario of the specification: BTC is quoted live, XYZ only has a
    manual price. *)
Definition btc_quotes : gmap string Quote := <["BTC" := live_quote 50000]> ∅.

(** Cash data with a residual of 45000. *)
Definition cash_45000 : UsdcData :=
  {| total_subscriptions := 150000;
     cost_basis := 100000;
     total_expenses := 5000;
     exits_cost_basis := 0;
     usdc_balance := 45000 |}.

(** A ledger holding 500 USDC through a trade, next to 2 BTC. *)
Definition usdc_trades : list Trade :=
  [ {| t_date := "2024-01-05"; t_token := "USDC"; t_units := 500;
       t_avg_price := Some 1; t_total := Some 500; t_type := Buy |};
    {| t_date := "2024-01-06"; t_token := "BTC"; t_units := 2;
       t_avg_price := Some 50000; t_total := Some 100000; t_type := Buy |} ].

(** A monthly record with the given month, subscriptions and ending value. *)
Definition perf_record (m : string) (gp lp ending : Q) : PerfRecord :=
  {| month := m; gp_subs := gp; lp_subs := lp; initial_value := 0;
     ending_value := ending; motus_return := 0; btc_return := 0; eth_return := 0;
     cci30_return := 0; sp_ex_mega_return := 0; spx_return := 0; qqq_return := 0;
     fund_expenses := 0; mgmt_fees := 0; setup_costs := 0 |}.

(** Cash data with subscriptions of 100000 and a residual of 120000. *)
Definition cash_120000 : UsdcData :=
  {| total_subscriptions := 100000;
     cost_basis := 0;
     total_expenses := 0;
     exits_cost_basis := 0;
     usdc_balance := 120000 |}.

(** February 2024, no holdings, and a January record whose ending value
    was stored as 0. *)
Definition zero_ending_state : AppState :=
  {| st_prices := ∅;
     st_holdings := [];
     st_perfTracker := [perf_record "2024-01" 60000 40000 0];
     st_usdcData := Some cash_120000;
     st_manualPrices := [];
     st_currentMonth := "2024-02";
     st_currentYear := 2024 |}.

(** March 2024 with records for December to February. *)
Definition three_month_state : AppState :=
  {| st_prices := ∅;
     st_holdings := [];
     st_perfTracker :=
       [perf_record "2024-02" 0 0 110000; perf_record "2023-12" 60000 40000 100000;
        perf_record "2024-01" 0 0 105000];
     st_usdcData := Some cash_120000;
     st_manualPrices := [];
     st_currentMonth := "2024-03";
     st_currentYear := 2024 |}.

(** A freshly opened dashboard: nothing loaded. *)
Definition empty_state : AppState :=
  {| st_prices := ∅;
     st_holdings := [];
     st_perfTracker := [];
     st_usdcData := None;
     st_manualPrices := [];
     st_currentMonth := "2024-03";
     st_currentYear := 2024 |}.

(** An import environment: text cells hold no numbers, numbers and dates
    print as a placeholder, and the INSERT statement behaves as [ins]. *)
Definition upload_with (ins : list Trade -> Trade -> option string)
  (rawData : list Row) (tbl : list Trade) : string + (UploadResponse * list Trade) :=
  uploadTrades (fun _ => None) (fun _ => "0") (fun _ _ _ => "date")
    (fun _ => "1900-01-01") "2024-03-01" ins rawData tbl.

(** A database that accepts every row. *)
Definition insert_ok (tbl : list Trade) (t : Trade) : option string := None.

(** A database that refuses every write (SQLITE_FULL). *)
Definition insert_full (tbl : list Trade) (t : Trade) : option string :=
  Some "database or disk is full".

(** A well-formed sheet row: 1 BTC bought for 100. *)
Definition btc_row : Row :=
  [("Date", CStr "2024-02-01"); ("Token", CStr "BTC"); ("Units", CNum 1);
   ("Avg Price", CNull); ("Total Bot", CNum 100); ("Buy/Sell/Income", CStr "Buy")].

(** A sheet with one good row, an empty row, a row without units and a row
    with zero units. *)
Definition mixed_sheet : list Row :=
  [ btc_row;
    [("Date", CNull); ("Token", CNull); ("Units", CNull)];
    [("Token", CStr "ETH"); ("Units", CStr "n/a")];
    [("Token", CStr "SOL"); ("Units", CNum 0); ("Total Bot", CNull)] ].

(** January 2024 as stored, with expenses of 500, 200 and 100. *)
Definition january_stored : PerfRecord :=
  {| month := "2024-01"; gp_subs := 60000; lp_subs := 40000;
     initial_value := 100000; ending_value := 105000; motus_return := 5;
     btc_return := 3; eth_return := 2; cci30_return := 1; sp_ex_mega_return := 1;
     spx_return := 1; qqq_return := 1;
     fund_expenses := 500; mgmt_fees := 200; setup_costs := 100 |}.

(** A sheet row for January 2024 that also carries expense columns. *)
Definition january_row : Row :=
  [("MONTH", CStr "2024-01"); ("GP SUBS", CNum 70000); ("LP SUBS", CNum 50000);
   ("INITIAL VALUE", CNum 120000); ("END/LIVE VALUE", CNum 130000);
   ("fund_expenses", CNum 700); ("mgmt_fees", CNum 300); ("setup_costs", CNum 150)].

(** A request body for January 2024 with every field given. *)
Definition january_body : PerfBody :=
  {| b_month := "2024-01"; b_gp_subs := Some 70000; b_lp_subs := Some 50000;
     b_initial_value := Some 120000; b_ending_value := Some 130000;
     b_motus_return := Some 8; b_btc_return := Some 4; b_eth_return := Some 3;
     b_cci30_return := Some 2; b_sp_ex_mega_return := Some 1;
     b_spx_return := Some 1; b_qqq_return := Some 1;
     b_fund_expenses := Some 700; b_mgmt_fees := Some 300;
     b_setup_costs := Some 150 |}.


(** ** Manual entry of trades: POST /trades and PUT /trades/:id *)

(** The request body the trade form sends: a price or total left blank
    arrives as null. *)
Record TradeBody := mkTradeBody {
  tb_date : string;
  tb_token : string;
  tb_units : Q;
  tb_avg_price : option Q;
  tb_total : option Q;
  tb_type : TradeType
}.

(** JavaScript truthiness of a number that may be null. *)
Definition num_truthy (v : option Q) : bool :=
  match v with
  | Some q => negb (Qeq_bool q 0)
  | None => false
  end.

(** [if (!avg_price && total && units) finalAvgPrice = total / units] *)
Definition derives_price (b : TradeBody) : bool :=
  (negb (num_truthy (tb_avg_price b)) && num_truthy (tb_total b)
   && negb (Qeq_bool (tb_units b) 0))%bool.

(** [else if (!total && avg_price && units) finalTotal = avg_price * units] *)
Definition derives_total (b : TradeBody) : bool :=
  (negb (derives_price b) && negb (num_truthy (tb_total b))
   && num_truthy (tb_avg_price b) && negb (Qeq_bool (tb_units b) 0))%bool.

Definition finalAvgPrice (b : TradeBody) : option Q :=
  if derives_price b then
    match tb_total b with
    | Some total => Some (total / tb_units b)
    | None => tb_avg_price b
    end
  else tb_avg_price b.

Definition finalTotal (b : TradeBody) : option Q :=
  if derives_total b then
    match tb_avg_price b with
    | Some avg_price => Some (avg_price * tb_units b)
    | None => tb_total b
    end
  else tb_total b.

(** The values bound by [stmt.run] in both handlers. *)
Definition trade_values (b : TradeBody) : Trade :=
  {| t_date := tb_date b;
     t_token := toUpperCase (tb_token b);
     t_units := tb_units b;
     t_avg_price := finalAvgPrice b;
     t_total := finalTotal b;
     t_type := tb_type b |}.

Definition with_trades (db : Db) (ts : list Trade) : Db :=
  {| trades := ts;
     investors := investors db;
     perf_tracker := perf_tracker db;
     exits := exits db |}.

Definition with_exits (db : Db) (es : list Exit) : Db :=
  {| trades := trades db;
     investors := investors db;
     perf_tracker := perf_tracker db;
     exits := es |}.

(** POST /trades: the new row gets the next id, the end of the table. *)
Definition postTrades (b : TradeBody) (db : Db) : Db :=
  with_trades db (trades db ++ [trade_values b]).

(** ** Manual prices: POST /manual-prices, DELETE /manual-prices/:token *)

(** [INSERT ... ON CONFLICT(token) DO UPDATE SET price = excluded.price] *)
Fixpoint upsert_price (tok : string) (p : Q) (tbl : list ManualPrice)
  : list ManualPrice :=
  match tbl with
  | [] => [ {| mp_token := tok; mp_price := p |} ]
  | r :: tl =>
      if String.eqb (mp_token r) tok
      then {| mp_token := mp_token r; mp_price := p |} :: tl
      else r :: upsert_price tok p tl
  end.

Definition postManualPrices (tok : string) (p : Q) (tbl : list ManualPrice)
  : list ManualPrice :=
  upsert_price (toUpperCase tok) p tbl.

(** [DELETE FROM manual_prices WHERE token = ?] *)
Definition deleteManualPrices (tok : string) (tbl : list ManualPrice)
  : list ManualPrice :=
  List.filter (fun r => negb (String.eqb (mp_token r) (toUpperCase tok))) tbl.

(** A request that changes the manual price table. *)
Inductive ManualPriceRequest :=
| PostManual (tok : string) (p : Q)
| DeleteManual (tok : string).

Definition manual_request (tbl : list ManualPrice) (r : ManualPriceRequest)
  : list ManualPrice :=
  match r with
  | PostManual tok p => postManualPrices tok p tbl
  | DeleteManual tok => deleteManualPrices tok tbl
  end.

(** ** Price cache: GET /prices *)

Record PriceCache := mkCache {
  cache_data : option (gmap string Quote);
  cache_timestamp : Z
}.

Definition CACHE_DURATION : Z := 60000.

(** The answer of the handler: the price map, or status 500. *)
Inductive PricesAnswer :=
| PricesJson (data : gmap string Quote)
| PricesError.

Record PricesResult := mkPricesResult {
  answer : PricesAnswer;
  cache_after : PriceCache;
  called_upstream : bool
}.

(** One request at time [now]; [upstream] is what the quote service would
    answer if asked, once processed into a price map ([None]: the call or
    the processing throws). *)
Definition getPrices (now : Z) (upstream : option (gmap string Quote))
  (priceCache : PriceCache) : PricesResult :=
  match cache_data priceCache with
  | Some data =>
      if (now - cache_timestamp priceCache <? CACHE_DURATION)%Z then
        {| answer := PricesJson data; cache_after := priceCache;
           called_upstream := false |}
      else
        match upstream with
        | Some priceData =>
            {| answer := PricesJson priceData;
               cache_after := {| cache_data := Some priceData; cache_timestamp := now |};
               called_upstream := true |}
        | None =>
            {| answer := PricesJson data; cache_after := priceCache;
               called_upstream := true |}
        end
  | None =>
      match upstream with
      | Some priceData =>
          {| answer := PricesJson priceData;
             cache_after := {| cache_data := Some priceData; cache_timestamp := now |};
             called_upstream := true |}
      | None =>
          {| answer := PricesError; cache_after := priceCache;
             called_upstream := true |}
      end
  end.

(** A run of requests, each with its time and the upstream behaviour at
    that time; the answers in order and the cache left behind. *)
Fixpoint serve (reqs : list (Z * option (gmap string Quote))) (c : PriceCache)
  : list PricesAnswer * PriceCache :=
  match reqs with
  | [] => ([], c)
  | (now, upstream) :: rest =>
      let r := getPrices now upstream c in
      let (answers, c') := serve rest (cache_after r) in
      (answer r :: answers, c')
  end.

(** ** Checker drill-down: GET /checker/token/:token *)

Record TokenSummary := mkSummary {
  sum_buy_units : option Q;
  sum_sell_units : option Q;
  sum_income_units : option Q;
  sum_net_units : option Q;
  sum_buy_total : option Q;
  sum_sell_total : option Q;
  sum_cost_basis : option Q
}.

(** [WHERE UPPER(token) = ?] *)
Definition rows_of_upper (tok : string) (ts : list Trade) : list Trade :=
  List.filter (fun t => String.eqb (toUpperCase (t_token t)) tok) ts.

(** [ORDER BY date ASC, id ASC]; the table is listed by id, so a stable
    sort on the date gives this order. *)
Definition date_asc (a b : Trade) : bool := String.leb (t_date a) (t_date b).

Record TokenDrilldown := mkDrilldown {
  dd_token : string;
  dd_trades : list Trade;
  dd_summary : TokenSummary
}.

Definition checkerToken (tokenParam : string) (ts : list Trade) : TokenDrilldown :=
  let tok := toUpperCase tokenParam in
  let g := rows_of_upper tok ts in
  {| dd_token := tok;
     dd_trades := sort_by date_asc g;
     dd_summary :=
       {| sum_buy_units := SUM (map (case_when Buy (fun t => Some (t_units t))) g);
          sum_sell_units := SUM (map (case_when Sell (fun t => Some (t_units t))) g);
          sum_income_units := SUM (map (case_when Income (fun t => Some (t_units t))) g);
          sum_net_units := SUM (map (fun t => Some (case_units t)) g);
          sum_buy_total := SUM (map (case_when Buy t_total) g);
          sum_sell_total := SUM (map (case_when Sell t_total) g);
          sum_cost_basis := SUM (map case_cost g) |} |}.

(** ** Spreadsheet upload of monthly performance: the whole sheet *)


Section PerfUploadModel.

Variable parseFloat_string : string -> option Q.



End PerfUploadModel.

(** ** Spreadsheet upload of exits: POST /upload/exits *)

Record ExitUploadState := mkExitUpload {
  xu_imported : nat;
  xu_skipped : nat;
  xu_errors : list string;
  xu_table : list Exit
}.

Section ExitUploadModel.

Variable parseFloat_string : string -> option Q.
Variable Number_toString : Q -> string.
Variable Date_toString : nat -> nat -> nat -> string.
Variable exit_insert_error : list Exit -> Exit -> option string.

(** [parseFloat(String(costBasis || 0).replace(/[$,]/g, ''))] *)
Definition parse_cost (costBasis : Cell) : option Q :=
  if truthy costBasis then
    match costBasis with
    | CNum q => Some q
    | CStr s => parseFloat_string (strip_money s)
    | _ => None
    end
  else Some 0.

Definition exit_row (i : nat) (row : Row) (st : ExitUploadState) : ExitUploadState :=
  let token := getColumnValue row ["TOKEN"; "Token"; "token"; "SYMBOL"; "Symbol"] in
  let costBasis :=
    getColumnValue row ["COST"; "Cost"; "cost"; "COST BASIS"; "Cost Basis"; "cost_basis"] in
  if (negb (truthy token)
      || String.eqb (trim (String_of Number_toString Date_toString token)) "")%bool
  then
    {| xu_imported := xu_imported st; xu_skipped := S (xu_skipped st);
       xu_errors := xu_errors st; xu_table := xu_table st |}
  else
    match parse_cost costBasis with
    | None =>
        {| xu_imported := xu_imported st; xu_skipped := S (xu_skipped st);
           xu_errors := xu_errors st; xu_table := xu_table st |}
    | Some parsedCost =>
        let e := {| e_token :=
                      trim (toUpperCase (String_of Number_toString Date_toString token));
                    e_cost_basis := parsedCost;
                    e_exit_date := None |} in
        match exit_insert_error (xu_table st) e with
        | None =>
            {| xu_imported := S (xu_imported st); xu_skipped := xu_skipped st;
               xu_errors := xu_errors st; xu_table := xu_table st ++ [e] |}
        | Some message =>
            {| xu_imported := xu_imported st; xu_skipped := S (xu_skipped st);
               xu_errors :=
                 xu_errors st ++ ["Row " ++ string_of_nat (i + 2) ++ ": " ++ message];
               xu_table := xu_table st |}
        end
    end.

Fixpoint exit_rows (i : nat) (rows : list Row) (st : ExitUploadState)
  : ExitUploadState :=
  match rows with
  | [] => st
  | row :: rest => exit_rows (S i) rest (exit_row i row st)
  end.

Definition uploadExits (rawData : list Row) (tbl : list Exit)
  : string + ExitUploadState :=
  match rawData with
  | [] => inl "No data found in the file"
  | _ =>
      inr (exit_rows 0 rawData
             {| xu_imported := 0; xu_skipped := 0; xu_errors := []; xu_table := tbl |})
  end.

End ExitUploadModel.

(** ** Properties of stored rows *)

(** A string that does not start with white space. *)
Definition head_ok (s : string) : Prop :=
  match s with
  | EmptyString => True
  | String c _ => is_ws c = false
  end.

(** A token as every write path stores it: upper case, trimmed. *)
Definition normal_token (tok : string) : Prop :=
  toUpperCase tok = tok /\ trim tok = tok /\ tok <> "".

(** What the bulk import guarantees of a trade row it stores. *)
Definition well_stored (t : Trade) : Prop :=
  0 <= t_units t
  /\ (forall total, t_total t = Some total -> 0 < total)
  /\ normal_token (t_token t).

(** ** InvestorsTab: totals shown above the table *)

Definition is_type (ty : InvestorType) (i : Investor) : bool :=
  match i_type i, ty with
  | GP, GP | LP, LP => true
  | _, _ => false
  end.

(** [list.reduce((sum, i) => sum + i.amount, 0)] *)
Definition sum_amounts (l : list Investor) : Q :=
  fold_left (fun sum i => sum + i_amount i) l 0.

Record InvestorTotals := mkInvestorTotals {
  gpTotal : Q;
  lpTotal : Q;
  totalAll : Q;
  gpSubscriptions : Q;
  lpSubscriptions : Q;
  totalSubscriptions : Q;
  gpRedemptions : Q;
  lpRedemptions : Q;
  totalRedemptions : Q
}.

Definition investorTotals (investors : list Investor) : InvestorTotals :=
  let gpTotal := sum_amounts (List.filter (is_type GP) investors) in
  let lpTotal := sum_amounts (List.filter (is_type LP) investors) in
  let gpSubscriptions :=
    sum_amounts (List.filter (fun i => is_type GP i && Qlt_bool 0 (i_amount i))
                   investors) in
  let lpSubscriptions :=
    sum_amounts (List.filter (fun i => is_type LP i && Qlt_bool 0 (i_amount i))
                   investors) in
  let gpRedemptions :=
    sum_amounts (List.filter (fun i => is_type GP i && Qlt_bool (i_amount i) 0)
                   investors) in
  let lpRedemptions :=
    sum_amounts (List.filter (fun i => is_type LP i && Qlt_bool (i_amount i) 0)
                   investors) in
  {| gpTotal := gpTotal;
     lpTotal := lpTotal;
     totalAll := gpTotal + lpTotal;
     gpSubscriptions := gpSubscriptions;
     lpSubscriptions := lpSubscriptions;
     totalSubscriptions := gpSubscriptions + lpSubscriptions;
     gpRedemptions := gpRedemptions;
     lpRedemptions := lpRedemptions;
     totalRedemptions := gpRedemptions + lpRedemptions |}.

(** ** PortfolioTab: summary cards *)

(** [enrichedHoldings.reduce((sum, h) => sum + (h.cost_basis || 0), 0)] *)
Definition portfolioCostBasis (ehs : list EnrichedHolding) : Q :=
  fold_left (fun sum h => sum + js_or_null (eh_cost_basis h) 0) ehs 0.

(** [enrichedHoldings.reduce((sum, h) => sum + (h.pnl || 0), 0)] *)
Definition totalPnl (ehs : list EnrichedHolding) : Q :=
  fold_left (fun sum h => sum + js_or (pnl h) 0) ehs 0.

(** [showSmallBalances ? all : all.filter(h => Math.abs(h.currentValue) >= 1000)] *)
Definition filteredHoldings (showSmallBalances : bool) (ehs : list EnrichedHolding)
  : list EnrichedHolding :=
  if showSmallBalances then ehs
  else List.filter (fun h => Qle_bool 1000 (Qabs (currentValue h))) ehs.

(** ** CheckerTab: values, total and advisory flags *)

Record HoldingWithValue := mkWithValue {
  hv_row : TokenBreakdown;
  hv_price : Q;
  hv_value : Q
}.

Definition with_value (prices : gmap string Quote) (h : TokenBreakdown)
  : HoldingWithValue :=
  let price := price_or_zero prices (toUpperCase (cb_token h)) in
  {| hv_row := h; hv_price := price; hv_value := net_units h * price |}.

(** The comparator [(a, b) => b.value - a.value]. *)
Definition value_desc (a b : HoldingWithValue) : bool :=
  Qle_bool (hv_value b) (hv_value a).

Definition holdingsWithValues (prices : gmap string Quote) (data : CheckerResponse)
  : list HoldingWithValue :=
  sort_by value_desc
    (map (with_value prices)
       (List.filter (fun h => not_usdc (cb_token h)) (chk_holdings data))).

(** [totalPortfolioValue]: summed in the [map] callback, then the cash
    residual is added. *)
Definition totalPortfolioValue (prices : gmap string Quote) (data : CheckerResponse)
  : Q :=
  fold_left (fun total h => total + hv_value (with_value prices h))
    (List.filter (fun h => not_usdc (cb_token h)) (chk_holdings data)) 0
  + calc_usdc_balance (calculations data).

Record CheckerFlags := mkFlags {
  negative_holdings : list string;
  holdings_without_price : list string;
  negative_usdc : bool;
  no_subscriptions : bool;
  no_obvious_issues : bool
}.

Definition checkerFlags (prices : gmap string Quote) (data : CheckerResponse)
  : CheckerFlags :=
  let hs := holdingsWithValues prices data in
  let negative := fun h => Qlt_bool (net_units (hv_row h)) 0 in
  let unpriced :=
    fun h => (Qeq_bool (hv_price h) 0 && Qlt_bool 0 (net_units (hv_row h)))%bool in
  let usdc := calc_usdc_balance (calculations data) in
  let subs := calc_total_subscriptions (calculations data) in
  {| negative_holdings := map (fun h => cb_token (hv_row h)) (List.filter negative hs);
     holdings_without_price :=
       map (fun h => cb_token (hv_row h)) (List.filter unpriced hs);
     negative_usdc := Qlt_bool usdc 0;
     no_subscriptions := Qeq_bool subs 0;
     no_obvious_issues :=
       ((length (List.filter (fun h => negative h || unpriced h) hs) =? 0)%nat
        && Qle_bool 0 usdc && Qlt_bool 0 subs)%bool |}.

(** ** The return calculator over binary64 numbers *)

(** JavaScript numbers are IEEE 754 binary64 values.  This module embeds
    [mergedPrices], [calculatePortfolioValue] and [calculateReturns]
    (client/src/App.js) once more, line by line as above, with the
    kernel's binary64 numbers in place of the rationals, so that
    overflow, infinities and NaN are those of the running code.  The
    records carry the fields these three functions read or write. *)
Module Binary64.

Local Open Scope float_scope.

(** JavaScript truthiness of a number: 0, -0 and NaN are falsy. *)
Definition truthy (x : float) : bool := negb ((x =? 0) || is_nan x).

(** [x || y] at a number [x]. *)
Definition js_or (x y : float) : float := if truthy x then x else y.

Record Quote := mkQuote {
  price : float;
  isManual : bool;
  percent_change_24h : option float;
  percent_change_7d : option float;
  percent_change_30d : option float;
  percent_change_60d : option float
}.

Record ManualPrice := mkManualPrice {
  mp_token : string;
  mp_price : float
}.

Record Holding := mkHolding {
  token : string;
  total_units : float
}.

Record UsdcData := mkUsdc {
  total_subscriptions : float;
  usdc_balance : float
}.

Record PerfRecord := mkPerf {
  month : string;
  gp_subs : float;
  lp_subs : float;
  ending_value : float
}.

(** The object literal [mergedPrices] stores for a manual price. *)
Definition manual_quote (p : float) : Quote :=
  {| price := p;
     isManual := true;
     percent_change_24h := None;
     percent_change_7d := None;
     percent_change_30d := None;
     percent_change_60d := None |}.

(** [!merged[tok] || !merged[tok].price] *)
Definition no_usable_price (merged : gmap string Quote) (tok : string) : bool :=
  match merged !! tok with
  | None => true
  | Some q => negb (truthy (price q))
  end.

Definition merge_step (merged : gmap string Quote) (mp : ManualPrice)
  : gmap string Quote :=
  if no_usable_price merged (mp_token mp)
  then <[mp_token mp := manual_quote (mp_price mp)]> merged
  else merged.

Definition mergedPrices (prices : gmap string Quote)
  (manualPrices : list ManualPrice) : gmap string Quote :=
  fold_left merge_step manualPrices prices.

(** [mergedPrices[token]?.price || 0] *)
Definition price_or_zero (prices : gmap string Quote) (tok : string) : float :=
  match prices !! tok with
  | Some q => js_or (price q) 0
  | None => 0
  end.

Definition calculatePortfolioValue (holdings : list Holding)
  (merged : gmap string Quote) (usdcData : option UsdcData) : float :=
  let totalValue :=
    fold_left
      (fun totalValue holding =>
         totalValue
         + total_units holding * price_or_zero merged (toUpperCase (token holding)))
      holdings 0 in
  match usdcData with
  | Some u => totalValue + usdc_balance u
  | None => totalValue
  end.

(** [(a, b) => a.month.localeCompare(b.month)] *)
Definition month_le (a b : PerfRecord) : bool := String.leb (month a) (month b).

Definition sortedPerf (perfTracker : list PerfRecord) : list PerfRecord :=
  sort_by month_le perfTracker.

(** [sortedPerf.filter(p => p.month < currentMonth).pop()] *)
Definition lastMonthRecord (perfTracker : list PerfRecord) (currentMonth : string)
  : option PerfRecord :=
  last (List.filter (fun p => String.ltb (month p) currentMonth)
          (sortedPerf perfTracker)).

(** [usdcData?.total_subscriptions || 0] *)
Definition subscriptions_or_zero (usdcData : option UsdcData) : float :=
  match usdcData with
  | Some u => js_or (total_subscriptions u) 0
  | None => 0
  end.

(** [lastMonthRecord?.ending_value || (usdcData?.total_subscriptions || 0)] *)
Definition beginningValue (perfTracker : list PerfRecord)
  (usdcData : option UsdcData) (currentMonth : string) : float :=
  match lastMonthRecord perfTracker currentMonth with
  | Some r => js_or (ending_value r) (subscriptions_or_zero usdcData)
  | None => subscriptions_or_zero usdcData
  end.

(** [sortedPerf.filter(p => p.month.startsWith(String(currentYear - 1))).pop()] *)
Definition lastYearEnd (perfTracker : list PerfRecord) (currentYear : Z)
  : option PerfRecord :=
  last (List.filter
          (fun p => String.prefix (String_of_year (currentYear - 1)) (month p))
          (sortedPerf perfTracker)).

(** [lastYearEnd?.ending_value || beginningValue] *)
Definition yearStartValue (perfTracker : list PerfRecord)
  (usdcData : option UsdcData) (currentMonth : string) (currentYear : Z) : float :=
  match lastYearEnd perfTracker currentYear with
  | Some r => js_or (ending_value r) (beginningValue perfTracker usdcData currentMonth)
  | None => beginningValue perfTracker usdcData currentMonth
  end.

(** [firstRecord ? (firstRecord.gp_subs + firstRecord.lp_subs)
                 : (usdcData?.total_subscriptions || 0)] *)
Definition initialValue (perfTracker : list PerfRecord)
  (usdcData : option UsdcData) : float :=
  match hd_error (sortedPerf perfTracker) with
  | Some firstRecord => gp_subs firstRecord + lp_subs firstRecord
  | None => subscriptions_or_zero usdcData
  end.

(** [d > 0 ? ((totalValue / d) - 1) * 100 : 0] *)
Definition pct_return (totalValue d : float) : float :=
  if 0 <? d then (totalValue / d - 1) * 100 else 0.

Record Returns := mkReturns {
  mtd : float;
  ytd : float;
  sinceInception : float
}.

Record AppState := mkApp {
  st_prices : gmap string Quote;
  st_holdings : list Holding;
  st_perfTracker : list PerfRecord;
  st_usdcData : option UsdcData;
  st_manualPrices : list ManualPrice;
  st_currentMonth : string;
  st_currentYear : Z
}.

Definition portfolioValue (st : AppState) : float :=
  calculatePortfolioValue (st_holdings st)
    (mergedPrices (st_prices st) (st_manualPrices st)) (st_usdcData st).

Definition calculateReturns (st : AppState) : Returns :=
  let totalValue := portfolioValue st in
  let bv := beginningValue (st_perfTracker st) (st_usdcData st) (st_currentMonth st) in
  let ysv := yearStartValue (st_perfTracker st) (st_usdcData st)
               (st_currentMonth st) (st_currentYear st) in
  let iv := initialValue (st_perfTracker st) (st_usdcData st) in
  {| mtd := pct_return totalValue bv;
     ytd := pct_return totalValue ysv;
     sinceInception := pct_return totalValue iv |}.

(** Cash data with subscriptions and a residual of 100000. *)
Definition cash_100000 : UsdcData :=
  {| total_subscriptions := 100000; usdc_balance := 100000 |}.

(** February 2024, cash only, and a January record whose ending value was
    stored as 2^-1030 (about 8.7e-311, a positive subnormal number). *)
Definition tiny_ending_state : AppState :=
  {| st_prices := ∅;
     st_holdings := [];
     st_perfTracker :=
       [ {| month := "2024-01"; gp_subs := 60000; lp_subs := 40000;
            ending_value := 0x1p-1030 |} ];
     st_usdcData := Some cash_100000;
     st_manualPrices := [];
     st_currentMonth := "2024-02";
     st_currentYear := 2024 |}.

(** A long and a short position of 2^1023 units (about 9e307), each token
    priced at 4: either product overflows. *)
Definition overflowing_state : AppState :=
  {| st_prices :=
       <["AAA" := {| price := 4; isManual := false;
                     percent_change_24h := Some 0; percent_change_7d := Some 0;
                     percent_change_30d := Some 0; percent_change_60d := Some 0 |}]>
       (<["BBB" := {| price := 4; isManual := false;
                      percent_change_24h := Some 0; percent_change_7d := Some 0;
                      percent_change_30d := Some 0; percent_change_60d := Some 0 |}]> ∅);
     st_holdings :=
       [ {| token := "AAA"; total_units := 0x1p1023 |};
         {| token := "BBB"; total_units := - 0x1p1023 |} ];
     st_perfTracker := [];
     st_usdcData := Some cash_100000;
     st_manualPrices := [];
     st_currentMonth := "2024-02";
     st_currentYear := 2024 |}.

(** March 2024, cash of 100000 and 2 BTC quoted at 10000, with records
    for December (ending 100000), January and February (ending 110000). *)
Definition three_month_state : AppState :=
  {| st_prices :=
       <["BTC" := {| price := 10000; isManual := false;
                     percent_change_24h := Some 0; percent_change_7d := Some 0;
                     percent_change_30d := Some 0; percent_change_60d := Some 0 |}]> ∅;
     st_holdings := [ {| token := "btc"; total_units := 2 |} ];
     st_perfTracker :=
       [ {| month := "2024-02"; gp_subs := 0; lp_subs := 0; ending_value := 110000 |};
         {| month := "2023-12"; gp_subs := 60000; lp_subs := 40000;
            ending_value := 100000 |};
         {| month := "2024-01"; gp_subs := 0; lp_subs := 0; ending_value := 105000 |} ];
     st_usdcData := Some cash_100000;
     st_manualPrices := [];
     st_currentMonth := "2024-03";
     st_currentYear := 2024 |}.

(** A freshly opened dashboard: nothing loaded. *)
Definition empty_state : AppState :=
  {| st_prices := ∅;
     st_holdings := [];
     st_perfTracker := [];
     st_usdcData := None;
     st_manualPrices := [];
     st_currentMonth := "2024-03";
     st_currentYear := 2024 |}.

End Binary64.

(** ** Further concrete inputs *)

(** A trade form with the average price left blank: 2 units for 100. *)
Definition blank_price_body : TradeBody :=
  {| tb_date := "2024-03-01"; tb_token := "eth"; tb_units := 2;
     tb_avg_price := None; tb_total := Some 100; tb_type := Buy |}.

(** A ledger in which one token was stored under two spellings. *)
Definition two_spellings : list Trade :=
  [ {| t_date := "2024-02-01"; t_token := "ETH"; t_units := 3;
       t_avg_price := Some 10; t_total := Some 30; t_type := Buy |};
    {| t_date := "2024-01-01"; t_token := "eth"; t_units := 1;
       t_avg_price := Some 12; t_total := Some 12; t_type := Sell |} ].

(** A sheet of exits: one usable row, one without a token, one whose cost
    is not a number. *)
Definition exits_sheet : list Row :=
  [ [("TOKEN", CStr " luna "); ("COST", CNum 2500)];
    [("TOKEN", CNull); ("COST", CNum 10)];
    [("TOKEN", CStr "FTT"); ("COST", CStr "n/a")] ].

(** Investors whose redemptions exceed their subscriptions. *)
Definition net_redeemed_db : Db :=
  {| trades := [];
     investors :=
       [ {| i_month := "2024-01"; i_client := "A"; i_type := LP; i_amount := 100 |};
         {| i_month := "2024-02"; i_client := "A"; i_type := LP;
            i_amount := - (150) |} ];
     perf_tracker := [];
     exits :=
       [ {| e_token := "LUNA"; e_cost_basis := - (50); e_exit_date := None |} ] |}.

(** A sheet row whose headers are spelled with other case and blanks. *)
Definition loose_header_row : Row :=
  [(" date", CStr "2024-02-01"); ("symbol ", CStr "sol"); ("QUANTITY", CNum 4)].

(** ** Facts about the scalar helpers *)

Lemma js_or_zero (x : Q) : js_or x 0 == x.
Proof.
  unfold js_or. destruct (Qeq_bool x 0) eqn:E; [|reflexivity].
  apply Qeq_bool_eq in E. symmetry. exact E.
Qed.

Lemma sum_fold_acc (col : list (option Q)) (acc : option Q) :
  COALESCE (fold_left sum_step col acc) 0
  == COALESCE acc 0 + Qsum (map (fun v => COALESCE v 0) col).
Proof.
  revert acc. induction col as [|v col IH]; intros acc; simpl.
  - ring.
  - rewrite IH. destruct v as [x|], acc as [a|]; simpl; ring.
Qed.

Lemma coalesce_SUM (col : list (option Q)) :
  COALESCE (SUM col) 0 == Qsum (map (fun v => COALESCE v 0) col).
Proof. unfold SUM. rewrite sum_fold_acc. simpl. ring. Qed.

Lemma Qsum_ext {A} (f g : A -> Q) (l : list A) :
  (forall a, f a == g a) -> Qsum (map f l) == Qsum (map g l).
Proof.
  intros H. induction l as [|a l IH]; simpl; [reflexivity|].
  rewrite H, IH. reflexivity.
Qed.

Lemma Qsum_plus {A} (f g : A -> Q) (l : list A) :
  Qsum (map (fun a => f a + g a) l) == Qsum (map f l) + Qsum (map g l).
Proof.
  induction l as [|a l IH]; simpl; [ring|]. rewrite IH. ring.
Qed.

Lemma case_cost_signed (t : Trade) : COALESCE (case_cost t) 0 == signed_total t.
Proof.
  unfold case_cost, signed_total.
  destruct (t_type t); simpl; try reflexivity.
  destruct (t_total t); simpl; ring.
Qed.

Lemma coalesce_SUM_map {A} (f : A -> option Q) (l : list A) :
  COALESCE (SUM (map f l)) 0 == Qsum (map (fun a => COALESCE (f a) 0) l).
Proof. rewrite coalesce_SUM, map_map. reflexivity. Qed.

(** ** Facts about sorting *)

Section SortingFacts.
Context {A : Type} (le : A -> A -> bool).

Lemma insert_sorted_perm (x : A) (l : list A) :
  Permutation (insert_sorted le x l) (x :: l).
Proof.
  induction l as [|y l IH]; simpl; [reflexivity|].
  destruct (le x y); [reflexivity|].
  rewrite IH. apply perm_swap.
Qed.

Lemma sort_by_perm (l : list A) : Permutation (sort_by le l) l.
Proof.
  induction l as [|x l IH]; simpl; [reflexivity|].
  rewrite insert_sorted_perm, IH. reflexivity.
Qed.

Lemma sort_by_In (l : list A) (x : A) : In x (sort_by le l) <-> In x l.
Proof.
  split; apply Permutation_in; [|symmetry]; apply sort_by_perm.
Qed.

End SortingFacts.

Lemma Qlt_bool_iff (x y : Q) : Qlt_bool x y = true <-> x < y.
Proof.
  unfold Qlt_bool. rewrite negb_true_iff.
  split; intros H.
  - apply Qnot_le_lt. intros Hle. apply Qle_bool_iff in Hle. congruence.
  - destruct (Qle_bool y x) eqn:E; [|reflexivity].
    apply Qle_bool_iff in E. exfalso. apply (Qlt_not_le _ _ H E).
Qed.

(** C1. For every database state the cash-balance endpoint returns
    [usdc_balance = total_subscriptions - total_cost_basis - total_expenses
    - exits_cost_basis], where the four terms are the signed sum of all
    investor-flow amounts, the signed sum of the totals of the trades whose
    upper-cased token is not USDC, the sum of the three expense columns over
    all monthly records, and the sum of all exit cost bases. *)
Theorem usdc_balance_formula (db : Db) :
  let r := getPortfolioUsdc db in
  usdc_balance r
    == total_subscriptions r - cost_basis r - total_expenses r - exits_cost_basis r
  /\ total_subscriptions r == Qsum (map i_amount (investors db))
  /\ cost_basis r
     == Qsum (map signed_total
                (List.filter (fun t => not_usdc (t_token t)) (trades db)))
  /\ total_expenses r
     == Qsum (map (fun p => fund_expenses p + mgmt_fees p + setup_costs p)
                (perf_tracker db))
  /\ exits_cost_basis r == Qsum (map e_cost_basis (exits db)).
Proof.
  cbv zeta. unfold getPortfolioUsdc.
  cbn [usdc_balance total_subscriptions cost_basis total_expenses exits_cost_basis].
  split; [|split; [|split; [|split]]].
  - reflexivity.
  - rewrite js_or_zero, coalesce_SUM_map. apply Qsum_ext. reflexivity.
  - rewrite js_or_zero, coalesce_SUM_map. apply Qsum_ext, case_cost_signed.
  - rewrite !js_or_zero, !coalesce_SUM_map, !Qsum_plus.
    repeat apply Qplus_comp; apply Qsum_ext; reflexivity.
  - rewrite js_or_zero, coalesce_SUM_map. apply Qsum_ext. reflexivity.
Qed.


(** ** Sums over groups *)

Lemma Qsum_ext_In {A} (f g : A -> Q) (l : list A) :
  (forall a, In a l -> f a == g a) -> Qsum (map f l) == Qsum (map g l).
Proof.
  induction l as [|a l IH]; intros H; simpl; [reflexivity|].
  rewrite (H a) by (left; reflexivity).
  rewrite IH by (intros b Hb; apply H; right; exact Hb).
  reflexivity.
Qed.

Lemma Qsum_perm (l l' : list Q) : Permutation l l' -> Qsum l == Qsum l'.
Proof.
  induction 1; simpl.
  - reflexivity.
  - rewrite IHPermutation. reflexivity.
  - ring.
  - rewrite IHPermutation1. exact IHPermutation2.
Qed.

Lemma Qsum_zero {A} (l : list A) : Qsum (map (fun _ => 0) l) == 0.
Proof. induction l as [|a l IH]; simpl; [reflexivity|]. rewrite IH. ring. Qed.

Lemma Qsum_filter {A} (f : A -> Q) (p : A -> bool) (l : list A) :
  Qsum (map f (List.filter p l)) == Qsum (map (fun a => if p a then f a else 0) l).
Proof.
  induction l as [|a l IH]; simpl; [reflexivity|].
  destruct (p a); simpl; rewrite IH; ring.
Qed.

Lemma Qsum_partition {A} (f : A -> Q) (p : A -> bool) (l : list A) :
  Qsum (map f (List.filter p l)) + Qsum (map f (List.filter (fun a => negb (p a)) l))
  == Qsum (map f l).
Proof.
  induction l as [|a l IH]; simpl; [ring|].
  destruct (p a); simpl; rewrite <- IH; ring.
Qed.

Lemma fold_left_plus {A} (f : A -> Q) (l : list A) (a : Q) :
  fold_left (fun s x => s + f x) l a == a + Qsum (map f l).
Proof.
  revert a. induction l as [|x l IH]; intros a; simpl; [ring|].
  rewrite IH. ring.
Qed.

Lemma SUM_nn_Qsum (l : list Q) : SUM_nn l == Qsum l.
Proof.
  unfold SUM_nn. transitivity (0 + Qsum (map (fun x => x) l)).
  - apply (fold_left_plus (fun x => x)).
  - rewrite List.map_id. ring.
Qed.

Lemma js_or_null_zero (v : option Q) : js_or_null v 0 == COALESCE v 0.
Proof. destruct v; simpl; [apply js_or_zero|reflexivity]. Qed.

(** A key that occurs once picks out exactly one summand. *)
Lemma Qsum_indicator (ks : list string) (a : string) (x : Q) :
  NoDup ks -> In a ks ->
  Qsum (map (fun k => if String.eqb a k then x else 0) ks) == x.
Proof.
  induction 1 as [|k ks Hk Hnd IH]; intros Hin; [destruct Hin|].
  simpl. destruct (String.eqb_spec a k) as [->|Hne].
  - rewrite (Qsum_ext_In _ (fun _ => 0)).
    + rewrite Qsum_zero. ring.
    + intros b Hb. destruct (String.eqb_spec k b) as [->|]; [|reflexivity].
      exfalso. apply Hk. apply list_elem_of_In. exact Hb.
  - destruct Hin as [->|Hin]; [congruence|].
    rewrite IH by exact Hin. ring.
Qed.

Lemma rows_of_cons (k : string) (t : Trade) (ts : list Trade) :
  rows_of k (t :: ts)
  = if String.eqb (t_token t) k then t :: rows_of k ts else rows_of k ts.
Proof. reflexivity. Qed.

(** Summing group by group is summing row by row. *)
Lemma group_sum (g : Trade -> Q) (ks : list string) (ts : list Trade) :
  NoDup ks -> (forall t, In t ts -> In (t_token t) ks) ->
  Qsum (map (fun k => Qsum (map g (rows_of k ts))) ks) == Qsum (map g ts).
Proof.
  intros Hnd. induction ts as [|t ts IH]; intros Hcover.
  - simpl. apply Qsum_zero.
  - rewrite (Qsum_ext _
      (fun k => (if String.eqb (t_token t) k then g t else 0)
                + Qsum (map g (rows_of k ts)))).
    + rewrite Qsum_plus, Qsum_indicator, IH; simpl; try reflexivity; auto.
      * intros t' Ht'. apply Hcover. right. exact Ht'.
      * apply Hcover. left. reflexivity.
    + intros k. rewrite rows_of_cons.
      destruct (String.eqb (t_token t) k); simpl; ring.
Qed.

Lemma rows_of_filter (p : string -> bool) (k : string) (ts : list Trade) :
  p k = true ->
  rows_of k (List.filter (fun t => p (t_token t)) ts) = rows_of k ts.
Proof.
  intros Hp. unfold rows_of. induction ts as [|t ts IH]; simpl; [reflexivity|].
  destruct (String.eqb_spec (t_token t) k) as [E|E].
  - rewrite E, Hp. simpl. rewrite E, String.eqb_refl, IH. reflexivity.
  - destruct (p (t_token t)); simpl; [|exact IH].
    destruct (String.eqb_spec (t_token t) k); [contradiction|exact IH].
Qed.

Lemma NoDup_filter_bool {A} (p : A -> bool) (l : list A) :
  NoDup l -> NoDup (List.filter p l).
Proof.
  induction 1 as [|a l Ha Hnd IH]; simpl; [constructor|].
  destruct (p a); [|exact IH].
  constructor; [|exact IH].
  intros Hin. apply Ha. apply list_elem_of_In.
  apply list_elem_of_In in Hin. apply filter_In in Hin. tauto.
Qed.

Lemma group_sum_where (g : Trade -> Q) (p : string -> bool) (ts : list Trade) :
  Qsum (map (fun k => Qsum (map g (rows_of k ts))) (List.filter p (group_keys ts)))
  == Qsum (map g (List.filter (fun t => p (t_token t)) ts)).
Proof.
  rewrite <- (group_sum g (List.filter p (group_keys ts))).
  - apply Qsum_ext_In. intros k Hk. apply filter_In in Hk as [_ Hp].
    rewrite rows_of_filter by exact Hp. reflexivity.
  - apply NoDup_filter_bool, NoDup_ListNoDup. unfold group_keys. apply NoDup_nodup.
  - intros t Ht. apply filter_In in Ht as [Ht Hp].
    apply filter_In. split; [|exact Hp].
    unfold group_keys. apply nodup_In. apply in_map. exact Ht.
Qed.

Lemma cost_basis_signed (db : Db) :
  cost_basis (getPortfolioUsdc db)
  == Qsum (map signed_total
             (List.filter (fun t => not_usdc (t_token t)) (trades db))).
Proof.
  unfold getPortfolioUsdc. cbn [cost_basis].
  rewrite js_or_zero, coalesce_SUM_map. apply Qsum_ext, case_cost_signed.
Qed.

Lemma group_cost_signed (ts : list Trade) (k : string) :
  COALESCE (SUM (map case_cost (rows_of k ts))) 0
  == Qsum (map signed_total (rows_of k ts)).
Proof. rewrite coalesce_SUM_map. apply Qsum_ext, case_cost_signed. Qed.

Lemma totalCostBasis_signed (ts : list Trade) :
  totalCostBasis (checker_holdings ts)
  == Qsum (map signed_total (List.filter (fun t => not_usdc (t_token t)) ts)).
Proof.
  unfold totalCostBasis, checker_holdings.
  rewrite fold_left_plus, Qplus_0_l, Qsum_filter.
  rewrite (Qsum_perm _ _ (Permutation_map _ (sort_by_perm token_asc _))).
  rewrite <- Qsum_filter.
  rewrite <- (group_sum_where signed_total not_usdc ts).
  set (keys := group_keys ts).
  clearbody keys. induction keys as [|k keys IH]; simpl; [reflexivity|].
  destruct (not_usdc k); simpl; [|exact IH].
  rewrite IH, js_or_null_zero, group_cost_signed. reflexivity.
Qed.

Lemma holdings_cost_groups (ts : list Trade) (p : Holding -> bool) :
  holdings_cost_excl_usdc
    (List.filter p (map (aggregate ts) (group_keys ts)))
  + holdings_cost_excl_usdc
      (List.filter (fun h => negb (p h)) (map (aggregate ts) (group_keys ts)))
  == Qsum (map signed_total (List.filter (fun t => not_usdc (t_token t)) ts)).
Proof.
  unfold holdings_cost_excl_usdc.
  rewrite !(Qsum_filter _ (fun h => not_usdc (token h))).
  rewrite Qsum_partition, <- Qsum_filter.
  rewrite <- (group_sum_where signed_total not_usdc ts).
  set (keys := group_keys ts).
  clearbody keys. induction keys as [|k keys IH]; simpl; [reflexivity|].
  destruct (not_usdc k); simpl; [|exact IH].
  rewrite IH, group_cost_signed. reflexivity.
Qed.

Lemma holdings_cost_sorted (hs : list Holding) :
  holdings_cost_excl_usdc (sort_by cost_desc hs) == holdings_cost_excl_usdc hs.
Proof.
  unfold holdings_cost_excl_usdc. rewrite !Qsum_filter.
  apply Qsum_perm, Permutation_map, sort_by_perm.
Qed.

(** C2, counterexample.  A position bought for 100 and sold in full for 150
    has net units 0, so the holdings endpoint drops it and its cost bases
    sum to 0, while the cash formula's total cost basis is -50. *)
Lemma holdings_cost_differs_after_exit :
  getPortfolio (trades closed_position_db) = []
  /\ holdings_cost_excl_usdc (getPortfolio (trades closed_position_db)) == 0
  /\ cost_basis (getPortfolioUsdc closed_position_db) == - (50)
  /\ ~ (holdings_cost_excl_usdc (getPortfolio (trades closed_position_db))
        == cost_basis (getPortfolioUsdc closed_position_db)).
Proof.
  split; [vm_compute; reflexivity|].
  split; [vm_compute; reflexivity|].
  split; [vm_compute; reflexivity|].
  intros H. vm_compute in H. discriminate H.
Qed.

(** C2, amended.  For every ledger the cost bases of all token groups other
    than USDC, summed before the dust filter as the checker does, equal the
    total cost basis of the cash formula; the holdings endpoint's sum equals
    it once the cost bases of the groups removed by the dust filter are
    added back. *)
Theorem cost_basis_consistency (db : Db) :
  calc_total_cost_basis (calculations (checkerPortfolio db))
  == cost_basis (getPortfolioUsdc db)
  /\ holdings_cost_excl_usdc (getPortfolio (trades db))
     + holdings_cost_excl_usdc (dust_groups (trades db))
     == cost_basis (getPortfolioUsdc db).
Proof.
  split.
  - unfold checkerPortfolio. cbn [calculations calc_total_cost_basis].
    rewrite totalCostBasis_signed, cost_basis_signed. reflexivity.
  - unfold getPortfolio, dust_groups.
    rewrite holdings_cost_sorted, holdings_cost_groups, cost_basis_signed.
    reflexivity.
Qed.

(** ** The dust filter *)

Lemma rows_of_absent (tok : string) (ts : list Trade) :
  ~ In tok (map t_token ts) -> rows_of tok ts = [].
Proof.
  unfold rows_of. induction ts as [|t ts IH]; intros Hnin; simpl; [reflexivity|].
  destruct (String.eqb_spec (t_token t) tok) as [E|E].
  - exfalso. apply Hnin. left. exact E.
  - apply IH. intros Hin. apply Hnin. right. exact Hin.
Qed.

Lemma having_absent (tok : string) (ts : list Trade) :
  ~ In tok (map t_token ts) -> having (aggregate ts tok) = false.
Proof.
  intros Hnin. unfold aggregate. rewrite (rows_of_absent _ _ Hnin). reflexivity.
Qed.

(** A token is listed exactly when its group passes the HAVING clause. *)
Lemma held_having (tok : string) (ts : list Trade) :
  held tok (getPortfolio ts) = having (aggregate ts tok).
Proof.
  apply eq_true_iff_eq. unfold held, getPortfolio.
  rewrite existsb_exists. split.
  - intros (h & Hin & Htok).
    apply sort_by_In, filter_In in Hin as [Hin Hhav].
    apply in_map_iff in Hin as (k & <- & _).
    apply String.eqb_eq in Htok. simpl in Htok. subst k. exact Hhav.
  - intros Hhav. exists (aggregate ts tok). split.
    + apply sort_by_In, filter_In. split; [|exact Hhav].
      apply in_map. unfold group_keys. apply nodup_In.
      destruct (in_dec string_dec tok (map t_token ts)) as [Hin|Hnin];
        [exact Hin|].
      rewrite (having_absent _ _ Hnin) in Hhav. discriminate Hhav.
    + simpl. apply String.eqb_refl.
Qed.

Lemma total_units_net (tok : string) (ts : list Trade) :
  total_units (aggregate ts tok) == net_position tok ts.
Proof. unfold aggregate; cbn [total_units]. apply SUM_nn_Qsum. Qed.

Lemma having_spec (tok : string) (ts : list Trade) :
  having (aggregate ts tok) = true
  <-> dust < net_position tok ts \/ net_position tok ts < - dust.
Proof.
  unfold having. rewrite orb_true_iff, !Qlt_bool_iff, total_units_net.
  reflexivity.
Qed.

Lemma held_false_iff (tok : string) (ts : list Trade) :
  held tok (getPortfolio ts) = false <-> Qabs (net_position tok ts) <= dust.
Proof.
  rewrite held_having, Qabs_Qle_condition.
  rewrite <- not_true_iff_false, having_spec.
  unfold dust. split.
  - intros H. split.
    + apply Qnot_lt_le. intros Hlt. apply H. right. exact Hlt.
    + apply Qnot_lt_le. intros Hlt. apply H. left. exact Hlt.
  - intros [H1 H2] [H|H]; lra.
Qed.

(** C6, counterexample.  A token whose net position is exactly 0.0001 is
    left out of the holdings although its absolute position is not below
    the threshold. *)
Lemma dust_boundary_excluded :
  held "XYZ" (getPortfolio boundary_trades) = false
  /\ net_position "XYZ" boundary_trades == 1 # 10000
  /\ ~ (Qabs (net_position "XYZ" boundary_trades) < dust)
  /\ ~ (held "XYZ" (getPortfolio boundary_trades) = false
        <-> Qabs (net_position "XYZ" boundary_trades) < dust).
Proof.
  assert (Hn : ~ (Qabs (net_position "XYZ" boundary_trades) < dust)).
  { intros H. vm_compute in H. discriminate H. }
  split; [vm_compute; reflexivity|].
  split; [vm_compute; reflexivity|].
  split; [exact Hn|].
  intros [H _]. apply Hn, H. vm_compute. reflexivity.
Qed.

(** C6, amended.  For every ledger a token is left out of the holdings
    exactly when its absolute net position is at most the dust threshold
    0.0001 (the HAVING clause keeps a group only beyond the threshold); a
    net position of 0.00005 is left out and one of 0.0002 is listed. *)
Theorem dust_filter_exclusion (ts : list Trade) (tok : string) :
  (held tok (getPortfolio ts) = false <-> Qabs (net_position tok ts) <= dust)
  /\ (net_position tok ts == 5 # 100000 -> held tok (getPortfolio ts) = false)
  /\ (net_position tok ts == 2 # 10000 -> held tok (getPortfolio ts) = true).
Proof.
  split; [apply held_false_iff|]. split.
  - intros H. apply held_false_iff. rewrite H. vm_compute. discriminate.
  - intros H. rewrite held_having. apply having_spec. left. rewrite H.
    vm_compute. reflexivity.
Qed.

(** The amended statement at a ledger with both positions of the
    specification's example. *)
Lemma dust_filter_exclusion_witness :
  held "AAA" (getPortfolio dust_trades) = false
  /\ held "BBB" (getPortfolio dust_trades) = true.
Proof.
  split.
  - apply (proj1 (proj2 (dust_filter_exclusion dust_trades "AAA"))).
    vm_compute. reflexivity.
  - apply (proj2 (proj2 (dust_filter_exclusion dust_trades "BBB"))).
    vm_compute. reflexivity.
Defined.

(** ** The price merge *)

Lemma merge_step_other (merged : gmap string Quote) (mp : ManualPrice) (tok : string) :
  mp_token mp <> tok -> merge_step merged mp !! tok = merged !! tok.
Proof.
  intros Hne. unfold merge_step.
  destruct (no_usable_price merged (mp_token mp)); [|reflexivity].
  apply lookup_insert_ne. exact Hne.
Qed.

Lemma merge_step_priced (merged : gmap string Quote) (mp : ManualPrice)
  (tok : string) (q : Quote) :
  merged !! tok = Some q -> Qeq_bool (price q) 0 = false ->
  merge_step merged mp !! tok = Some q.
Proof.
  intros Hq Hp. destruct (string_dec (mp_token mp) tok) as [E|E].
  - unfold merge_step, no_usable_price. rewrite E, Hq, Hp. exact Hq.
  - rewrite merge_step_other by exact E. exact Hq.
Qed.

Lemma mergedPrices_priced (manualPrices : list ManualPrice)
  (prices : gmap string Quote) (tok : string) (q : Quote) :
  prices !! tok = Some q -> Qeq_bool (price q) 0 = false ->
  mergedPrices prices manualPrices !! tok = Some q.
Proof.
  unfold mergedPrices. revert prices.
  induction manualPrices as [|mp ms IH]; intros prices Hq Hp; simpl; [exact Hq|].
  apply IH; [|exact Hp]. apply merge_step_priced; assumption.
Qed.

Lemma mergedPrices_untouched (manualPrices : list ManualPrice)
  (prices : gmap string Quote) (tok : string) :
  (forall mp, In mp manualPrices -> mp_token mp <> tok) ->
  mergedPrices prices manualPrices !! tok = prices !! tok.
Proof.
  unfold mergedPrices. revert prices.
  induction manualPrices as [|mp ms IH]; intros prices H; simpl; [reflexivity|].
  rewrite IH by (intros mp' Hin; apply H; right; exact Hin).
  apply merge_step_other, H. left. reflexivity.
Qed.

Lemma mergedPrices_manual (manualPrices : list ManualPrice)
  (prices : gmap string Quote) (mp : ManualPrice) :
  NoDup (map mp_token manualPrices) -> In mp manualPrices ->
  no_usable_price prices (mp_token mp) = true ->
  mergedPrices prices manualPrices !! mp_token mp
  = Some (manual_quote (mp_price mp)).
Proof.
  revert prices.
  induction manualPrices as [|m ms IH]; intros prices Hnd Hin Hno; [destruct Hin|].
  simpl in Hnd. apply NoDup_cons in Hnd as [Hm Hnd].
  change (mergedPrices (merge_step prices m) ms !! mp_token mp
          = Some (manual_quote (mp_price mp))).
  destruct Hin as [->|Hin].
  - rewrite mergedPrices_untouched.
    + unfold merge_step. rewrite Hno. apply lookup_insert_eq.
    + intros mp' Hin' E. apply Hm. rewrite <- E.
      apply list_elem_of_In, in_map, Hin'.
  - apply IH; [exact Hnd|exact Hin|].
    assert (Hne : mp_token m <> mp_token mp).
    { intros E. apply Hm. rewrite E. apply list_elem_of_In, in_map, Hin. }
    unfold no_usable_price in *.
    rewrite merge_step_other by exact Hne. exact Hno.
Qed.

(** C5, counterexample.  XYZ is present in the live quotes with price 0 and
    has a manual price: the merge replaces the live quote by the manual one. *)
Lemma live_zero_price_overridden :
  zero_priced_quotes !! "XYZ" = Some (live_quote 0)
  /\ mergedPrices zero_priced_quotes xyz_manual !! "XYZ" = Some (manual_quote 10)
  /\ mergedPrices zero_priced_quotes xyz_manual !! "XYZ"
     <> zero_priced_quotes !! "XYZ".
Proof.
  assert (H1 : zero_priced_quotes !! "XYZ" = Some (live_quote 0)).
  { unfold zero_priced_quotes. rewrite lookup_insert_ne by discriminate.
    apply lookup_insert_eq. }
  assert (H2 : mergedPrices zero_priced_quotes xyz_manual !! "XYZ"
               = Some (manual_quote 10)).
  { apply (mergedPrices_manual xyz_manual zero_priced_quotes
             {| mp_token := "XYZ"; mp_price := 10 |}).
    - apply NoDup_singleton.
    - left. reflexivity.
    - unfold no_usable_price. simpl mp_token. rewrite H1. reflexivity. }
  split; [exact H1|]. split; [exact H2|].
  rewrite H1, H2. discriminate.
Qed.

(** C5, amended.  With one manual price per token: a token whose live quote
    has a non-zero price keeps that quote unchanged; a token that has a
    manual price and either no live quote or a live quote with price 0 is
    resolved to the manual price with [isManual = true] and all four
    percent-change fields null; a token without a manual price keeps
    whatever the live quotes say. *)
Theorem merged_prices_resolution (prices : gmap string Quote)
  (manualPrices : list ManualPrice) (tok : string) :
  NoDup (map mp_token manualPrices) ->
  (forall q, prices !! tok = Some q -> ~ price q == 0 ->
             mergedPrices prices manualPrices !! tok = Some q)
  /\ (forall mp, In mp manualPrices -> mp_token mp = tok ->
        (prices !! tok = None
         \/ exists q, prices !! tok = Some q /\ price q == 0) ->
        exists r, mergedPrices prices manualPrices !! tok = Some r
                  /\ price r = mp_price mp
                  /\ isManual r = true
                  /\ percent_change_24h r = None
                  /\ percent_change_7d r = None
                  /\ percent_change_30d r = None
                  /\ percent_change_60d r = None)
  /\ ((forall mp, In mp manualPrices -> mp_token mp <> tok) ->
      mergedPrices prices manualPrices !! tok = prices !! tok).
Proof.
  intros Hnd. split; [|split].
  - intros q Hq Hp. apply mergedPrices_priced; [exact Hq|].
    destruct (Qeq_bool (price q) 0) eqn:E; [|reflexivity].
    exfalso. apply Hp, Qeq_bool_eq, E.
  - intros mp Hin <- Hlive. exists (manual_quote (mp_price mp)).
    split; [|repeat split].
    apply mergedPrices_manual; [exact Hnd|exact Hin|].
    unfold no_usable_price.
    destruct Hlive as [->|(q & -> & Hz)]; [reflexivity|].
    apply Qeq_eq_bool, Hz.
  - apply mergedPrices_untouched.
Qed.

(** The scenario of the specification: BTC keeps its live price, XYZ gets
    the manual price 10. *)
Lemma merged_prices_resolution_witness :
  mergedPrices btc_quotes xyz_manual !! "BTC" = Some (live_quote 50000)
  /\ exists r, mergedPrices btc_quotes xyz_manual !! "XYZ" = Some r
               /\ price r = 10 /\ isManual r = true
               /\ percent_change_24h r = None /\ percent_change_7d r = None
               /\ percent_change_30d r = None /\ percent_change_60d r = None.
Proof.
  assert (Hnd : NoDup (map mp_token xyz_manual)) by apply NoDup_singleton.
  destruct (merged_prices_resolution btc_quotes xyz_manual "BTC" Hnd) as [Hb _].
  destruct (merged_prices_resolution btc_quotes xyz_manual "XYZ" Hnd) as (_ & Hx & _).
  split.
  - apply Hb.
    + unfold btc_quotes. apply lookup_insert_eq.
    + simpl. intros H. vm_compute in H. discriminate H.
  - apply (Hx {| mp_token := "XYZ"; mp_price := 10 |}).
    + left. reflexivity.
    + reflexivity.
    + left. unfold btc_quotes. rewrite lookup_insert_ne by discriminate.
      apply lookup_empty.
Defined.

(** ** The synthetic USDC holding *)

Lemma not_usdc_token (tok : string) : not_usdc tok = true -> tok <> "USDC".
Proof. intros H ->. vm_compute in H. discriminate H. Qed.

Lemma enriched_items_not_usdc (holdings : list Holding)
  (prices cmcPrices : gmap string Quote) (pv : Q) (h : EnrichedHolding) :
  In h (map (enrich prices cmcPrices pv)
          (List.filter (fun x => not_usdc (token x)) holdings)) ->
  eh_token h <> "USDC".
Proof.
  intros Hin. apply in_map_iff in Hin as (x & <- & Hx).
  apply filter_In in Hx as [_ Hx]. simpl. apply not_usdc_token, Hx.
Qed.

(** Membership in [enrichedHoldings] of an entry named USDC. *)
Lemma enriched_usdc_entry (holdings : list Holding)
  (prices cmcPrices : gmap string Quote) (usdcData : option UsdcData) (pv : Q)
  (h : EnrichedHolding) :
  In h (enrichedHoldings holdings prices cmcPrices usdcData pv)
  /\ eh_token h = "USDC"
  <-> exists u, usdcData = Some u /\ Qeq_bool (usdc_balance u) 0 = false
                /\ h = usdc_holding u pv.
Proof.
  unfold enrichedHoldings. split.
  - intros [Hin Htok].
    destruct usdcData as [u|].
    + destruct (Qeq_bool (usdc_balance u) 0) eqn:E; simpl in Hin.
      * exfalso. exact (enriched_items_not_usdc _ _ _ _ _ Hin Htok).
      * apply in_app_or in Hin as [Hin|[<-|[]]].
        -- exfalso. exact (enriched_items_not_usdc _ _ _ _ _ Hin Htok).
        -- exists u. auto.
    + exfalso. exact (enriched_items_not_usdc _ _ _ _ _ Hin Htok).
  - intros (u & -> & E & ->). rewrite E. simpl. split; [|reflexivity].
    apply in_or_app. right. left. reflexivity.
Qed.

(** C4, counterexample.  With a cash residual of 45000 the USDC entry is in
    the list and its four percent-change fields are 0, not null. *)
Lemma usdc_trend_fields_are_zero :
  exists h,
    In h (enrichedHoldings [] ∅ ∅ (Some cash_45000) 45000)
    /\ eh_token h = "USDC"
    /\ eh_percent_change_24h h = Some 0
    /\ eh_percent_change_24h h <> None
    /\ eh_percent_change_7d h <> None
    /\ eh_percent_change_30d h <> None
    /\ eh_percent_change_60d h <> None.
Proof.
  exists (usdc_holding cash_45000 45000).
  split; [left; reflexivity|].
  repeat split; discriminate.
Qed.

(** C4, amended.  The list of enriched holdings has an entry named USDC if
    and only if cash data is loaded and [usdc_balance] is non-zero; that
    entry has price 1, market value and cost basis equal to [usdc_balance],
    pnl 0, all four percent-change fields equal to 0, [hasCMCData] true, no
    manual-price mark, and the weight of [usdc_balance] in the portfolio
    value. *)
Theorem usdc_synthetic_holding (holdings : list Holding)
  (prices cmcPrices : gmap string Quote) (usdcData : option UsdcData) (pv : Q) :
  ((exists h, In h (enrichedHoldings holdings prices cmcPrices usdcData pv)
              /\ eh_token h = "USDC")
   <-> exists u, usdcData = Some u /\ ~ usdc_balance u == 0)
  /\ (forall h, In h (enrichedHoldings holdings prices cmcPrices usdcData pv) ->
        eh_token h = "USDC" ->
        exists u, usdcData = Some u
                  /\ currentPrice h = 1
                  /\ currentValue h = usdc_balance u
                  /\ eh_cost_basis h = Some (usdc_balance u)
                  /\ eh_total_units h = usdc_balance u
                  /\ pnl h = 0
                  /\ eh_percent_change_24h h = Some 0
                  /\ eh_percent_change_7d h = Some 0
                  /\ eh_percent_change_30d h = Some 0
                  /\ eh_percent_change_60d h = Some 0
                  /\ hasCMCData h = true
                  /\ isManualPrice h = false
                  /\ weight h
                     = if Qlt_bool 0 pv
                       then js_mul (js_div (usdc_balance u) pv) 100
                       else Fin 0).
Proof.
  split; [split|].
  - intros (h & Hin & Htok).
    destruct (proj1 (enriched_usdc_entry _ _ _ _ _ _) (conj Hin Htok))
      as (u & Hu & E & _).
    exists u. split; [exact Hu|].
    intros Hz. apply Qeq_eq_bool in Hz. congruence.
  - intros (u & Hu & Hnz). exists (usdc_holding u pv).
    apply enriched_usdc_entry. exists u. split; [exact Hu|]. split; [|reflexivity].
    destruct (Qeq_bool (usdc_balance u) 0) eqn:E; [|reflexivity].
    exfalso. apply Hnz, Qeq_bool_eq, E.
  - intros h Hin Htok.
    destruct (proj1 (enriched_usdc_entry _ _ _ _ _ _) (conj Hin Htok))
      as (u & Hu & _ & ->).
    exists u. split; [exact Hu|]. repeat split.
Qed.

(** The amended statement at the residual 45000 of the specification's
    cash scenario. *)
Lemma usdc_synthetic_holding_witness :
  exists u, Some cash_45000 = Some u
            /\ currentPrice (usdc_holding cash_45000 45000) = 1
            /\ currentValue (usdc_holding cash_45000 45000) = usdc_balance u
            /\ eh_cost_basis (usdc_holding cash_45000 45000) = Some (usdc_balance u)
            /\ eh_total_units (usdc_holding cash_45000 45000) = usdc_balance u
            /\ pnl (usdc_holding cash_45000 45000) = 0
            /\ eh_percent_change_24h (usdc_holding cash_45000 45000) = Some 0
            /\ eh_percent_change_7d (usdc_holding cash_45000 45000) = Some 0
            /\ eh_percent_change_30d (usdc_holding cash_45000 45000) = Some 0
            /\ eh_percent_change_60d (usdc_holding cash_45000 45000) = Some 0
            /\ hasCMCData (usdc_holding cash_45000 45000) = true
            /\ isManualPrice (usdc_holding cash_45000 45000) = false
            /\ weight (usdc_holding cash_45000 45000)
               = if Qlt_bool 0 45000
                 then js_mul (js_div (usdc_balance u) 45000) 100
                 else Fin 0.
Proof.
  apply (proj2 (usdc_synthetic_holding [] ∅ ∅ (Some cash_45000) 45000)
           (usdc_holding cash_45000 45000)).
  - left. reflexivity.
  - reflexivity.
Defined.

(** ** Total portfolio value *)

Lemma portfolio_value_sum (holdings : list Holding) (merged : gmap string Quote)
  (u : UsdcData) :
  calculatePortfolioValue holdings merged (Some u)
  == Qsum (map (fun h => total_units h
                         * price_or_zero merged (toUpperCase (token h))) holdings)
     + usdc_balance u.
Proof.
  unfold calculatePortfolioValue.
  rewrite (fold_left_plus
             (fun h => total_units h * price_or_zero merged (toUpperCase (token h)))).
  ring.
Qed.

Lemma price_or_zero_resolved (merged : gmap string Quote) (tok : string) :
  price_or_zero merged tok
  == match merged !! tok with Some q => price q | None => 0 end.
Proof.
  unfold price_or_zero. destruct (merged !! tok) as [q|]; [apply js_or_zero|reflexivity].
Qed.

Lemma Qsum_app (l1 l2 : list Q) : Qsum (l1 ++ l2)%list == Qsum l1 + Qsum l2.
Proof. induction l1 as [|x l1 IH]; simpl; [ring|]. rewrite IH. ring. Qed.

(** C10.  The total portfolio value is the sum over every holding of the
    holdings endpoint of its units times its resolved price (the price of
    the merged quote of its upper-cased token, 0 when there is none), plus
    the cash residual.  When the net USDC units bought through trades
    exceed the dust threshold, the endpoint lists a USDC holding, and its
    net units times the resolved USDC price (the live price when USDC is
    quoted live at a non-zero price) are added on top of the residual. *)
Theorem portfolio_value_includes_usdc_holding (ts : list Trade)
  (prices : gmap string Quote) (manualPrices : list ManualPrice) (u : UsdcData) :
  let hs := getPortfolio ts in
  let merged := mergedPrices prices manualPrices in
  let resolved :=
    fun tok => match merged !! tok with Some q => price q | None => 0 end in
  calculatePortfolioValue hs merged (Some u)
  == Qsum (map (fun h => total_units h * resolved (toUpperCase (token h))) hs)
     + usdc_balance u
  /\ (dust < net_position "USDC" ts ->
      exists hs1 h hs2,
        hs = (hs1 ++ h :: hs2)%list
        /\ token h = "USDC"
        /\ total_units h == net_position "USDC" ts
        /\ calculatePortfolioValue hs merged (Some u)
           == Qsum (map (fun h => total_units h * resolved (toUpperCase (token h)))
                      (hs1 ++ hs2)%list)
              + net_position "USDC" ts * resolved "USDC"
              + usdc_balance u
        /\ (forall q, prices !! "USDC" = Some q -> ~ price q == 0 ->
              resolved "USDC" = price q)).
Proof.
  cbv zeta.
  assert (Hsum : forall hs,
    calculatePortfolioValue hs (mergedPrices prices manualPrices) (Some u)
    == Qsum (map (fun h => total_units h
                           * match mergedPrices prices manualPrices
                                   !! toUpperCase (token h) with
                             | Some q => price q
                             | None => 0
                             end) hs)
       + usdc_balance u).
  { intros hs. rewrite portfolio_value_sum. apply Qplus_comp; [|reflexivity].
    apply Qsum_ext. intros h. rewrite price_or_zero_resolved. reflexivity. }
  split; [apply Hsum|].
  intros Hdust.
  assert (Hheld : held "USDC" (getPortfolio ts) = true).
  { rewrite held_having. apply having_spec. left. exact Hdust. }
  unfold held in Hheld. apply existsb_exists in Hheld as (h & Hin & Htok).
  apply String.eqb_eq in Htok.
  assert (Hh : h = aggregate ts "USDC").
  { unfold getPortfolio in Hin.
    apply sort_by_In, filter_In in Hin as [Hin _].
    apply in_map_iff in Hin as (k & <- & _). simpl in Htok. subst k. reflexivity. }
  assert (Hunits : total_units h == net_position "USDC" ts).
  { rewrite Hh. apply total_units_net. }
  apply in_split in Hin as (hs1 & hs2 & Hsplit).
  exists hs1, h, hs2. split; [exact Hsplit|]. split; [exact Htok|].
  split; [exact Hunits|]. split.
  - rewrite Hsplit, Hsum, !map_app. simpl. rewrite !Qsum_app. simpl.
    rewrite Htok, Hunits. change (toUpperCase "USDC") with "USDC". ring.
  - intros q Hq Hnz.
    rewrite (mergedPrices_priced manualPrices prices "USDC" q Hq); [reflexivity|].
    destruct (Qeq_bool (price q) 0) eqn:E; [|reflexivity].
    exfalso. apply Hnz, Qeq_bool_eq, E.
Qed.

(** The statement at a ledger that holds 500 USDC through a trade, next to
    2 BTC quoted at 50000, with a manual USDC price of 1 and a residual of
    45000: the holding adds 500 x 1 on top of the residual and the total is
    2 x 50000 + 500 x 1 + 45000 = 145500. *)
Lemma portfolio_value_includes_usdc_holding_witness :
  (exists hs1 h hs2,
     getPortfolio usdc_trades = (hs1 ++ h :: hs2)%list
     /\ token h = "USDC"
     /\ total_units h == net_position "USDC" usdc_trades
     /\ calculatePortfolioValue (getPortfolio usdc_trades)
          (mergedPrices btc_quotes [ {| mp_token := "USDC"; mp_price := 1 |} ])
          (Some cash_45000)
        == Qsum (map (fun h =>
                        total_units h
                        * match mergedPrices btc_quotes
                                  [ {| mp_token := "USDC"; mp_price := 1 |} ]
                                !! toUpperCase (token h) with
                          | Some q => price q
                          | None => 0
                          end) (hs1 ++ hs2)%list)
           + net_position "USDC" usdc_trades
             * match mergedPrices btc_quotes
                       [ {| mp_token := "USDC"; mp_price := 1 |} ] !! "USDC" with
               | Some q => price q
               | None => 0
               end
           + usdc_balance cash_45000
     /\ (forall q, btc_quotes !! "USDC" = Some q -> ~ price q == 0 ->
           match mergedPrices btc_quotes
                   [ {| mp_token := "USDC"; mp_price := 1 |} ] !! "USDC" with
           | Some q => price q
           | None => 0
           end = price q))
  /\ net_position "USDC" usdc_trades == 500
  /\ match mergedPrices btc_quotes
             [ {| mp_token := "USDC"; mp_price := 1 |} ] !! "USDC" with
     | Some q => price q
     | None => 0
     end = 1
  /\ calculatePortfolioValue (getPortfolio usdc_trades)
       (mergedPrices btc_quotes [ {| mp_token := "USDC"; mp_price := 1 |} ])
       (Some cash_45000)
     == 145500.
Proof.
  split.
  - apply (proj2 (portfolio_value_includes_usdc_holding usdc_trades btc_quotes
                    [ {| mp_token := "USDC"; mp_price := 1 |} ] cash_45000)).
    vm_compute. reflexivity.
  - split; [vm_compute; reflexivity|]. split; vm_compute; reflexivity.
Defined.

(** ** Sorted arrays and their last element *)

Lemma last_In {A} (l : list A) (r : A) : last l = Some r -> In r l.
Proof.
  induction l as [|x l IH]; [discriminate|].
  destruct l as [|y l]; simpl.
  - intros [= <-]. left. reflexivity.
  - intros H. right. apply IH. exact H.
Qed.

Section SortedFacts.
Context {A : Type} (le : A -> A -> bool).
Hypothesis le_total : forall a b, le a b = false -> le b a = true.
Hypothesis le_trans : forall a b c, le a b = true -> le b c = true -> le a c = true.

Let R (a b : A) : Prop := le a b = true.

Lemma insert_sorted_In (x y : A) (l : list A) :
  In y (insert_sorted le x l) <-> y = x \/ In y l.
Proof.
  split.
  - intros H. apply (Permutation_in _ (insert_sorted_perm le x l)) in H.
    destruct H as [H|H]; auto.
  - intros H. apply (Permutation_in _ (Permutation_sym (insert_sorted_perm le x l))).
    destruct H as [H|H]; [left; auto|right; exact H].
Qed.

Lemma insert_sorted_sorted (x : A) (l : list A) :
  StronglySorted R l -> StronglySorted R (insert_sorted le x l).
Proof.
  induction 1 as [|y l Hss IH Hall]; simpl.
  - constructor; constructor.
  - destruct (le x y) eqn:E.
    + constructor; [constructor; assumption|].
      constructor; [exact E|].
      rewrite Forall_forall in *. intros z Hz. apply le_trans with y; [exact E|].
      apply Hall, list_elem_of_In, list_elem_of_In, Hz.
    + constructor; [exact IH|].
      rewrite Forall_forall in *. intros z Hz.
      apply list_elem_of_In, insert_sorted_In in Hz as [->|Hz].
      * apply le_total, E.
      * apply Hall, list_elem_of_In, Hz.
Qed.

Lemma sort_by_sorted (l : list A) : StronglySorted R (sort_by le l).
Proof.
  induction l as [|x l IH]; simpl; [constructor|].
  apply insert_sorted_sorted, IH.
Qed.

Lemma filter_sorted (p : A -> bool) (l : list A) :
  StronglySorted R l -> StronglySorted R (List.filter p l).
Proof.
  induction 1 as [|y l Hss IH Hall]; simpl; [constructor|].
  destruct (p y); [|exact IH].
  constructor; [exact IH|].
  rewrite Forall_forall in *. intros z Hz. apply Hall.
  apply list_elem_of_In. apply list_elem_of_In, filter_In in Hz. tauto.
Qed.

Lemma last_sorted_max (l : list A) (r : A) :
  StronglySorted R l -> last l = Some r ->
  forall x, In x l -> x = r \/ R x r.
Proof.
  induction 1 as [|y l Hss IH Hall]; intros Hlast x Hx; [destruct Hx|].
  destruct l as [|z l].
  - simpl in Hlast. injection Hlast as <-. destruct Hx as [->|[]]. left. reflexivity.
  - change (last (z :: l) = Some r) in Hlast.
    destruct Hx as [<-|Hx].
    + right. rewrite Forall_forall in Hall.
      apply Hall, list_elem_of_In, last_In, Hlast.
    + apply IH; assumption.
Qed.

End SortedFacts.

Lemma last_nonempty {A} (l : list A) (x : A) : In x l -> exists r, last l = Some r.
Proof.
  revert x. induction l as [|y l IH]; intros x; [intros []|]. intros _.
  destruct l as [|z l]; [exists y; reflexivity|].
  destruct (IH z) as [r Hr]; [left; reflexivity|]. exists r. exact Hr.
Qed.

(** ** The order on month strings *)

Lemma leb_iff (a b : string) :
  String.leb a b = true <-> a = b \/ String_as_OT.lt a b.
Proof.
  unfold String.leb. destruct (String.compare a b) eqn:E.
  - apply String.compare_eq_iff in E. tauto.
  - apply String_as_OT.cmp_lt in E. tauto.
  - split; [discriminate|]. intros [H|H].
    + subst b. pose proof (String.compare_antisym a a) as Ha.
      rewrite E in Ha. discriminate Ha.
    + apply String_as_OT.cmp_lt in H. unfold String_as_OT.cmp in H. congruence.
Qed.

Lemma leb_trans (a b c : string) :
  String.leb a b = true -> String.leb b c = true -> String.leb a c = true.
Proof.
  rewrite !leb_iff. intros [->|H1] [->|H2]; auto.
  right. exact (String_as_OT.lt_trans _ _ _ H1 H2).
Qed.

Lemma leb_false_total (a b : string) :
  String.leb a b = false -> String.leb b a = true.
Proof.
  intros H. destruct (String.leb_total a b) as [H'|H']; congruence.
Qed.

Lemma month_le_total (a b : PerfRecord) : month_le a b = false -> month_le b a = true.
Proof. apply leb_false_total. Qed.

Lemma month_le_trans (a b c : PerfRecord) :
  month_le a b = true -> month_le b c = true -> month_le a c = true.
Proof. apply leb_trans. Qed.

Lemma NoDup_map_inj {A B} (f : A -> B) (l : list A) (x y : A) :
  NoDup (map f l) -> In x l -> In y l -> f x = f y -> x = y.
Proof.
  induction l as [|a l IH]; intros Hnd Hx Hy E; [destruct Hx|].
  simpl in Hnd. apply NoDup_cons in Hnd as [Ha Hnd].
  destruct Hx as [->|Hx], Hy as [->|Hy]; auto.
  - exfalso. apply Ha. rewrite E. apply list_elem_of_In, in_map, Hy.
  - exfalso. apply Ha. rewrite <- E. apply list_elem_of_In, in_map, Hx.
Qed.

(** ** The record that starts the month *)

Lemma lastMonthRecord_latest (perfTracker : list PerfRecord) (cur : string)
  (p : PerfRecord) :
  NoDup (map month perfTracker) -> In p perfTracker ->
  String.ltb (month p) cur = true ->
  (forall p', In p' perfTracker -> String.ltb (month p') cur = true ->
              String.leb (month p') (month p) = true) ->
  lastMonthRecord perfTracker cur = Some p.
Proof.
  intros Hnd Hin Hlt Hmax. unfold lastMonthRecord, sortedPerf.
  set (fl := List.filter (fun q => String.ltb (month q) cur)
               (sort_by month_le perfTracker)).
  assert (Hp : In p fl).
  { apply filter_In. split; [apply sort_by_In; exact Hin|exact Hlt]. }
  destruct (last_nonempty fl p Hp) as [r Hr]. rewrite Hr. f_equal.
  assert (Hrin : In r fl) by (apply last_In; exact Hr).
  apply filter_In in Hrin as [Hrin Hrlt]. apply sort_by_In in Hrin.
  apply (NoDup_map_inj month perfTracker); auto.
  apply String.leb_antisym; [apply Hmax; assumption|].
  assert (Hss : StronglySorted (fun a b => month_le a b = true) fl).
  { apply filter_sorted, sort_by_sorted; [apply month_le_total|apply month_le_trans]. }
  destruct (last_sorted_max month_le fl r Hss Hr p Hp) as [->|H].
  - destruct (String.leb_total (month r) (month r)); assumption.
  - exact H.
Qed.

Lemma lastMonthRecord_none (perfTracker : list PerfRecord) (cur : string) :
  (forall p, In p perfTracker -> String.ltb (month p) cur = false) ->
  lastMonthRecord perfTracker cur = None.
Proof.
  intros H. unfold lastMonthRecord, sortedPerf.
  destruct (last _) as [r|] eqn:E; [|reflexivity].
  apply last_In, filter_In in E as [Hin Hlt]. apply sort_by_In in Hin.
  rewrite (H r Hin) in Hlt. discriminate Hlt.
Qed.

Lemma js_div_finite (x d : Q) : Qlt_bool 0 d = true -> js_div x d = Fin (x / d).
Proof.
  intros H. unfold js_div. destruct (Qeq_bool d 0) eqn:E; [|reflexivity].
  apply Qeq_bool_eq in E. apply Qlt_bool_iff in H. rewrite E in H.
  exfalso. exact (Qlt_irrefl 0 H).
Qed.

Lemma pct_return_spec (tv d : Q) :
  pct_return tv d = if Qlt_bool 0 d then Fin ((tv / d - 1) * 100) else Fin 0.
Proof.
  unfold pct_return. destruct (Qlt_bool 0 d) eqn:E; [|reflexivity].
  rewrite js_div_finite by exact E. reflexivity.
Qed.

Lemma pct_return_guard (tv d : Q) : ~ 0 < d -> pct_return tv d = Fin 0.
Proof.
  intros H. rewrite pct_return_spec. destruct (Qlt_bool 0 d) eqn:E; [|reflexivity].
  exfalso. apply H, Qlt_bool_iff, E.
Qed.

(** C3, counterexample.  In February 2024 the latest earlier record is
    January's, stored with ending value 0; the code takes the total
    subscriptions 100000 as the beginning-of-month value and reports an MTD
    of 20 where the claim gives 0. *)
Lemma zero_ending_value_falls_back :
  lastMonthRecord (st_perfTracker zero_ending_state) "2024-02"
  = Some (perf_record "2024-01" 60000 40000 0)
  /\ beginningValue (st_perfTracker zero_ending_state)
       (st_usdcData zero_ending_state) "2024-02" == 100000
  /\ ~ (beginningValue (st_perfTracker zero_ending_state)
          (st_usdcData zero_ending_state) "2024-02"
        == ending_value (perf_record "2024-01" 60000 40000 0))
  /\ (exists q, mtd (calculateReturns zero_ending_state) = Fin q /\ q == 20)
  /\ mtd (calculateReturns zero_ending_state) <> Fin 0.
Proof.
  split; [vm_compute; reflexivity|].
  split; [vm_compute; reflexivity|].
  split; [intros H; vm_compute in H; discriminate H|].
  split.
  - eexists. split; [vm_compute; reflexivity|]. vm_compute. reflexivity.
  - vm_compute. discriminate.
Qed.

(** C3, amended.  With one record per month: the beginning-of-month value
    is the ending value of the latest record strictly before the current
    month when that record exists and its ending value is not 0; when there
    is no such record, or its ending value is 0, it is the total
    subscriptions (0 without cash data).  MTD is
    (current total value / beginning-of-month value - 1) x 100 when the
    beginning-of-month value is positive and 0 otherwise. *)
Theorem beginning_of_month_value (st : AppState) :
  NoDup (map month (st_perfTracker st)) ->
  let perf := st_perfTracker st in
  let cur := st_currentMonth st in
  let subs := subscriptions_or_zero (st_usdcData st) in
  let bv := beginningValue perf (st_usdcData st) cur in
  (forall p, In p perf -> String.ltb (month p) cur = true ->
     (forall p', In p' perf -> String.ltb (month p') cur = true ->
                 String.leb (month p') (month p) = true) ->
     bv = if Qeq_bool (ending_value p) 0 then subs else ending_value p)
  /\ ((forall p, In p perf -> String.ltb (month p) cur = false) -> bv = subs)
  /\ mtd (calculateReturns st)
     = if Qlt_bool 0 bv then Fin ((portfolioValue st / bv - 1) * 100) else Fin 0.
Proof.
  intros Hnd. cbv zeta. split; [|split].
  - intros p Hin Hlt Hmax. unfold beginningValue.
    rewrite (lastMonthRecord_latest _ _ p Hnd Hin Hlt Hmax). reflexivity.
  - intros H. unfold beginningValue. rewrite (lastMonthRecord_none _ _ H).
    reflexivity.
  - unfold calculateReturns. cbn [mtd]. apply pct_return_spec.
Qed.

(** The amended statement in March 2024 with records for December,
    January and February: the value that starts the month is February's
    ending value 110000. *)
Lemma beginning_of_month_value_witness :
  beginningValue (st_perfTracker three_month_state)
    (st_usdcData three_month_state) (st_currentMonth three_month_state)
  = 110000.
Proof.
  assert (Hnd : NoDup (map month (st_perfTracker three_month_state))).
  { apply NoDup_ListNoDup. repeat constructor; simpl; intuition discriminate. }
  apply (proj1 (beginning_of_month_value three_month_state Hnd)
           (perf_record "2024-02" 0 0 110000)).
  - left. reflexivity.
  - reflexivity.
  - intros p' [<-|[<-|[<-|[]]]] _; reflexivity.
Defined.


(** ** Returns in binary64 *)

Lemma pct_return64_guard (totalValue d : float) :
  PrimFloat.ltb 0 d = false -> Binary64.pct_return totalValue d = 0%float.
Proof. intros H. unfold Binary64.pct_return. rewrite H. reflexivity. Qed.

Lemma pct_return64_value (totalValue d : float) :
  PrimFloat.ltb 0 d = true ->
  Binary64.pct_return totalValue d = ((totalValue / d - 1) * 100)%float.
Proof. intros H. unfold Binary64.pct_return. rewrite H. reflexivity. Qed.

Lemma pct_return64_not_finite (totalValue d : float) :
  PrimFloat.is_finite (Binary64.pct_return totalValue d) = false ->
  PrimFloat.ltb 0 d = true.
Proof.
  unfold Binary64.pct_return. destruct (PrimFloat.ltb 0 d); [reflexivity|].
  vm_compute. intros H. discriminate H.
Qed.

(** C7, counterexample.  In February 2024 with cash of 100000 and a
    January record whose ending value is the positive number 2^-1030, the
    denominator of MTD and YTD is strictly positive and the quotient
    100000 / 2^-1030 overflows: both figures are Infinity.  With a long and
    a short position whose values overflow, the total value is
    Infinity + (-Infinity) and all three figures are NaN. *)
Lemma returns_overflow_to_infinity_and_nan :
  PrimFloat.ltb 0
    (Binary64.beginningValue (Binary64.st_perfTracker Binary64.tiny_ending_state)
       (Binary64.st_usdcData Binary64.tiny_ending_state) "2024-02") = true
  /\ Binary64.portfolioValue Binary64.tiny_ending_state = 100000%float
  /\ Binary64.mtd (Binary64.calculateReturns Binary64.tiny_ending_state) = infinity
  /\ Binary64.ytd (Binary64.calculateReturns Binary64.tiny_ending_state) = infinity
  /\ PrimFloat.is_infinity
       (Binary64.mtd (Binary64.calculateReturns Binary64.tiny_ending_state)) = true
  /\ PrimFloat.is_nan
       (Binary64.mtd (Binary64.calculateReturns Binary64.overflowing_state)) = true
  /\ PrimFloat.is_nan
       (Binary64.ytd (Binary64.calculateReturns Binary64.overflowing_state)) = true
  /\ PrimFloat.is_nan
       (Binary64.sinceInception (Binary64.calculateReturns Binary64.overflowing_state))
     = true.
Proof. repeat split; vm_compute; reflexivity. Qed.

(** C7, amended.  In binary64, whatever records, holdings, prices and cash
    data are loaded: each of MTD, YTD and since-inception is 0 whenever its
    denominator is not strictly positive (zero, negative or NaN); with a
    strictly positive denominator it is the binary64 value of
    ((total value / denominator) - 1) x 100; so a figure can be NaN or
    infinite only when its denominator is strictly positive. *)
Theorem returns_zero_unless_positive_denominator (st : Binary64.AppState) :
  let r := Binary64.calculateReturns st in
  let totalValue := Binary64.portfolioValue st in
  let bv := Binary64.beginningValue (Binary64.st_perfTracker st)
              (Binary64.st_usdcData st) (Binary64.st_currentMonth st) in
  let ysv := Binary64.yearStartValue (Binary64.st_perfTracker st)
               (Binary64.st_usdcData st) (Binary64.st_currentMonth st)
               (Binary64.st_currentYear st) in
  let iv := Binary64.initialValue (Binary64.st_perfTracker st)
              (Binary64.st_usdcData st) in
  (PrimFloat.ltb 0 bv = false -> Binary64.mtd r = 0%float)
  /\ (PrimFloat.ltb 0 ysv = false -> Binary64.ytd r = 0%float)
  /\ (PrimFloat.ltb 0 iv = false -> Binary64.sinceInception r = 0%float)
  /\ (PrimFloat.ltb 0 bv = true ->
      Binary64.mtd r = ((totalValue / bv - 1) * 100)%float)
  /\ (PrimFloat.ltb 0 ysv = true ->
      Binary64.ytd r = ((totalValue / ysv - 1) * 100)%float)
  /\ (PrimFloat.ltb 0 iv = true ->
      Binary64.sinceInception r = ((totalValue / iv - 1) * 100)%float)
  /\ (PrimFloat.is_finite (Binary64.mtd r) = false -> PrimFloat.ltb 0 bv = true)
  /\ (PrimFloat.is_finite (Binary64.ytd r) = false -> PrimFloat.ltb 0 ysv = true)
  /\ (PrimFloat.is_finite (Binary64.sinceInception r) = false ->
      PrimFloat.ltb 0 iv = true).
Proof.
  cbv zeta. unfold Binary64.calculateReturns.
  cbn [Binary64.mtd Binary64.ytd Binary64.sinceInception].
  split; [apply pct_return64_guard|].
  split; [apply pct_return64_guard|].
  split; [apply pct_return64_guard|].
  split; [apply pct_return64_value|].
  split; [apply pct_return64_value|].
  split; [apply pct_return64_value|].
  split; [apply pct_return64_not_finite|].
  split; apply pct_return64_not_finite.
Qed.

(** The statement at a dashboard with nothing loaded, where every
    denominator is 0 and every return is 0, and in March 2024 with a total
    value of 120000 against February's ending value 110000 and December's
    100000. *)
Lemma returns_zero_unless_positive_denominator_witness :
  Binary64.mtd (Binary64.calculateReturns Binary64.empty_state) = 0%float
  /\ Binary64.ytd (Binary64.calculateReturns Binary64.empty_state) = 0%float
  /\ Binary64.sinceInception (Binary64.calculateReturns Binary64.empty_state)
     = 0%float
  /\ Binary64.mtd (Binary64.calculateReturns Binary64.three_month_state)
     = ((120000 / 110000 - 1) * 100)%float
  /\ Binary64.ytd (Binary64.calculateReturns Binary64.three_month_state)
     = ((120000 / 100000 - 1) * 100)%float
  /\ Binary64.sinceInception (Binary64.calculateReturns Binary64.three_month_state)
     = ((120000 / (60000 + 40000) - 1) * 100)%float.
Proof.
  destruct (returns_zero_unless_positive_denominator Binary64.empty_state)
    as (Hm & Hy & Hs & _).
  destruct (returns_zero_unless_positive_denominator Binary64.three_month_state)
    as (_ & _ & _ & Vm & Vy & Vs & _).
  split; [apply Hm; vm_compute; reflexivity|].
  split; [apply Hy; vm_compute; reflexivity|].
  split; [apply Hs; vm_compute; reflexivity|].
  split; [apply Vm; vm_compute; reflexivity|].
  split; [apply Vy; vm_compute; reflexivity|].
  apply Vs; vm_compute; reflexivity.
Defined.

(** ** Bulk import of trades *)

Section ImportFacts.

Variable parseFloat_string : string -> option Q.
Variable Number_toString : Q -> string.
Variable Date_toString : nat -> nat -> nat -> string.
Variable excel_serial_date : Q -> string.
Variable today : string.
Variable insert_error : list Trade -> Trade -> option string.

Let step := process_row parseFloat_string Number_toString Date_toString
              excel_serial_date today insert_error.
Let loop := insertMany parseFloat_string Number_toString Date_toString
              excel_serial_date today insert_error.

(** Every iteration counts its row once, as imported or as skipped; a
    skipped row raises one reason counter or adds one entry to [errors];
    [other] is never raised. *)
Lemma process_row_counts (i : nat) (row : Row) (st : ImportState) :
  (imported (step i row st) + skipped (step i row st)
   = S (imported st + skipped st))%nat
  /\ (accounted (step i row st) - accounted st
      = skipped (step i row st) - skipped st)%nat
  /\ (accounted st <= accounted (step i row st))%nat
  /\ (skipped st <= skipped (step i row st))%nat
  /\ other (skippedReasons (step i row st)) = other (skippedReasons st).
Proof.
  unfold step, process_row, accounted.
  repeat match goal with
         | |- context [if ?c then _ else _] => destruct c
         | |- context [match parseFloat ?f ?u with _ => _ end] =>
             destruct (parseFloat f u)
         | |- context [match insert_error ?t ?x with _ => _ end] =>
             destruct (insert_error t x)
         end;
    cbn [imported skipped errors skippedReasons noToken zeroUnits invalidUnits other];
    rewrite ?length_app; cbn [length]; repeat split; lia.
Qed.

Lemma insertMany_counts (rows : list Row) (i : nat) (st : ImportState) :
  (imported (loop i rows st) + skipped (loop i rows st)
   = imported st + skipped st + length rows)%nat
  /\ (accounted (loop i rows st) - accounted st
      = skipped (loop i rows st) - skipped st)%nat
  /\ (accounted st <= accounted (loop i rows st))%nat
  /\ (skipped st <= skipped (loop i rows st))%nat
  /\ other (skippedReasons (loop i rows st)) = other (skippedReasons st).
Proof.
  revert i st. induction rows as [|row rows IH]; intros i st.
  - simpl. repeat split; lia.
  - change (loop i (row :: rows) st) with (loop (S i) rows (step i row st)).
    destruct (IH (S i) (step i row st)) as (H1 & H2 & H3 & H4 & H5).
    destruct (process_row_counts i row st) as (P1 & P2 & P3 & P4 & P5).
    cbn [length]. repeat split; lia.
Qed.

(** What the import does get right: a non-empty sheet is always answered,
    every row is counted exactly once, and the rows the reason counters
    miss are those recorded in [errors]; [other] stays 0. *)
Lemma uploadTrades_counts (rawData : list Row) (tbl : list Trade) :
  rawData <> [] ->
  exists res tbl',
    uploadTrades parseFloat_string Number_toString Date_toString
      excel_serial_date today insert_error rawData tbl = inr (res, tbl')
    /\ res_total res = length rawData
    /\ (res_imported res + res_skipped res = res_total res)%nat
    /\ other (res_skippedReasons res) = 0%nat
    /\ (noToken (res_skippedReasons res) + zeroUnits (res_skippedReasons res)
        + invalidUnits (res_skippedReasons res) <= res_skipped res)%nat.
Proof.
  intros Hne. destruct rawData as [|row rows]; [contradiction|].
  eexists _, _. split; [reflexivity|].
  cbn [res_total res_imported res_skipped res_skippedReasons].
  destruct (insertMany_counts (row :: rows) 0 (initial_state tbl))
    as (H1 & H2 & H3 & H4 & H5).
  unfold loop in *. unfold accounted in *.
  cbn [initial_state imported skipped errors skippedReasons noToken zeroUnits
       invalidUnits other length] in *.
  repeat split; lia.
Qed.

End ImportFacts.

Example upload_mixed_sheet :
  exists res tbl',
    upload_with insert_ok mixed_sheet [] = inr (res, tbl')
    /\ res_imported res = 1%nat /\ res_skipped res = 3%nat /\ res_total res = 4%nat
    /\ res_skippedReasons res
       = {| noToken := 1; zeroUnits := 1; invalidUnits := 1; other := 0 |}
    /\ length tbl' = 1%nat.
Proof. eexists _, _. split; [vm_compute; reflexivity|]. repeat split. Qed.

(** C8, the code at the failing input.  A well-formed row whose INSERT
    raises is counted as skipped, but no reason counter is raised for it:
    the four reason counters stay 0 (in particular [other]) while
    [skipped] is 1; the batch itself is not aborted. *)
Theorem thrown_row_has_no_reason_code :
  exists res,
    upload_with insert_full [btc_row] [] = inr (res, [])
    /\ success res = true
    /\ res_imported res = 0%nat
    /\ res_skipped res = 1%nat
    /\ res_total res = 1%nat
    /\ res_skippedReasons res
       = {| noToken := 0; zeroUnits := 0; invalidUnits := 0; other := 0 |}
    /\ res_errors res = ["Row 2: database or disk is full"].
Proof. eexists. split; [vm_compute; reflexivity|]. repeat split. Qed.

(** ** Upserts of monthly records *)

Lemma upsert_conflict (upd : PerfRecord -> PerfRecord -> PerfRecord)
  (excluded old : PerfRecord) (tbl : list PerfRecord) :
  (forall o e, month (upd o e) = month o) ->
  NoDup (map month tbl) -> In old tbl -> month old = month excluded ->
  length (upsert upd excluded tbl) = length tbl
  /\ In (upd old excluded) (upsert upd excluded tbl)
  /\ forall r, In r (upsert upd excluded tbl) -> month r = month excluded ->
               r = upd old excluded.
Proof.
  intros Hupd. induction tbl as [|a tl IH]; intros Hnd Hin Hm; [destruct Hin|].
  simpl in Hnd. apply NoDup_cons in Hnd as [Ha Hnd]. simpl.
  destruct (String.eqb_spec (month a) (month excluded)) as [E|E].
  - assert (old = a) as ->.
    { destruct Hin as [->|Hin]; [reflexivity|]. exfalso. apply Ha.
      rewrite E, <- Hm. apply list_elem_of_In, in_map, Hin. }
    split; [reflexivity|]. split; [left; reflexivity|].
    intros r [<-|Hr] Hmr; [reflexivity|].
    exfalso. apply Ha. rewrite E, <- Hmr. apply list_elem_of_In, in_map, Hr.
  - destruct Hin as [->|Hin]; [congruence|].
    destruct (IH Hnd Hin Hm) as (Hlen & Hmem & Huniq).
    split; [simpl; rewrite Hlen; reflexivity|].
    split; [right; exact Hmem|].
    intros r [<-|Hr] Hmr; [congruence|]. apply Huniq; assumption.
Qed.

Lemma manual_update_all (old ex : PerfRecord) :
  month old = month ex -> manual_conflict_update old ex = ex.
Proof. intros H. destruct ex. unfold manual_conflict_update. simpl in *. rewrite H. reflexivity. Qed.

(** C9, counterexample.  January 2024 is stored with expenses 500, 200 and
    100; a sheet row for the same month is uploaded, carrying expense
    columns 700, 300 and 150.  The stored record takes the new subscriptions
    and values, and keeps the old expenses. *)
Lemma upload_keeps_stored_expenses :
  exists r,
    uploadPerfRow (fun _ => None) january_row [january_stored] = Some [r]
    /\ month r = "2024-01"
    /\ gp_subs r = 70000
    /\ ending_value r = 130000
    /\ fund_expenses r = 500
    /\ mgmt_fees r = 200
    /\ setup_costs r = 100
    /\ ~ fund_expenses r == 700
    /\ ~ mgmt_fees r == 300
    /\ ~ setup_costs r == 150.
Proof.
  eexists. split; [vm_compute; reflexivity|].
  repeat split; intros H; vm_compute in H; discriminate H.
Qed.

(** C9, amended.  With one stored record per month: re-submitting an
    existing month through POST /perf-tracker leaves one record for that
    month whose fields all hold the submitted values (a field left out is
    stored as 0); re-submitting it through the spreadsheet upload
    overwrites gp_subs, lp_subs, initial_value, ending_value and the
    benchmark returns with the row's values and leaves fund_expenses,
    mgmt_fees and setup_costs as they were stored. *)
Theorem perf_upsert_overwrites (tbl : list PerfRecord) (old : PerfRecord) :
  NoDup (map month tbl) -> In old tbl ->
  (forall b, b_month b = month old ->
     length (postPerfTracker b tbl) = length tbl
     /\ In (body_values b) (postPerfTracker b tbl)
     /\ forall r, In r (postPerfTracker b tbl) -> month r = month old ->
                  r = body_values b)
  /\ (forall parseFloat_string row,
        parseMonthValue (getColumnValue row ["MONTH"; "Month"; "month"])
        = Some (month old) ->
        month old <> "" ->
        exists tbl',
          uploadPerfRow parseFloat_string row tbl = Some tbl'
          /\ length tbl' = length tbl
          /\ In (upload_conflict_update old
                   (upload_values parseFloat_string (month old) row)) tbl'
          /\ forall r, In r tbl' -> month r = month old ->
               r = upload_conflict_update old
                     (upload_values parseFloat_string (month old) row)
               /\ gp_subs r
                  = number_column parseFloat_string row
                      ["GP SUBS"; "GP Subs"; "gp_subs"]
               /\ ending_value r
                  = number_column parseFloat_string row
                      ["END/LIVE VALUE"; "END VALUE"; "ENDING VALUE"; "Ending Value";
                       "ending_value"; "End/Live Value"]
               /\ fund_expenses r = fund_expenses old
               /\ mgmt_fees r = mgmt_fees old
               /\ setup_costs r = setup_costs old).
Proof.
  intros Hnd Hin. split.
  - intros b Hb. unfold postPerfTracker.
    destruct (upsert_conflict manual_conflict_update (body_values b) old tbl)
      as (Hlen & Hmem & Huniq); auto.
    rewrite manual_update_all in Hmem, Huniq by (symmetry; exact Hb).
    split; [exact Hlen|]. split; [exact Hmem|].
    intros r Hr Hm. apply Huniq; [exact Hr|]. rewrite Hm. symmetry. exact Hb.
  - intros pf row Hmonth Hne. unfold uploadPerfRow. rewrite Hmonth.
    destruct (String.eqb_spec (month old) "") as [E|_]; [contradiction|].
    destruct (upsert_conflict upload_conflict_update
                (upload_values pf (month old) row) old tbl)
      as (Hlen & Hmem & Huniq); auto.
    eexists. split; [reflexivity|]. split; [exact Hlen|]. split; [exact Hmem|].
    intros r Hr Hm. rewrite (Huniq r Hr Hm). repeat split.
Qed.

(** The amended statement at a table that holds January 2024: the manual
    upsert stores the submitted expenses, the upload keeps the stored ones. *)
Lemma perf_upsert_overwrites_witness :
  In (body_values january_body) (postPerfTracker january_body [january_stored])
  /\ exists tbl',
       uploadPerfRow (fun _ => None) january_row [january_stored] = Some tbl'
       /\ forall r, In r tbl' -> month r = "2024-01" ->
            fund_expenses r = 500 /\ mgmt_fees r = 200 /\ setup_costs r = 100.
Proof.
  assert (Hnd : NoDup (map month [january_stored])) by apply NoDup_singleton.
  assert (Hin : In january_stored [january_stored]) by (left; reflexivity).
  destruct (perf_upsert_overwrites [january_stored] january_stored Hnd Hin)
    as [Hmanual Hupload].
  split.
  - apply (Hmanual january_body). reflexivity.
  - destruct (Hupload (fun _ => None) january_row) as (tbl' & Hup & _ & _ & Hall).
    + reflexivity.
    + discriminate.
    + exists tbl'. split; [exact Hup|].
      intros r Hr Hm. destruct (Hall r Hr Hm) as (_ & _ & _ & H1 & H2 & H3).
      rewrite H1, H2, H3. repeat split.
Defined.

Example manual_upsert_january :
  postPerfTracker january_body [january_stored] = [body_values january_body].
Proof. reflexivity. Qed.

(** ** Case normalisation and trimming *)

Lemma upper_ascii_idem (c : ascii) : upper_ascii (upper_ascii c) = upper_ascii c.
Proof. destruct c as [[] [] [] [] [] [] [] []]; reflexivity. Qed.

Lemma upper_ascii_ws (c : ascii) : is_ws (upper_ascii c) = is_ws c.
Proof. destruct c as [[] [] [] [] [] [] [] []]; reflexivity. Qed.

Lemma toUpperCase_idem (s : string) : toUpperCase (toUpperCase s) = toUpperCase s.
Proof.
  induction s as [|c s IH]; simpl; [reflexivity|].
  rewrite upper_ascii_idem, IH. reflexivity.
Qed.

Lemma not_usdc_upper (s : string) : not_usdc (toUpperCase s) = not_usdc s.
Proof. unfold not_usdc. rewrite toUpperCase_idem. reflexivity. Qed.

Lemma toUpperCase_empty (s : string) : toUpperCase s = "" -> s = "".
Proof. destruct s; [reflexivity|discriminate]. Qed.

Lemma trim_start_upper (s : string) :
  trim_start (toUpperCase s) = toUpperCase (trim_start s).
Proof.
  induction s as [|c s IH]; simpl; [reflexivity|].
  rewrite upper_ascii_ws. destruct (is_ws c); [exact IH|reflexivity].
Qed.

Lemma trim_end_upper (s : string) :
  trim_end (toUpperCase s) = toUpperCase (trim_end s).
Proof.
  induction s as [|c s IH]; simpl; [reflexivity|].
  rewrite IH, upper_ascii_ws.
  destruct (trim_end s); simpl; [destruct (is_ws c)|]; reflexivity.
Qed.

Lemma trim_upper (s : string) : trim (toUpperCase s) = toUpperCase (trim s).
Proof. unfold trim. rewrite trim_start_upper, trim_end_upper. reflexivity. Qed.

Lemma trim_start_head_ok (s : string) : head_ok (trim_start s).
Proof.
  induction s as [|c s IH]; simpl; [exact I|].
  destruct (is_ws c) eqn:E; [exact IH|exact E].
Qed.

Lemma head_ok_trim_start (s : string) : head_ok s -> trim_start s = s.
Proof. destruct s as [|c s]; simpl; [reflexivity|]. intros ->. reflexivity. Qed.

Lemma head_ok_trim_end (s : string) : head_ok s -> head_ok (trim_end s).
Proof.
  destruct s as [|c s]; simpl; [auto|]. intros E.
  destruct (trim_end s); simpl; [rewrite E; exact E|exact E].
Qed.

Lemma trim_end_idem (s : string) : trim_end (trim_end s) = trim_end s.
Proof.
  induction s as [|c s IH]; simpl; [reflexivity|].
  destruct (trim_end s) as [|d r] eqn:E.
  - destruct (is_ws c) eqn:Ec; simpl; [reflexivity|]. rewrite Ec. reflexivity.
  - simpl. simpl in IH. rewrite IH. destruct (trim_end r); [|reflexivity].
    destruct (is_ws d); [discriminate IH|reflexivity].
Qed.

Lemma trim_idem (s : string) : trim (trim s) = trim s.
Proof.
  unfold trim.
  rewrite (head_ok_trim_start (trim_end (trim_start s))).
  - apply trim_end_idem.
  - apply head_ok_trim_end, trim_start_head_ok.
Qed.

(** What the import stores for a token cell that passed the empty test. *)
Lemma stored_token_normal (s : string) :
  trim s <> "" ->
  let tok := trim (toUpperCase s) in
  toUpperCase tok = tok /\ trim tok = tok /\ tok <> "".
Proof.
  intros Hne. cbv zeta. rewrite trim_upper. split; [|split].
  - apply toUpperCase_idem.
  - rewrite trim_upper, trim_idem. reflexivity.
  - intros H. apply Hne, toUpperCase_empty, H.
Qed.

(** ** Manual entry of trades *)

Lemma Qeq_bool_false_neq (x : Q) : Qeq_bool x 0 = false -> ~ x == 0.
Proof. intros H E. apply Qeq_eq_bool in E. congruence. Qed.

Lemma num_truthy_some (v : option Q) :
  num_truthy v = true -> exists q, v = Some q /\ ~ q == 0.
Proof.
  destruct v as [q|]; simpl; [|discriminate]. intros H. exists q. split; [reflexivity|].
  apply Qeq_bool_false_neq. destruct (Qeq_bool q 0); [discriminate H|reflexivity].
Qed.

(** X1.  POST /trades and PUT /trades/:id: when exactly one of average price
    and total is given (non-zero) and the units are non-zero, the stored
    trade has both and average price x units equals the total; in every
    other case both are stored as they were sent, without any check that
    they agree.  The token is stored in upper case. *)
Theorem manual_trade_derivation (b : TradeBody) :
  (xorb (num_truthy (tb_avg_price b)) (num_truthy (tb_total b)) = true ->
   ~ tb_units b == 0 ->
   exists avg_price total,
     t_avg_price (trade_values b) = Some avg_price
     /\ t_total (trade_values b) = Some total
     /\ avg_price * t_units (trade_values b) == total)
  /\ ((xorb (num_truthy (tb_avg_price b)) (num_truthy (tb_total b)) = false
       \/ tb_units b == 0) ->
      t_avg_price (trade_values b) = tb_avg_price b
      /\ t_total (trade_values b) = tb_total b)
  /\ toUpperCase (t_token (trade_values b)) = t_token (trade_values b).
Proof.
  split; [|split].
  - intros Hx Hu.
    assert (Eu : Qeq_bool (tb_units b) 0 = false).
    { destruct (Qeq_bool (tb_units b) 0) eqn:E; [|reflexivity].
      exfalso. apply Hu, Qeq_bool_eq, E. }
    unfold trade_values, finalAvgPrice, finalTotal, derives_total, derives_price.
    cbn [t_avg_price t_total t_units]. rewrite Eu.
    destruct (num_truthy (tb_avg_price b)) eqn:Ea,
             (num_truthy (tb_total b)) eqn:Et; try discriminate Hx; simpl.
    + apply num_truthy_some in Ea as (a & -> & _).
      exists a, (a * tb_units b).
      split; [reflexivity|split; [reflexivity|reflexivity]].
    + apply num_truthy_some in Et as (t & -> & _).
      exists (t / tb_units b), t.
      split; [reflexivity|split; [reflexivity|field; exact Hu]].
  - intros H.
    unfold trade_values, finalAvgPrice, finalTotal, derives_total, derives_price.
    cbn [t_avg_price t_total].
    destruct H as [Hx|Hu].
    + destruct (num_truthy (tb_avg_price b)), (num_truthy (tb_total b));
        try discriminate Hx; simpl; rewrite ?andb_false_r; auto.
    + apply Qeq_eq_bool in Hu. rewrite Hu. simpl. rewrite !andb_false_r. auto.
  - apply toUpperCase_idem.
Qed.

(** The form with the price left blank: 2 units for 100 are stored with an
    average price of 50. *)
Lemma manual_trade_derivation_witness :
  exists avg_price total,
    t_avg_price (trade_values blank_price_body) = Some avg_price
    /\ t_total (trade_values blank_price_body) = Some total
    /\ avg_price * t_units (trade_values blank_price_body) == total.
Proof.
  apply (proj1 (manual_trade_derivation blank_price_body)).
  - reflexivity.
  - intros H. vm_compute in H. discriminate H.
Defined.

(** ** A new trade and the cash residual *)

Lemma usdc_balance_terms (db : Db) :
  usdc_balance (getPortfolioUsdc db)
  == total_subscriptions (getPortfolioUsdc db) - cost_basis (getPortfolioUsdc db)
     - total_expenses (getPortfolioUsdc db) - exits_cost_basis (getPortfolioUsdc db).
Proof. reflexivity. Qed.

(** X2.  Recording a trade moves cash into or out of the residual: after
    POST /trades the cash balance is the old one minus the signed total of
    the stored trade (minus the total of a Buy, plus the total of a Sell,
    unchanged for Income), and a trade in USDC itself leaves it unchanged. *)
Theorem trade_entry_moves_cash (b : TradeBody) (db : Db) :
  usdc_balance (getPortfolioUsdc (postTrades b db))
  == usdc_balance (getPortfolioUsdc db)
     - (if not_usdc (tb_token b) then signed_total (trade_values b) else 0).
Proof.
  rewrite !usdc_balance_terms, !cost_basis_signed.
  unfold postTrades, with_trades, getPortfolioUsdc.
  cbn [trades investors perf_tracker exits total_subscriptions total_expenses
       exits_cost_basis].
  rewrite List.filter_app, map_app, Qsum_app. simpl List.filter.
  change (t_token (trade_values b)) with (toUpperCase (tb_token b)).
  rewrite not_usdc_upper.
  destruct (not_usdc (tb_token b)); simpl; ring.
Qed.

(** ** What the bulk import stores *)

Section ImportRows.

Variable parseFloat_string : string -> option Q.
Variable Number_toString : Q -> string.
Variable Date_toString : nat -> nat -> nat -> string.
Variable excel_serial_date : Q -> string.
Variable today : string.
Variable insert_error : list Trade -> Trade -> option string.

Let step := process_row parseFloat_string Number_toString Date_toString
              excel_serial_date today insert_error.
Let loop := insertMany parseFloat_string Number_toString Date_toString
              excel_serial_date today insert_error.
Let row_trade := trade_of_row Number_toString Date_toString excel_serial_date today.

Lemma Qabs_pos (q : Q) : Qeq_bool q 0 = false -> 0 < Qabs q.
Proof.
  intros H. apply Qeq_bool_false_neq in H.
  destruct (Qlt_le_dec 0 (Qabs q)) as [Hlt|Hle]; [exact Hlt|].
  exfalso. apply H. apply Qabs_Qle_condition in Hle. destruct Hle. lra.
Qed.

Lemma trade_of_row_well_stored (token dateValue type : Cell) (u : Q) (a t : Parsed) :
  trim (String_of Number_toString Date_toString token) <> "" ->
  well_stored (row_trade token dateValue type u a t).
Proof.
  intros Htok. unfold well_stored, row_trade, trade_of_row.
  cbn [t_units t_total t_token]. split; [apply Qabs_nonneg|]. split.
  - intros total.
    match goal with
    | |- context [if parsed_truthy ?p then _ else _] =>
        destruct (parsed_truthy p) eqn:E; [|discriminate];
        destruct p as [| |q]; try discriminate
    end.
    intros [= <-]. apply Qabs_pos. simpl in E.
    destruct (Qeq_bool q 0); [discriminate E|reflexivity].
  - apply stored_token_normal, Htok.
Qed.

Lemma process_row_table (i : nat) (row : Row) (st : ImportState) :
  exists added,
    table (step i row st) = (table st ++ added)%list
    /\ (imported (step i row st) = imported st + length added)%nat
    /\ Forall well_stored added.
Proof.
  unfold step, process_row.
  destruct (negb (truthy (getColumnValue row _)) || _)%bool eqn:Etok.
  { exists []. cbn [table imported length]. rewrite app_nil_r. repeat split; auto. }
  apply orb_false_iff in Etok as [_ Etok]. apply String.eqb_neq in Etok.
  destruct (parseFloat _ _) as [u|].
  2: { exists []. cbn [table imported length]. rewrite app_nil_r. repeat split; auto. }
  destruct (Qeq_bool u 0 && _)%bool.
  { exists []. cbn [table imported length]. rewrite app_nil_r. repeat split; auto. }
  destruct (insert_error _ _).
  { exists []. cbn [table imported length]. rewrite app_nil_r. repeat split; auto. }
  eexists [_]. cbn [table imported length]. split; [reflexivity|]. split; [lia|].
  constructor; [|constructor]. apply trade_of_row_well_stored, Etok.
Qed.

Lemma insertMany_table (rows : list Row) (i : nat) (st : ImportState) :
  exists added,
    table (loop i rows st) = (table st ++ added)%list
    /\ (imported (loop i rows st) = imported st + length added)%nat
    /\ Forall well_stored added.
Proof.
  revert i st. induction rows as [|row rows IH]; intros i st.
  - exists []. simpl. rewrite app_nil_r. repeat split; auto.
  - change (loop i (row :: rows) st) with (loop (S i) rows (step i row st)).
    destruct (process_row_table i row st) as (a1 & T1 & I1 & F1).
    destruct (IH (S i) (step i row st)) as (a2 & T2 & I2 & F2).
    exists (a1 ++ a2)%list. rewrite T2, T1, I2, I1, length_app, <- app_assoc.
    repeat split; [lia|]. apply Forall_app. split; assumption.
Qed.

Hypothesis insert_succeeds : forall tbl t, insert_error tbl t = None.

Lemma process_row_no_error (i : nat) (row : Row) (st : ImportState) :
  errors (step i row st) = errors st.
Proof.
  unfold step, process_row.
  repeat match goal with
         | |- context [if ?c then _ else _] => destruct c
         | |- context [match parseFloat ?f ?u with _ => _ end] =>
             destruct (parseFloat f u)
         end; try reflexivity.
  rewrite insert_succeeds. reflexivity.
Qed.

Lemma insertMany_no_error (rows : list Row) (i : nat) (st : ImportState) :
  errors (loop i rows st) = errors st.
Proof.
  revert i st. induction rows as [|row rows IH]; intros i st; [reflexivity|].
  change (loop i (row :: rows) st) with (loop (S i) rows (step i row st)).
  rewrite IH. apply process_row_no_error.
Qed.

End ImportRows.

(** X3.  Bulk import, whatever the database does with each INSERT: the
    rows already in the table are kept in place, exactly [imported] rows
    are added after them, and every added row has non-negative units, a
    positive total if it has one, and a token that is upper case, trimmed
    and not empty. *)
Theorem import_stores_normalised_rows
  (parseFloat_string : string -> option Q) (Number_toString : Q -> string)
  (Date_toString : nat -> nat -> nat -> string) (excel_serial_date : Q -> string)
  (today : string) (insert_error : list Trade -> Trade -> option string)
  (rawData : list Row) (tbl : list Trade) (res : UploadResponse)
  (tbl' : list Trade) :
  uploadTrades parseFloat_string Number_toString Date_toString excel_serial_date
    today insert_error rawData tbl = inr (res, tbl') ->
  exists added,
    tbl' = (tbl ++ added)%list
    /\ length added = res_imported res
    /\ Forall well_stored added.
Proof.
  unfold uploadTrades. destruct rawData as [|row rows]; [discriminate|].
  destruct (insertMany_table parseFloat_string Number_toString Date_toString
              excel_serial_date today insert_error (row :: rows) 0
              (initial_state tbl)) as (added & T & I & F).
  revert T I.
  generalize (insertMany parseFloat_string Number_toString Date_toString
                excel_serial_date today insert_error 0 (row :: rows)
                (initial_state tbl)).
  intros st T I [= <- <-].
  exists added. cbn [res_imported]. rewrite T, I. repeat split; auto.
Qed.

(** The statement at a sheet with one good and three unusable rows. *)
Lemma import_stores_normalised_rows_witness :
  exists added,
    [ {| t_date := "2024-02-01"; t_token := "BTC"; t_units := Qabs 1;
         t_avg_price := Some (Qabs (100 / 1)); t_total := Some (Qabs 100);
         t_type := Buy |} ] = ([] ++ added)%list
    /\ length added = 1%nat
    /\ Forall well_stored added.
Proof.
  apply (import_stores_normalised_rows (fun _ => None) (fun _ => "0")
           (fun _ _ _ => "date") (fun _ => "1900-01-01") "2024-03-01" insert_ok
           mixed_sheet []
           {| success := true; res_imported := 1; res_skipped := 3; res_total := 4;
              res_skippedReasons :=
                {| noToken := 1; zeroUnits := 1; invalidUnits := 1; other := 0 |};
              res_skippedRows :=
                [ {| sr_row := 3; sr_reason := "No token";
                     sr_data := Some [("Date", CNull); ("Token", CNull); ("Units", CNull)];
                     sr_token := None |};
                  {| sr_row := 4; sr_reason := "Invalid units: n/a"; sr_data := None;
                     sr_token := Some (CStr "ETH") |};
                  {| sr_row := 5; sr_reason := "Zero units with no total";
                     sr_data := None; sr_token := Some (CStr "SOL") |} ];
              res_errors := [] |}).
  reflexivity.
Defined.

(** X4.  Bulk import into a database that accepts every INSERT: a
    non-empty sheet is answered with counts in which every row is either
    imported or skipped, every skipped row is counted under exactly one of
    the reasons no-token, zero-units and invalid-units, and the error list
    is empty. *)
Theorem import_without_database_errors
  (parseFloat_string : string -> option Q) (Number_toString : Q -> string)
  (Date_toString : nat -> nat -> nat -> string) (excel_serial_date : Q -> string)
  (today : string) (rawData : list Row) (tbl : list Trade) :
  rawData <> [] ->
  exists res tbl',
    uploadTrades parseFloat_string Number_toString Date_toString excel_serial_date
      today (fun _ _ => None) rawData tbl = inr (res, tbl')
    /\ (res_imported res + res_skipped res = length rawData)%nat
    /\ (res_skipped res
        = noToken (res_skippedReasons res) + zeroUnits (res_skippedReasons res)
          + invalidUnits (res_skippedReasons res))%nat
    /\ other (res_skippedReasons res) = 0%nat
    /\ res_errors res = [].
Proof.
  intros Hne. destruct rawData as [|row rows]; [contradiction|].
  eexists _, _. split; [reflexivity|].
  cbn [res_imported res_skipped res_skippedReasons res_errors].
  pose proof (insertMany_counts parseFloat_string Number_toString Date_toString
                excel_serial_date today (fun _ _ => None) (row :: rows) 0
                (initial_state tbl)) as (H1 & H2 & H3 & H4 & H5).
  pose proof (insertMany_no_error parseFloat_string Number_toString Date_toString
                excel_serial_date today (fun _ _ => None) (fun _ _ => eq_refl)
                (row :: rows) 0 (initial_state tbl)) as He.
  unfold accounted in *. rewrite He in *.
  cbn [initial_state imported skipped errors skippedReasons noToken zeroUnits
       invalidUnits other length] in *.
  repeat split; lia.
Qed.

(** The statement at the sheet with one good and three unusable rows. *)
Lemma import_without_database_errors_witness :
  exists res tbl',
    upload_with (fun _ _ => None) mixed_sheet [] = inr (res, tbl')
    /\ (res_imported res + res_skipped res = length mixed_sheet)%nat
    /\ (res_skipped res
        = noToken (res_skippedReasons res) + zeroUnits (res_skippedReasons res)
          + invalidUnits (res_skippedReasons res))%nat
    /\ other (res_skippedReasons res) = 0%nat
    /\ res_errors res = [].
Proof.
  apply (import_without_database_errors (fun _ => None) (fun _ => "0")
           (fun _ _ _ => "date") (fun _ => "1900-01-01") "2024-03-01"
           mixed_sheet []).
  discriminate.
Defined.

(** ** The checker's breakdown *)

Lemma Qsum_combine3 {A} (f g h k : A -> Q) (l : list A) :
  (forall a, f a == g a - h a + k a) ->
  Qsum (map f l) == Qsum (map g l) - Qsum (map h l) + Qsum (map k l).
Proof.
  intros H. induction l as [|a l IH]; simpl; [ring|]. rewrite H, IH. ring.
Qed.

Lemma case_units_split (t : Trade) :
  case_units t
  == COALESCE (case_when Buy (fun t => Some (t_units t)) t) 0
     - COALESCE (case_when Sell (fun t => Some (t_units t)) t) 0
     + COALESCE (case_when Income (fun t => Some (t_units t)) t) 0.
Proof. unfold case_units, case_when. destruct (t_type t); simpl; ring. Qed.

Lemma case_cost_split (t : Trade) :
  COALESCE (case_cost t) 0
  == COALESCE (case_when Buy t_total t) 0 - COALESCE (case_when Sell t_total t) 0
     + 0.
Proof.
  unfold case_cost, case_when.
  destruct (t_type t), (t_total t); simpl; ring.
Qed.

Lemma length_group_indicator (ks : list string) (a : string) :
  NoDup ks -> In a ks ->
  list_sum (map (fun k => if String.eqb a k then 1%nat else 0%nat) ks) = 1%nat.
Proof.
  induction 1 as [|k ks Hk Hnd IH]; intros Hin; [destruct Hin|].
  simpl. destruct (String.eqb_spec a k) as [->|Hne].
  - f_equal. clear IH Hin Hnd. induction ks as [|b ks IHk]; [reflexivity|].
    simpl. destruct (String.eqb_spec k b) as [->|].
    + exfalso. apply Hk. left.
    + apply IHk. intros H. apply Hk. right. exact H.
  - destruct Hin as [->|Hin]; [congruence|]. apply IH, Hin.
Qed.

Lemma list_sum_plus {A} (f g : A -> nat) (l : list A) :
  list_sum (map (fun a => (f a + g a)%nat) l)
  = (list_sum (map f l) + list_sum (map g l))%nat.
Proof. induction l as [|a l IH]; simpl; [reflexivity|]. rewrite IH. lia. Qed.

Lemma list_sum_zero {A} (l : list A) : list_sum (map (fun _ => 0%nat) l) = 0%nat.
Proof. induction l as [|a l IH]; simpl; [reflexivity|]. exact IH. Qed.

Lemma group_count (ks : list string) (ts : list Trade) :
  NoDup ks -> (forall t, In t ts -> In (t_token t) ks) ->
  list_sum (map (fun k => length (rows_of k ts)) ks) = length ts.
Proof.
  intros Hnd. induction ts as [|t ts IH]; intros Hcover.
  - simpl. apply list_sum_zero.
  - rewrite (map_ext _
      (fun k => ((if String.eqb (t_token t) k then 1 else 0)
                 + length (rows_of k ts))%nat)).
    + rewrite list_sum_plus, length_group_indicator, IH; simpl; auto.
      * intros t' Ht'. apply Hcover. right. exact Ht'.
      * apply Hcover. left. reflexivity.
    + intros k. rewrite rows_of_cons.
      destruct (String.eqb (t_token t) k); reflexivity.
Qed.

Lemma list_sum_perm (l l' : list nat) : Permutation l l' -> list_sum l = list_sum l'.
Proof. induction 1; simpl; lia. Qed.

Lemma rows_of_present (k : string) (ts : list Trade) :
  In k (map t_token ts) -> rows_of k ts <> [].
Proof.
  intros Hin. apply in_map_iff in Hin as (t & <- & Ht).
  intros E. assert (Hin : In t (rows_of (t_token t) ts)).
  { apply filter_In. split; [exact Ht|apply String.eqb_refl]. }
  rewrite E in Hin. destruct Hin.
Qed.

(** X5.  GET /checker/portfolio: every row of the breakdown explains its
    own totals (net units = bought - sold + income units, cost basis =
    bought total - sold total, NULL counting as 0) and stands for at least
    one trade; no token has two rows; and the trade counts of all rows add
    up to the number of trades in the ledger. *)
Theorem checker_breakdown_adds_up (ts : list Trade) :
  (forall h, In h (checker_holdings ts) ->
     net_units h
     == COALESCE (buy_units h) 0 - COALESCE (sell_units h) 0
        + COALESCE (income_units h) 0
     /\ COALESCE (cb_cost_basis h) 0
        == COALESCE (buy_total h) 0 - COALESCE (sell_total h) 0
     /\ (0 < trade_count h)%nat)
  /\ NoDup (map cb_token (checker_holdings ts))
  /\ list_sum (map trade_count (checker_holdings ts)) = length ts.
Proof.
  split; [|split].
  - intros h Hin. unfold checker_holdings in Hin.
    apply sort_by_In, in_map_iff in Hin as (k & <- & Hk).
    unfold breakdown. cbn [net_units buy_units sell_units income_units
                           cb_cost_basis buy_total sell_total trade_count].
    split; [|split].
    + rewrite SUM_nn_Qsum, !coalesce_SUM_map.
      apply Qsum_combine3, case_units_split.
    + rewrite !coalesce_SUM_map.
      rewrite (Qsum_combine3 _ _ _ (fun _ => 0) _ case_cost_split), Qsum_zero. ring.
    + unfold group_keys in Hk. apply nodup_In, rows_of_present in Hk.
      destruct (rows_of k ts); [contradiction|simpl; lia].
  - unfold checker_holdings. apply NoDup_ListNoDup.
    apply (Permutation_NoDup
             (Permutation_map cb_token
                (Permutation_sym (sort_by_perm token_asc _)))).
    rewrite map_map. simpl. rewrite List.map_id.
    apply NoDup_nodup.
  - unfold checker_holdings.
    rewrite (list_sum_perm _ _ (Permutation_map _ (sort_by_perm token_asc _))).
    rewrite map_map. simpl. apply group_count.
    + apply NoDup_ListNoDup, NoDup_nodup.
    + intros t Ht. apply nodup_In, in_map, Ht.
Qed.

(** The statement at the ledger with 500 USDC and 2 BTC, for the BTC row. *)
Lemma checker_breakdown_adds_up_witness :
  net_units (breakdown usdc_trades "BTC")
  == COALESCE (buy_units (breakdown usdc_trades "BTC")) 0
     - COALESCE (sell_units (breakdown usdc_trades "BTC")) 0
     + COALESCE (income_units (breakdown usdc_trades "BTC")) 0
  /\ COALESCE (cb_cost_basis (breakdown usdc_trades "BTC")) 0
     == COALESCE (buy_total (breakdown usdc_trades "BTC")) 0
        - COALESCE (sell_total (breakdown usdc_trades "BTC")) 0
  /\ (0 < trade_count (breakdown usdc_trades "BTC"))%nat.
Proof.
  apply (proj1 (checker_breakdown_adds_up usdc_trades)).
  vm_compute. left. reflexivity.
Defined.


(** ** The checker against the cash endpoint *)

Lemma amount_of_split (i : Investor) :
  COALESCE (Some (i_amount i)) 0
  == COALESCE (amount_of GP i) 0 - 0 + COALESCE (amount_of LP i) 0.
Proof. unfold amount_of. destruct (i_type i); simpl; ring. Qed.

(** X6.  GET /checker/portfolio recomputes the cash formula by another
    route (grouped holdings summed in JavaScript) and always arrives at the
    figures of GET /portfolio/usdc: the five calculation fields agree, and
    the GP and LP totals add up to the total subscriptions. *)
Theorem checker_agrees_with_cash_endpoint (db : Db) :
  let c := calculations (checkerPortfolio db) in
  let u := getPortfolioUsdc db in
  calc_total_subscriptions c == total_subscriptions u
  /\ calc_total_cost_basis c == cost_basis u
  /\ calc_total_expenses c == total_expenses u
  /\ calc_exits_cost_basis c == exits_cost_basis u
  /\ calc_usdc_balance c == usdc_balance u
  /\ gp_total (chk_investors (checkerPortfolio db))
     + lp_total (chk_investors (checkerPortfolio db))
     == inv_total_subscriptions (chk_investors (checkerPortfolio db)).
Proof.
  cbv zeta.
  assert (Hcb : totalCostBasis (checker_holdings (trades db))
                == cost_basis (getPortfolioUsdc db)).
  { rewrite totalCostBasis_signed, cost_basis_signed. reflexivity. }
  unfold checkerPortfolio.
  cbn [calculations chk_investors calc_total_subscriptions calc_total_cost_basis
       calc_total_expenses calc_exits_cost_basis calc_usdc_balance gp_total
       lp_total inv_total_subscriptions].
  split; [reflexivity|]. split; [exact Hcb|]. split; [reflexivity|].
  split; [reflexivity|]. split.
  - rewrite Hcb. reflexivity.
  - rewrite !coalesce_SUM_map.
    rewrite (Qsum_combine3 _ _ (fun _ => 0) _ _ amount_of_split), Qsum_zero. ring.
Qed.

(** ** The drill-down for one token *)

Lemma date_asc_total (a b : Trade) : date_asc a b = false -> date_asc b a = true.
Proof. apply leb_false_total. Qed.

Lemma date_asc_trans (a b c : Trade) :
  date_asc a b = true -> date_asc b c = true -> date_asc a c = true.
Proof. apply leb_trans. Qed.

Lemma rows_of_upper_where (tok : string) (ts : list Trade) :
  rows_of_upper tok ts
  = List.filter (fun t => String.eqb (toUpperCase (t_token t)) tok) ts.
Proof. reflexivity. Qed.

(** X7.  GET /checker/token/:token selects trades by their upper-cased
    token, while the breakdown groups by the token as stored: the
    drill-down's net units and cost basis are the totals over all checker
    rows whose token upper-cases to the requested one.  Its trade list is
    a rearrangement of the selected trades in ascending date order. *)
Theorem drilldown_totals_breakdown_rows (tokenParam : string) (ts : list Trade) :
  let d := checkerToken tokenParam ts in
  let same := fun h => String.eqb (toUpperCase (cb_token h)) (dd_token d) in
  COALESCE (sum_net_units (dd_summary d)) 0
  == Qsum (map net_units (List.filter same (checker_holdings ts)))
  /\ COALESCE (sum_cost_basis (dd_summary d)) 0
     == Qsum (map (fun h => COALESCE (cb_cost_basis h) 0)
                (List.filter same (checker_holdings ts)))
  /\ Permutation (dd_trades d) (rows_of_upper (dd_token d) ts)
  /\ StronglySorted (fun a b => String.leb (t_date a) (t_date b) = true)
       (dd_trades d).
Proof.
  cbv zeta. unfold checkerToken.
  cbn [dd_token dd_trades dd_summary sum_net_units sum_cost_basis].
  set (tok := toUpperCase tokenParam).
  set (p := fun k => String.eqb (toUpperCase k) tok).
  assert (Hgroups :
    forall (f : TokenBreakdown -> Q) (g : Trade -> Q),
      (forall k, f (breakdown ts k) == Qsum (map g (rows_of k ts))) ->
      Qsum (map f (List.filter (fun h => p (cb_token h)) (checker_holdings ts)))
      == Qsum (map g (rows_of_upper tok ts))).
  { intros f g Hfg. unfold checker_holdings.
    rewrite Qsum_filter.
    rewrite (Qsum_perm _ _ (Permutation_map _ (sort_by_perm token_asc _))).
    rewrite <- Qsum_filter.
    transitivity (Qsum (map (fun k => Qsum (map g (rows_of k ts)))
                          (List.filter p (group_keys ts))));
      [|exact (group_sum_where g p ts)].
    set (keys := group_keys ts). clearbody keys.
    induction keys as [|k keys IH]; simpl; [reflexivity|].
    destruct (p k); simpl; [|exact IH]. rewrite IH, Hfg. reflexivity. }
  split; [|split; [|split]].
  - transitivity (Qsum (map case_units (rows_of_upper tok ts))).
    + rewrite coalesce_SUM_map. apply Qsum_ext. reflexivity.
    + symmetry. apply (Hgroups net_units case_units).
      intros k. apply SUM_nn_Qsum.
  - transitivity (Qsum (map (fun t => COALESCE (case_cost t) 0)
                          (rows_of_upper tok ts))).
    + apply coalesce_SUM_map.
    + symmetry. apply (Hgroups (fun h => COALESCE (cb_cost_basis h) 0)
                         (fun t => COALESCE (case_cost t) 0)).
      intros k. apply coalesce_SUM_map.
  - apply sort_by_perm.
  - apply (sort_by_sorted date_asc date_asc_total date_asc_trans).
Qed.

Example drilldown_two_spellings :
  COALESCE (sum_net_units (dd_summary (checkerToken "eth" two_spellings))) 0 == 2
  /\ map cb_token (checker_holdings two_spellings) = ["ETH"; "eth"]
  /\ map t_date (dd_trades (checkerToken "eth" two_spellings))
     = ["2024-01-01"; "2024-02-01"].
Proof. repeat split; vm_compute; reflexivity. Qed.

(** ** The manual price table *)

Lemma upsert_price_tokens (tok : string) (p : Q) (tbl : list ManualPrice) :
  map mp_token (upsert_price tok p tbl)
  = if existsb (String.eqb tok) (map mp_token tbl)
    then map mp_token tbl
    else (map mp_token tbl ++ [tok])%list.
Proof.
  induction tbl as [|r tl IH]; simpl; [reflexivity|].
  rewrite (String.eqb_sym tok). destruct (String.eqb (mp_token r) tok); simpl.
  - reflexivity.
  - rewrite IH. destruct (existsb _ _); reflexivity.
Qed.

Lemma upsert_price_NoDup (tok : string) (p : Q) (tbl : list ManualPrice) :
  NoDup (map mp_token tbl) -> NoDup (map mp_token (upsert_price tok p tbl)).
Proof.
  intros Hnd. rewrite upsert_price_tokens.
  destruct (existsb _ _) eqn:E; [exact Hnd|].
  apply NoDup_app. split; [exact Hnd|]. split; [|apply NoDup_singleton].
  intros x Hx Hx'. apply list_elem_of_In in Hx.
  apply list_elem_of_In in Hx'. destruct Hx' as [<-|[]].
  assert (Hex : existsb (String.eqb tok) (map mp_token tbl) = true).
  { apply existsb_exists. exists tok. split; [exact Hx|apply String.eqb_refl]. }
  congruence.
Qed.

Lemma upsert_price_In (tok : string) (p : Q) (tbl : list ManualPrice) :
  In {| mp_token := tok; mp_price := p |} (upsert_price tok p tbl).
Proof.
  induction tbl as [|r tl IH]; simpl; [left; reflexivity|].
  destruct (String.eqb_spec (mp_token r) tok) as [->|_]; [left; reflexivity|].
  right. exact IH.
Qed.

Lemma upsert_price_other (tok : string) (p : Q) (tbl : list ManualPrice)
  (r : ManualPrice) :
  mp_token r <> tok -> (In r (upsert_price tok p tbl) <-> In r tbl).
Proof.
  intros Hne. induction tbl as [|a tl IH]; simpl.
  - split; [intros [<-|[]]; contradiction|intros []].
  - destruct (String.eqb_spec (mp_token a) tok) as [E|E]; simpl.
    + split; intros [H|H]; auto.
      * subst r. simpl in Hne. contradiction.
      * subst r. contradiction.
    + rewrite IH. reflexivity.
Qed.

Lemma filter_map_NoDup {A B} (f : A -> B) (p : A -> bool) (l : list A) :
  NoDup (map f l) -> NoDup (map f (List.filter p l)).
Proof.
  induction l as [|a l IH]; simpl; [auto|]. intros Hnd.
  apply NoDup_cons in Hnd as [Ha Hnd].
  destruct (p a); simpl; [|apply IH, Hnd].
  apply NoDup_cons. split; [|apply IH, Hnd].
  intros Hin. apply Ha. apply list_elem_of_In.
  apply list_elem_of_In, in_map_iff in Hin as (x & <- & Hx).
  apply in_map. apply filter_In in Hx. tauto.
Qed.

Lemma manual_request_invariant (tbl : list ManualPrice) (r : ManualPriceRequest) :
  NoDup (map mp_token tbl)
  /\ Forall (fun m => toUpperCase (mp_token m) = mp_token m) tbl ->
  NoDup (map mp_token (manual_request tbl r))
  /\ Forall (fun m => toUpperCase (mp_token m) = mp_token m) (manual_request tbl r).
Proof.
  intros [Hnd Hup]. destruct r as [tok p|tok]; simpl.
  - split; [apply upsert_price_NoDup, Hnd|].
    unfold postManualPrices. rewrite Forall_forall in *. intros m Hm.
    apply list_elem_of_In in Hm.
    destruct (string_dec (mp_token m) (toUpperCase tok)) as [E|E].
    + rewrite E. apply toUpperCase_idem.
    + apply Hup, list_elem_of_In.
      apply (upsert_price_other (toUpperCase tok) p tbl m E). exact Hm.
  - split; [apply filter_map_NoDup, Hnd|].
    unfold deleteManualPrices. rewrite Forall_forall in *. intros m Hm.
    apply Hup. apply list_elem_of_In. apply list_elem_of_In, filter_In in Hm. tauto.
Qed.

(** X8.  Whatever sequence of POST /manual-prices and DELETE
    /manual-prices/:token requests is served, starting from an empty
    table, the table never holds two prices for one token and every stored
    token is in upper case. *)
Theorem manual_price_table_invariant (reqs : list ManualPriceRequest) :
  let tbl := fold_left manual_request reqs [] in
  NoDup (map mp_token tbl)
  /\ Forall (fun m => toUpperCase (mp_token m) = mp_token m) tbl.
Proof.
  cbv zeta.
  assert (H : forall tbl,
             NoDup (map mp_token tbl)
             /\ Forall (fun m => toUpperCase (mp_token m) = mp_token m) tbl ->
             NoDup (map mp_token (fold_left manual_request reqs tbl))
             /\ Forall (fun m => toUpperCase (mp_token m) = mp_token m)
                  (fold_left manual_request reqs tbl)).
  { induction reqs as [|r reqs IH]; intros tbl Hinv; simpl; [exact Hinv|].
    apply IH, manual_request_invariant, Hinv. }
  apply H. split; [apply NoDup_nil_2|constructor].
Qed.

(** X9.  Setting and removing a manual price, on a table with one price
    per token: after POST /manual-prices for a token (in any case) the
    price merge resolves the upper-cased token to the new price whenever
    the live quotes have no usable price for it, and the other tokens'
    manual prices are untouched; after DELETE the token resolves to
    whatever the live quotes say. *)
Theorem manual_price_round_trip (tbl : list ManualPrice)
  (prices : gmap string Quote) (tok : string) (p : Q) :
  NoDup (map mp_token tbl) ->
  (no_usable_price prices (toUpperCase tok) = true ->
   price_or_zero (mergedPrices prices (postManualPrices tok p tbl))
     (toUpperCase tok) == p)
  /\ (forall r, mp_token r <> toUpperCase tok ->
        (In r (postManualPrices tok p tbl) <-> In r tbl))
  /\ mergedPrices prices (deleteManualPrices tok tbl) !! toUpperCase tok
     = prices !! toUpperCase tok.
Proof.
  intros Hnd. split; [|split].
  - intros Hno. unfold price_or_zero.
    pose proof (mergedPrices_manual (postManualPrices tok p tbl) prices
                  {| mp_token := toUpperCase tok; mp_price := p |}
                  (upsert_price_NoDup _ p tbl Hnd)
                  (upsert_price_In _ p tbl) Hno) as Hm.
    simpl in Hm. rewrite Hm. simpl. apply js_or_zero.
  - intros r Hne. apply upsert_price_other, Hne.
  - apply mergedPrices_untouched. intros mp Hin.
    apply filter_In in Hin as [_ Hin].
    apply negb_true_iff, String.eqb_neq in Hin. exact Hin.
Qed.

(** The statement for XYZ, entered in lower case at a price of 10 while
    only BTC is quoted live. *)
Lemma manual_price_round_trip_witness :
  price_or_zero (mergedPrices btc_quotes (postManualPrices "xyz" 10 [])) "XYZ" == 10.
Proof.
  apply (proj1 (manual_price_round_trip [] btc_quotes "xyz" 10 NoDup_nil_2)).
  unfold no_usable_price, btc_quotes.
  rewrite lookup_insert_ne by discriminate. rewrite lookup_empty. reflexivity.
Defined.

(** ** Upserts of monthly records: what they leave alone *)

Lemma upsert_months (upd : PerfRecord -> PerfRecord -> PerfRecord)
  (excluded : PerfRecord) (tbl : list PerfRecord) :
  (forall o e, month (upd o e) = month o) ->
  map month (upsert upd excluded tbl)
  = if existsb (String.eqb (month excluded)) (map month tbl)
    then map month tbl
    else (map month tbl ++ [month excluded])%list.
Proof.
  intros Hupd. induction tbl as [|r tl IH]; simpl; [reflexivity|].
  rewrite (String.eqb_sym (month excluded)).
  destruct (String.eqb (month r) (month excluded)); simpl.
  - rewrite Hupd. reflexivity.
  - rewrite IH. destruct (existsb _ _); reflexivity.
Qed.

Lemma upsert_NoDup (upd : PerfRecord -> PerfRecord -> PerfRecord)
  (excluded : PerfRecord) (tbl : list PerfRecord) :
  (forall o e, month (upd o e) = month o) ->
  NoDup (map month tbl) -> NoDup (map month (upsert upd excluded tbl)).
Proof.
  intros Hupd Hnd. rewrite upsert_months by exact Hupd.
  destruct (existsb _ _) eqn:E; [exact Hnd|].
  apply NoDup_app. split; [exact Hnd|]. split; [|apply NoDup_singleton].
  intros x Hx Hx'. apply list_elem_of_In in Hx.
  apply list_elem_of_In in Hx'. destruct Hx' as [<-|[]].
  assert (Hex : existsb (String.eqb (month excluded)) (map month tbl) = true).
  { apply existsb_exists. exists (month excluded).
    split; [exact Hx|apply String.eqb_refl]. }
  congruence.
Qed.

Lemma upsert_other (upd : PerfRecord -> PerfRecord -> PerfRecord)
  (excluded : PerfRecord) (tbl : list PerfRecord) (r : PerfRecord) :
  (forall o e, month (upd o e) = month o) ->
  month r <> month excluded ->
  (In r (upsert upd excluded tbl) <-> In r tbl).
Proof.
  intros Hupd Hne. induction tbl as [|a tl IH]; simpl.
  - split; [intros [<-|[]]; contradiction|intros []].
  - destruct (String.eqb_spec (month a) (month excluded)) as [E|E]; simpl.
    + split; intros [H|H]; auto.
      * exfalso. apply Hne. rewrite <- H, Hupd. exact E.
      * exfalso. apply Hne. rewrite <- H. exact E.
    + rewrite IH. reflexivity.
Qed.

Lemma upsert_new (upd : PerfRecord -> PerfRecord -> PerfRecord)
  (excluded : PerfRecord) (tbl : list PerfRecord) :
  (forall r, In r tbl -> month r <> month excluded) ->
  upsert upd excluded tbl = (tbl ++ [excluded])%list.
Proof.
  induction tbl as [|a tl IH]; intros H; simpl; [reflexivity|].
  destruct (String.eqb_spec (month a) (month excluded)) as [E|E].
  - exfalso. apply (H a); [left; reflexivity|exact E].
  - rewrite IH; [reflexivity|]. intros r Hr. apply H. right. exact Hr.
Qed.

Lemma upsert_idem (upd : PerfRecord -> PerfRecord -> PerfRecord)
  (excluded : PerfRecord) (tbl : list PerfRecord) :
  (forall o e, month (upd o e) = month o) ->
  (forall o e, upd (upd o e) e = upd o e) ->
  upd excluded excluded = excluded ->
  upsert upd excluded (upsert upd excluded tbl) = upsert upd excluded tbl.
Proof.
  intros Hm Hi He. induction tbl as [|a tl IH]; simpl.
  - rewrite String.eqb_refl, He. reflexivity.
  - destruct (String.eqb (month a) (month excluded)) eqn:E; simpl.
    + rewrite Hm, E, Hi. reflexivity.
    + rewrite E, IH. reflexivity.
Qed.

(** X10.  POST /perf-tracker on a table with one record per month: the
    table still has one record per month afterwards, every record of
    another month is exactly as before, a month not yet present is added
    at the end with the submitted values, and sending the same body a
    second time changes nothing. *)
Theorem perf_upsert_frame (b : PerfBody) (tbl : list PerfRecord) :
  NoDup (map month tbl) ->
  NoDup (map month (postPerfTracker b tbl))
  /\ (forall r, month r <> b_month b ->
        (In r (postPerfTracker b tbl) <-> In r tbl))
  /\ ((forall r, In r tbl -> month r <> b_month b) ->
      postPerfTracker b tbl = (tbl ++ [body_values b])%list)
  /\ postPerfTracker b (postPerfTracker b tbl) = postPerfTracker b tbl.
Proof.
  intros Hnd. unfold postPerfTracker. split; [|split; [|split]].
  - apply upsert_NoDup; [reflexivity|exact Hnd].
  - intros r Hne. apply upsert_other; [reflexivity|exact Hne].
  - intros Hnew. apply upsert_new. exact Hnew.
  - apply upsert_idem; reflexivity.
Qed.

(** The statement at the table holding January 2024 and a body for that
    month. *)
Lemma perf_upsert_frame_witness :
  NoDup (map month (postPerfTracker january_body [january_stored]))
  /\ postPerfTracker january_body (postPerfTracker january_body [january_stored])
     = postPerfTracker january_body [january_stored].
Proof.
  destruct (perf_upsert_frame january_body [january_stored])
    as (H1 & _ & _ & H4).
  - apply NoDup_singleton.
  - split; [exact H1|exact H4].
Defined.

(** ** The whole performance sheet *)

Section PerfSheetFacts.

Variable parseFloat_string : string -> option Q.



End PerfSheetFacts.



(** ** The price cache *)

Lemma getPrices_filled (now : Z) (upstream : option (gmap string Quote))
  (c : PriceCache) :
  cache_data c <> None \/ upstream <> None ->
  answer (getPrices now upstream c) <> PricesError
  /\ cache_data (cache_after (getPrices now upstream c)) <> None.
Proof.
  unfold getPrices. intros H.
  destruct (cache_data c) as [d|] eqn:Ec.
  - destruct (now - cache_timestamp c <? CACHE_DURATION)%Z; simpl.
    + rewrite Ec. split; discriminate.
    + destruct upstream; simpl; rewrite ?Ec; split; discriminate.
  - destruct upstream; simpl; [split; discriminate|].
    destruct H as [H|H]; contradiction.
Qed.

Lemma serve_filled (reqs : list (Z * option (gmap string Quote))) (c : PriceCache) :
  cache_data c <> None ->
  Forall (fun a => a <> PricesError) (fst (serve reqs c))
  /\ cache_data (snd (serve reqs c)) <> None.
Proof.
  revert c. induction reqs as [|[now up] reqs IH]; intros c Hc; simpl.
  - split; [constructor|exact Hc].
  - destruct (getPrices_filled now up c (or_introl Hc)) as [Ha Hc'].
    destruct (IH _ Hc') as [Hall Hend].
    destruct (serve reqs (cache_after (getPrices now up c))) as [answers c'].
    simpl in *. split; [constructor; assumption|exact Hend].
Qed.

Lemma serve_app (reqs1 reqs2 : list (Z * option (gmap string Quote)))
  (c : PriceCache) :
  serve (reqs1 ++ reqs2) c
  = ((fst (serve reqs1 c) ++ fst (serve reqs2 (snd (serve reqs1 c))))%list,
     snd (serve reqs2 (snd (serve reqs1 c)))).
Proof.
  revert c. induction reqs1 as [|[now up] reqs1 IH]; intros c; simpl.
  - destruct (serve reqs2 c). reflexivity.
  - rewrite IH.
    destruct (serve reqs1 (cache_after (getPrices now up c))) as [a1 c1].
    reflexivity.
Qed.

Lemma serve_length (reqs : list (Z * option (gmap string Quote))) (c : PriceCache) :
  length (fst (serve reqs c)) = length reqs.
Proof.
  revert c. induction reqs as [|[now up] reqs IH]; intros c; simpl; [reflexivity|].
  specialize (IH (cache_after (getPrices now up c))).
  destruct (serve reqs _). simpl in *. rewrite IH. reflexivity.
Qed.

(** X12.  GET /prices over any run of requests served one after another:
    once the cache holds a price map no request is answered with status
    500, however often the quote service fails afterwards; in particular
    every request from the first one at which the service can be reached
    is answered with a price map. *)
Theorem prices_never_fail_once_cached
  (reqs1 reqs2 : list (Z * option (gmap string Quote))) (c : PriceCache)
  (now : Z) (data : gmap string Quote) :
  (cache_data c <> None ->
   Forall (fun a => a <> PricesError) (fst (serve reqs1 c)))
  /\ exists before after,
       fst (serve (reqs1 ++ (now, Some data) :: reqs2) c) = (before ++ after)%list
       /\ length before = length reqs1
       /\ length after = S (length reqs2)
       /\ Forall (fun a => a <> PricesError) after.
Proof.
  split; [intros Hc; apply serve_filled, Hc|].
  rewrite serve_app. cbn [fst].
  exists (fst (serve reqs1 c)),
         (fst (serve ((now, Some data) :: reqs2) (snd (serve reqs1 c)))).
  split; [reflexivity|]. split; [apply serve_length|].
  split; [apply (serve_length ((now, Some data) :: reqs2))|].
  set (c1 := snd (serve reqs1 c)). simpl.
  assert (Hup : cache_data c1 <> None \/ Some data <> None) by (right; discriminate).
  destruct (getPrices_filled now (Some data) c1 Hup) as [Ha Hc'].
  destruct (serve_filled reqs2 _ Hc') as [Hall _].
  destruct (serve reqs2 (cache_after (getPrices now (Some data) c1))).
  simpl in *. constructor; assumption.
Qed.

(** The statement at a cache that already holds a map while the service
    is down for three requests. *)
Lemma prices_never_fail_once_cached_witness :
  Forall (fun a => a <> PricesError)
    (fst (serve [(100000, None); (200000, None); (300000, None)]%Z
            {| cache_data := Some btc_quotes; cache_timestamp := 0 |})).
Proof.
  apply (proj1 (prices_never_fail_once_cached
                  [(100000, None); (200000, None); (300000, None)]%Z []
                  {| cache_data := Some btc_quotes; cache_timestamp := 0 |}
                  0%Z btc_quotes)).
  discriminate.
Defined.

(** X13.  GET /prices: a request that has to fetch and succeeds stores the
    fetched map with the request's time; every request less than 60000 ms
    after that time is answered with that map without calling the quote
    service, whatever the service would say; and from 60000 ms on, a
    failing fetch serves the same stale map and leaves the cache, time
    included, as it was. *)
Theorem prices_cache_window (c : PriceCache) (t1 t2 : Z)
  (data : gmap string Quote) (upstream : option (gmap string Quote)) :
  called_upstream (getPrices t1 (Some data) c) = true ->
  let c1 := cache_after (getPrices t1 (Some data) c) in
  c1 = {| cache_data := Some data; cache_timestamp := t1 |}
  /\ ((t2 - t1 < 60000)%Z ->
      answer (getPrices t2 upstream c1) = PricesJson data
      /\ called_upstream (getPrices t2 upstream c1) = false
      /\ cache_after (getPrices t2 upstream c1) = c1)
  /\ ((60000 <= t2 - t1)%Z ->
      answer (getPrices t2 None c1) = PricesJson data
      /\ called_upstream (getPrices t2 None c1) = true
      /\ cache_after (getPrices t2 None c1) = c1).
Proof.
  intros Hcall. cbv zeta.
  assert (Hc1 : cache_after (getPrices t1 (Some data) c)
                = {| cache_data := Some data; cache_timestamp := t1 |}).
  { unfold getPrices in *. destruct (cache_data c); [|reflexivity].
    destruct (t1 - cache_timestamp c <? CACHE_DURATION)%Z; [discriminate Hcall|].
    reflexivity. }
  rewrite Hc1. split; [reflexivity|]. unfold getPrices, CACHE_DURATION. simpl.
  split; intros Ht.
  - apply Z.ltb_lt in Ht. rewrite Ht. repeat split.
  - apply Z.ltb_ge in Ht. rewrite Ht. repeat split.
Qed.

(** The statement for a first fetch at time 0 and a request 59999 ms
    later while the service is down. *)
Lemma prices_cache_window_witness :
  answer (getPrices 59999 None
            (cache_after (getPrices 0 (Some btc_quotes)
                            {| cache_data := None; cache_timestamp := 0 |})))
  = PricesJson btc_quotes.
Proof.
  destruct (prices_cache_window {| cache_data := None; cache_timestamp := 0 |}
              0 59999 btc_quotes None) as (_ & Hfresh & _).
  - reflexivity.
  - destruct Hfresh as (Ha & _); [lia|exact Ha].
Defined.

(** ** Upload of exits *)

Section ExitRows.

Variable parseFloat_string : string -> option Q.
Variable Number_toString : Q -> string.
Variable Date_toString : nat -> nat -> nat -> string.
Variable exit_insert_error : list Exit -> Exit -> option string.

Let xstep := exit_row parseFloat_string Number_toString Date_toString
               exit_insert_error.
Let xloop := exit_rows parseFloat_string Number_toString Date_toString
               exit_insert_error.

Lemma exit_row_table (i : nat) (row : Row) (st : ExitUploadState) :
  exists added,
    xu_table (xstep i row st) = (xu_table st ++ added)%list
    /\ (xu_imported (xstep i row st) = xu_imported st + length added)%nat
    /\ (xu_imported (xstep i row st) + xu_skipped (xstep i row st)
        = S (xu_imported st + xu_skipped st))%nat
    /\ Forall (fun e => normal_token (e_token e)) added.
Proof.
  unfold xstep, exit_row.
  destruct (negb (truthy (getColumnValue row _)) || _)%bool eqn:Etok.
  { exists []. cbn [xu_table xu_imported xu_skipped length]. rewrite app_nil_r.
    repeat split; auto; lia. }
  apply orb_false_iff in Etok as [_ Etok]. apply String.eqb_neq in Etok.
  destruct (parse_cost _ _) as [cost|].
  2: { exists []. cbn [xu_table xu_imported xu_skipped length]. rewrite app_nil_r.
       repeat split; auto; lia. }
  destruct (exit_insert_error _ _).
  { exists []. cbn [xu_table xu_imported xu_skipped length]. rewrite app_nil_r.
    repeat split; auto; lia. }
  eexists [_]. cbn [xu_table xu_imported xu_skipped length].
  split; [reflexivity|]. split; [lia|]. split; [lia|].
  constructor; [|constructor]. cbn [e_token]. apply stored_token_normal, Etok.
Qed.

Lemma exit_rows_table (rows : list Row) (i : nat) (st : ExitUploadState) :
  exists added,
    xu_table (xloop i rows st) = (xu_table st ++ added)%list
    /\ (xu_imported (xloop i rows st) = xu_imported st + length added)%nat
    /\ (xu_imported (xloop i rows st) + xu_skipped (xloop i rows st)
        = xu_imported st + xu_skipped st + length rows)%nat
    /\ Forall (fun e => normal_token (e_token e)) added.
Proof.
  revert i st. induction rows as [|row rows IH]; intros i st.
  - exists []. simpl. rewrite app_nil_r. repeat split; auto; lia.
  - change (xloop i (row :: rows) st) with (xloop (S i) rows (xstep i row st)).
    destruct (exit_row_table i row st) as (a1 & T1 & I1 & C1 & F1).
    destruct (IH (S i) (xstep i row st)) as (a2 & T2 & I2 & C2 & F2).
    exists (a1 ++ a2)%list. rewrite T2, T1, <- app_assoc, length_app.
    split; [reflexivity|]. split; [lia|]. split; [simpl length; lia|].
    apply Forall_app. split; assumption.
Qed.

End ExitRows.

Lemma exits_cost_basis_sum (db : Db) :
  exits_cost_basis (getPortfolioUsdc db) == Qsum (map e_cost_basis (exits db)).
Proof.
  unfold getPortfolioUsdc. cbn [exits_cost_basis].
  rewrite js_or_zero, coalesce_SUM_map. apply Qsum_ext. reflexivity.
Qed.

(** X14.  POST /upload/exits, whatever the database does with each INSERT:
    every row of the sheet is counted once as imported or skipped, the
    exits already stored are kept, each imported exit has a token that is
    upper case, trimmed and not empty, and the cash balance afterwards is
    the old one minus the sum of the imported cost bases. *)
Theorem exits_upload_reduces_cash
  (parseFloat_string : string -> option Q) (Number_toString : Q -> string)
  (Date_toString : nat -> nat -> nat -> string)
  (exit_insert_error : list Exit -> Exit -> option string)
  (rawData : list Row) (db : Db) (st : ExitUploadState) :
  uploadExits parseFloat_string Number_toString Date_toString exit_insert_error
    rawData (exits db) = inr st ->
  exists added,
    xu_table st = (exits db ++ added)%list
    /\ length added = xu_imported st
    /\ (xu_imported st + xu_skipped st = length rawData)%nat
    /\ Forall (fun e => normal_token (e_token e)) added
    /\ usdc_balance (getPortfolioUsdc (with_exits db (xu_table st)))
       == usdc_balance (getPortfolioUsdc db) - Qsum (map e_cost_basis added).
Proof.
  unfold uploadExits. destruct rawData as [|row rows]; [discriminate|].
  destruct (exit_rows_table parseFloat_string Number_toString Date_toString
              exit_insert_error (row :: rows) 0
              {| xu_imported := 0; xu_skipped := 0; xu_errors := [];
                 xu_table := exits db |}) as (added & T & I & C & F).
  revert T I C.
  generalize (exit_rows parseFloat_string Number_toString Date_toString
                exit_insert_error 0 (row :: rows)
                {| xu_imported := 0; xu_skipped := 0; xu_errors := [];
                   xu_table := exits db |}).
  cbn [xu_table xu_imported xu_skipped].
  intros st0 T I C [= <-].
  exists added. split; [exact T|]. split; [lia|]. split; [lia|]. split; [exact F|].
  rewrite !usdc_balance_terms, !exits_cost_basis_sum.
  rewrite T. unfold with_exits, getPortfolioUsdc.
  cbn [trades investors perf_tracker exits total_subscriptions cost_basis
       total_expenses].
  rewrite map_app, Qsum_app. ring.
Qed.

(** The statement at a sheet with one usable row (2500 for " luna "), one
    row without a token and one with an unreadable cost. *)
Lemma exits_upload_reduces_cash_witness :
  exists added,
    [ {| e_token := "LUNA"; e_cost_basis := 2500; e_exit_date := None |} ]
    = (exits closed_position_db ++ added)%list
    /\ length added = 1%nat
    /\ (1 + 2 = length exits_sheet)%nat
    /\ Forall (fun e => normal_token (e_token e)) added
    /\ usdc_balance
         (getPortfolioUsdc
            (with_exits closed_position_db
               [ {| e_token := "LUNA"; e_cost_basis := 2500; e_exit_date := None |} ]))
       == usdc_balance (getPortfolioUsdc closed_position_db)
          - Qsum (map e_cost_basis added).
Proof.
  apply (exits_upload_reduces_cash (fun _ => None) (fun _ => "0")
           (fun _ _ _ => "date") (fun _ _ => None) exits_sheet closed_position_db
           {| xu_imported := 1; xu_skipped := 2; xu_errors := [];
              xu_table :=
                [ {| e_token := "LUNA"; e_cost_basis := 2500;
                     e_exit_date := None |} ] |}).
  reflexivity.
Defined.

(** ** InvestorsTab *)

Lemma sum_amounts_Qsum (l : list Investor) :
  sum_amounts l == Qsum (map i_amount l).
Proof. unfold sum_amounts. rewrite fold_left_plus. ring. Qed.

Lemma sum_amounts_filter (p : Investor -> bool) (l : list Investor) :
  sum_amounts (List.filter p l)
  == Qsum (map (fun i => if p i then i_amount i else 0) l).
Proof. rewrite sum_amounts_Qsum. apply Qsum_filter. Qed.

Lemma Qlt_bool_trichotomy (a : Q) :
  (Qlt_bool 0 a = true /\ Qlt_bool a 0 = false /\ 0 < a)
  \/ (Qlt_bool 0 a = false /\ Qlt_bool a 0 = true /\ a < 0)
  \/ (Qlt_bool 0 a = false /\ Qlt_bool a 0 = false /\ a == 0).
Proof.
  destruct (Qlt_bool 0 a) eqn:E1, (Qlt_bool a 0) eqn:E2.
  - apply Qlt_bool_iff in E1, E2. lra.
  - left. apply Qlt_bool_iff in E1. auto.
  - right. left. apply Qlt_bool_iff in E2. auto.
  - right. right. repeat split.
    assert (H1 : ~ 0 < a) by (intros H; apply Qlt_bool_iff in H; congruence).
    assert (H2 : ~ a < 0) by (intros H; apply Qlt_bool_iff in H; congruence).
    lra.
Qed.

Lemma Qsum_nonneg {A} (f : A -> Q) (l : list A) :
  (forall a, 0 <= f a) -> 0 <= Qsum (map f l).
Proof.
  intros H. induction l as [|a l IH]; simpl; [lra|]. specialize (H a). lra.
Qed.

Lemma Qsum_nonpos {A} (f : A -> Q) (l : list A) :
  (forall a, f a <= 0) -> Qsum (map f l) <= 0.
Proof.
  intros H. induction l as [|a l IH]; simpl; [lra|]. specialize (H a). lra.
Qed.

(** X15.  InvestorsTab against the server: the tab's total of GP and LP
    amounts is the total_subscriptions figure of GET /portfolio/usdc for
    the same investor list; subscriptions (positive amounts) and
    redemptions (negative amounts) add up to that total; subscriptions are
    never negative and redemptions never positive. *)
Theorem investor_totals_consistent (db : Db) :
  let t := investorTotals (investors db) in
  totalAll t == total_subscriptions (getPortfolioUsdc db)
  /\ totalSubscriptions t + totalRedemptions t == totalAll t
  /\ 0 <= totalSubscriptions t
  /\ totalRedemptions t <= 0.
Proof.
  cbv zeta. unfold investorTotals.
  cbn [totalAll totalSubscriptions totalRedemptions].
  rewrite !sum_amounts_filter.
  assert (Hall : Qsum (map (fun i => if is_type GP i then i_amount i else 0)
                         (investors db))
                 + Qsum (map (fun i => if is_type LP i then i_amount i else 0)
                           (investors db))
                 == Qsum (map i_amount (investors db))).
  { rewrite <- Qsum_plus. apply Qsum_ext. intros i.
    unfold is_type. destruct (i_type i); ring. }
  split; [|split; [|split]].
  - rewrite Hall. unfold getPortfolioUsdc. cbn [total_subscriptions].
    rewrite js_or_zero, coalesce_SUM_map. apply Qsum_ext. reflexivity.
  - rewrite Hall.
    transitivity
      (Qsum (map (fun i =>
                    ((if (is_type GP i && Qlt_bool 0 (i_amount i))%bool
                      then i_amount i else 0)
                     + (if (is_type LP i && Qlt_bool 0 (i_amount i))%bool
                        then i_amount i else 0))
                    + ((if (is_type GP i && Qlt_bool (i_amount i) 0)%bool
                        then i_amount i else 0)
                       + (if (is_type LP i && Qlt_bool (i_amount i) 0)%bool
                          then i_amount i else 0)))
               (investors db))).
    + rewrite !Qsum_plus. reflexivity.
    + apply Qsum_ext. intros i. unfold is_type.
      destruct (Qlt_bool_trichotomy (i_amount i))
        as [(E1 & E2 & _)|[(E1 & E2 & _)|(E1 & E2 & Hz)]];
        rewrite E1, E2; destruct (i_type i); simpl; rewrite ?Hz; ring.
  - rewrite <- Qsum_plus. apply Qsum_nonneg. intros i. unfold is_type.
    destruct (Qlt_bool_trichotomy (i_amount i))
      as [(E1 & E2 & H)|[(E1 & E2 & H)|(E1 & E2 & H)]];
      rewrite E1; destruct (i_type i); simpl; lra.
  - rewrite <- Qsum_plus. apply Qsum_nonpos. intros i. unfold is_type.
    destruct (Qlt_bool_trichotomy (i_amount i))
      as [(E1 & E2 & H)|[(E1 & E2 & H)|(E1 & E2 & H)]];
      rewrite E2; destruct (i_type i); simpl; lra.
Qed.

(** ** PortfolioTab *)

Lemma enriched_pnl (holdings : list Holding) (prices cmcPrices : gmap string Quote)
  (usdcData : option UsdcData) (pv : Q) (h : EnrichedHolding) :
  In h (enrichedHoldings holdings prices cmcPrices usdcData pv) ->
  pnl h == currentValue h - COALESCE (eh_cost_basis h) 0.
Proof.
  unfold enrichedHoldings. intros Hin.
  assert (Hitems : forall x,
            In x (map (enrich prices cmcPrices pv)
                    (List.filter (fun y => not_usdc (token y)) holdings)) ->
            pnl x == currentValue x - COALESCE (eh_cost_basis x) 0).
  { intros x Hx. apply in_map_iff in Hx as (y & <- & _). reflexivity. }
  destruct usdcData as [u|]; [|apply Hitems, Hin].
  destruct (negb (Qeq_bool (usdc_balance u) 0)); [|apply Hitems, Hin].
  apply in_app_or in Hin as [Hin|[<-|[]]]; [apply Hitems, Hin|].
  simpl. ring.
Qed.

(** The value of the holdings the table leaves out: those whose token is
    USDC. *)
Lemma enriched_value (holdings : list Holding) (prices cmcPrices : gmap string Quote)
  (usdcData : option UsdcData) (pv : Q) :
  Qsum (map currentValue (enrichedHoldings holdings prices cmcPrices usdcData pv))
  + Qsum (map (fun h => total_units h * price_or_zero prices (toUpperCase (token h)))
            (List.filter (fun h => negb (not_usdc (token h))) holdings))
  == calculatePortfolioValue holdings prices usdcData.
Proof.
  set (F := fun h => total_units h * price_or_zero prices (toUpperCase (token h))).
  assert (Hitems :
    Qsum (map currentValue
            (map (enrich prices cmcPrices pv)
               (List.filter (fun h => not_usdc (token h)) holdings)))
    == Qsum (map F (List.filter (fun h => not_usdc (token h)) holdings))).
  { rewrite map_map. apply Qsum_ext. reflexivity. }
  assert (Hall : fold_left (fun tv h => tv + F h) holdings 0
                 == Qsum (map F (List.filter (fun h => not_usdc (token h)) holdings))
                    + Qsum (map F (List.filter (fun h => negb (not_usdc (token h)))
                                     holdings))).
  { rewrite fold_left_plus, Qsum_partition. ring. }
  unfold enrichedHoldings, calculatePortfolioValue.
  change (fold_left _ holdings 0)
    with (fold_left (fun tv h => tv + F h) holdings 0).
  destruct usdcData as [u|]; [|rewrite Hall, Hitems; ring].
  rewrite Hall.
  destruct (Qeq_bool (usdc_balance u) 0) eqn:E; simpl negb; cbv iota.
  - apply Qeq_bool_eq in E. rewrite Hitems, E. ring.
  - rewrite map_app, Qsum_app, Hitems. simpl. ring.
Qed.

(** X16.  PortfolioTab summary cards: the total P&L is the summed market
    value of the listed holdings minus their summed cost basis; and the
    summed market value of the listed holdings, plus the value of the
    holdings whose token is USDC (which the table leaves out), is the
    portfolio value shown in the header. *)
Theorem portfolio_cards_add_up (holdings : list Holding)
  (prices cmcPrices : gmap string Quote) (usdcData : option UsdcData) (pv : Q) :
  let ehs := enrichedHoldings holdings prices cmcPrices usdcData pv in
  totalPnl ehs == Qsum (map currentValue ehs) - portfolioCostBasis ehs
  /\ Qsum (map currentValue ehs)
     + Qsum (map (fun h => total_units h
                           * price_or_zero prices (toUpperCase (token h)))
               (List.filter (fun h => negb (not_usdc (token h))) holdings))
     == calculatePortfolioValue holdings prices usdcData.
Proof.
  cbv zeta. split; [|apply enriched_value].
  unfold totalPnl, portfolioCostBasis. rewrite !fold_left_plus.
  rewrite (Qsum_ext_In (fun h => js_or (pnl h) 0)
             (fun h => currentValue h - COALESCE (eh_cost_basis h) 0
                       + 0)).
  - rewrite (Qsum_ext (fun h => js_or_null (eh_cost_basis h) 0)
               (fun h => COALESCE (eh_cost_basis h) 0))
      by (intros; apply js_or_null_zero).
    rewrite (Qsum_combine3 _ currentValue (fun h => COALESCE (eh_cost_basis h) 0)
               (fun _ => 0)) by (intros; reflexivity).
    rewrite Qsum_zero. ring.
  - intros h Hin. rewrite js_or_zero, (enriched_pnl _ _ _ _ _ _ Hin). ring.
Qed.

(** ** CheckerTab against the header *)

Lemma checker_rows_value (prices : gmap string Quote) (ts : list Trade)
  (keys : list string) :
  Qsum (map (fun h => hv_value (with_value prices h))
          (List.filter (fun h => not_usdc (cb_token h)) (map (breakdown ts) keys)))
  == Qsum (map (fun h => total_units h
                         * price_or_zero prices (toUpperCase (token h)))
             (List.filter (fun h => not_usdc (token h)) (map (aggregate ts) keys))).
Proof.
  induction keys as [|k keys IH]; simpl; [reflexivity|].
  destruct (not_usdc k); simpl; [|exact IH]. rewrite IH. reflexivity.
Qed.

(** X17.  The checker's total against the header's portfolio value, for
    the same ledger and prices: the two differ exactly by the positions
    each of them leaves out.  The checker's total plus the value of the
    listed holdings whose token is USDC equals the header's value plus the
    value of the non-USDC groups that the dust filter removed from the
    holdings. *)
Theorem checker_total_against_header (db : Db) (prices : gmap string Quote) :
  let value := fun h => total_units h * price_or_zero prices (toUpperCase (token h)) in
  totalPortfolioValue prices (checkerPortfolio db)
  + Qsum (map value (List.filter (fun h => negb (not_usdc (token h)))
                       (getPortfolio (trades db))))
  == calculatePortfolioValue (getPortfolio (trades db)) prices
       (Some (getPortfolioUsdc db))
     + Qsum (map value (List.filter (fun h => not_usdc (token h))
                          (dust_groups (trades db)))).
Proof.
  cbv zeta.
  set (value := fun h => total_units h * price_or_zero prices (toUpperCase (token h))).
  set (G := map (aggregate (trades db)) (group_keys (trades db))).
  assert (Hbal : calc_usdc_balance (calculations (checkerPortfolio db))
                 == usdc_balance (getPortfolioUsdc db)).
  { unfold checkerPortfolio. cbn [calculations calc_usdc_balance].
    rewrite totalCostBasis_signed, usdc_balance_terms, cost_basis_signed.
    reflexivity. }
  assert (Hchk : totalPortfolioValue prices (checkerPortfolio db)
                 == Qsum (map value (List.filter (fun h => not_usdc (token h)) G))
                    + usdc_balance (getPortfolioUsdc db)).
  { unfold totalPortfolioValue. rewrite Hbal, fold_left_plus.
    unfold checkerPortfolio. cbn [chk_holdings]. unfold checker_holdings.
    rewrite Qsum_filter.
    rewrite (Qsum_perm _ _ (Permutation_map _ (sort_by_perm token_asc _))).
    rewrite <- Qsum_filter, checker_rows_value. fold value G. ring. }
  assert (Hsorted : forall (p : Holding -> bool),
            Qsum (map value (List.filter p (getPortfolio (trades db))))
            == Qsum (map value (List.filter p (List.filter having G)))).
  { intros p. unfold getPortfolio. fold G. rewrite !(Qsum_filter value p).
    apply Qsum_perm, Permutation_map, sort_by_perm. }
  rewrite Hchk, portfolio_value_sum.
  change (Qsum (map _ (getPortfolio (trades db))))
    with (Qsum (map value (getPortfolio (trades db)))).
  rewrite <- (Qsum_partition value (fun h => not_usdc (token h))
                (getPortfolio (trades db))).
  rewrite !Hsorted. unfold dust_groups. fold G.
  rewrite <- (Qsum_partition value having
                (List.filter (fun h => not_usdc (token h)) G)).
  assert (Hswap : forall (p q : Holding -> bool) (l : list Holding),
            List.filter p (List.filter q l) = List.filter q (List.filter p l)).
  { intros p q l. induction l as [|a l IH]; simpl; [reflexivity|].
    destruct (p a) eqn:Ep, (q a) eqn:Eq; simpl; rewrite ?Ep, ?Eq, IH; reflexivity. }
  rewrite (Hswap (fun h => not_usdc (token h)) having G).
  rewrite (Hswap (fun h => not_usdc (token h)) (fun h => negb (having h)) G).
  ring.
Qed.

(** ** Advisory flags *)

Lemma filter_or_nil {A} (p q : A -> bool) (l : list A) :
  List.filter (fun a => p a || q a) l = []
  <-> List.filter p l = [] /\ List.filter q l = [].
Proof.
  induction l as [|a l IH]; simpl; [tauto|].
  destruct (p a), (q a); simpl; try (split; [discriminate|intros [? ?]; discriminate]).
  exact IH.
Qed.

(** X18.  CheckerTab's list of potential issues: "No obvious issues" is
    shown only when none of the four warnings is, and the panel shows
    neither that line nor any warning exactly when nothing else is wrong
    but the total subscriptions are negative. *)
Theorem checker_flags_coverage (prices : gmap string Quote) (data : CheckerResponse) :
  let f := checkerFlags prices data in
  let quiet := negative_holdings f = [] /\ holdings_without_price f = []
               /\ negative_usdc f = false /\ no_subscriptions f = false in
  (no_obvious_issues f = true -> quiet)
  /\ (quiet /\ no_obvious_issues f = false
      <-> negative_holdings f = [] /\ holdings_without_price f = []
          /\ 0 <= calc_usdc_balance (calculations data)
          /\ calc_total_subscriptions (calculations data) < 0).
Proof.
  cbv zeta. unfold checkerFlags.
  cbn [negative_holdings holdings_without_price negative_usdc no_subscriptions
       no_obvious_issues].
  set (hs := holdingsWithValues prices data).
  set (neg := fun h => Qlt_bool (net_units (hv_row h)) 0).
  set (unp := fun h => (Qeq_bool (hv_price h) 0
                        && Qlt_bool 0 (net_units (hv_row h)))%bool).
  set (usdc := calc_usdc_balance (calculations data)).
  set (subs := calc_total_subscriptions (calculations data)).
  assert (Hlen : (length
                    (List.filter
                       (fun h => (Qlt_bool (net_units (hv_row h)) 0
                                  || Qeq_bool (hv_price h) 0
                                     && Qlt_bool 0 (net_units (hv_row h)))%bool)
                       hs) =? 0)%nat = true
                 <-> List.filter neg hs = [] /\ List.filter unp hs = []).
  { rewrite Nat.eqb_eq, <- (filter_or_nil neg unp hs).
    change (fun a => (neg a || unp a)%bool)
      with (fun h => (Qlt_bool (net_units (hv_row h)) 0
                      || Qeq_bool (hv_price h) 0
                         && Qlt_bool 0 (net_units (hv_row h)))%bool).
    destruct (List.filter _ hs); simpl; split; try discriminate; reflexivity. }
  assert (Hmap : forall l : list HoldingWithValue,
            map (fun h => cb_token (hv_row h)) l = [] <-> l = []).
  { intros l. destruct l; simpl; split; try discriminate; reflexivity. }
  rewrite !Hmap.
  assert (Hneg : Qlt_bool usdc 0 = false <-> 0 <= usdc).
  { rewrite <- not_true_iff_false, Qlt_bool_iff. split; [apply Qnot_lt_le|].
    intros H1 H2. lra. }
  assert (Hle : Qle_bool 0 usdc = true <-> 0 <= usdc) by apply Qle_bool_iff.
  assert (Hz : Qeq_bool subs 0 = false <-> ~ subs == 0).
  { split; [apply Qeq_bool_false_neq|]. intros H.
    destruct (Qeq_bool subs 0) eqn:E; [|reflexivity].
    exfalso. apply H, Qeq_bool_eq, E. }
  split.
  - rewrite !andb_true_iff, Hlen, Hle, Qlt_bool_iff, Hneg, Hz.
    intros [[[H1 H2] H3] H4]. repeat split; auto. lra.
  - rewrite Hneg, Hz, <- not_true_iff_false, !andb_true_iff, Hlen, Hle, Qlt_bool_iff.
    split.
    + intros [(H1 & H2 & H3 & H4) Hno]. repeat split; auto.
      apply Qnot_le_lt. intros Hs. apply Hno. repeat split; auto. lra.
    + intros (H1 & H2 & H3 & H4). split.
      * repeat split; auto. lra.
      * intros [_ Hs]. lra.
Qed.

(** The statement at a ledger whose investors redeemed more than they
    subscribed: the panel shows no warning and no all-clear line. *)
Lemma checker_flags_coverage_witness :
  (negative_holdings (checkerFlags ∅ (checkerPortfolio net_redeemed_db)) = []
   /\ holdings_without_price (checkerFlags ∅ (checkerPortfolio net_redeemed_db)) = []
   /\ negative_usdc (checkerFlags ∅ (checkerPortfolio net_redeemed_db)) = false
   /\ no_subscriptions (checkerFlags ∅ (checkerPortfolio net_redeemed_db)) = false)
  /\ no_obvious_issues (checkerFlags ∅ (checkerPortfolio net_redeemed_db)) = false.
Proof.
  apply (proj2 (proj2 (checker_flags_coverage ∅ (checkerPortfolio net_redeemed_db)))).
  split; [reflexivity|]. split; [reflexivity|].
  split; [vm_compute; discriminate|vm_compute; reflexivity].
Defined.

(** ** Shape of the holdings list *)

Lemma cost_desc_total (a b : Holding) : cost_desc a b = false -> cost_desc b a = true.
Proof.
  unfold cost_desc.
  destruct (holding_cost_basis a) as [x|], (holding_cost_basis b) as [y|];
    try reflexivity; try discriminate.
  intros H. apply Qle_bool_iff.
  assert (Hn : ~ y <= x) by (intros Hle; apply Qle_bool_iff in Hle; congruence).
  lra.
Qed.

Lemma cost_desc_trans (a b c : Holding) :
  cost_desc a b = true -> cost_desc b c = true -> cost_desc a c = true.
Proof.
  unfold cost_desc.
  destruct (holding_cost_basis a) as [x|], (holding_cost_basis b) as [y|],
           (holding_cost_basis c) as [z|]; try reflexivity; try discriminate.
  rewrite !Qle_bool_iff. lra.
Qed.

(** X19.  GET /portfolio: the list has at most one holding per stored
    token, every listed holding has net units beyond the dust threshold on
    one side or the other, and the list is in descending order of cost
    basis with holdings without a cost basis last. *)
Theorem holdings_list_shape (ts : list Trade) :
  NoDup (map token (getPortfolio ts))
  /\ (forall h, In h (getPortfolio ts) ->
        dust < total_units h \/ total_units h < - dust)
  /\ StronglySorted (fun a b => cost_desc a b = true) (getPortfolio ts).
Proof.
  unfold getPortfolio. split; [|split].
  - apply NoDup_ListNoDup.
    apply (Permutation_NoDup
             (Permutation_map token (Permutation_sym (sort_by_perm cost_desc _)))).
    apply NoDup_ListNoDup, filter_map_NoDup.
    rewrite map_map. simpl. rewrite List.map_id.
    apply NoDup_ListNoDup, NoDup_nodup.
  - intros h Hin. apply sort_by_In, filter_In in Hin as [_ Hhav].
    unfold having in Hhav. apply orb_true_iff in Hhav.
    rewrite !Qlt_bool_iff in Hhav. exact Hhav.
  - apply (sort_by_sorted cost_desc cost_desc_total cost_desc_trans).
Qed.

(** The statement at the ledger with 500 USDC and 2 BTC: the BTC holding
    is listed with 2 units, beyond the dust threshold. *)
Lemma holdings_list_shape_witness :
  dust < total_units (aggregate usdc_trades "BTC")
  \/ total_units (aggregate usdc_trades "BTC") < - dust.
Proof.
  apply (proj1 (proj2 (holdings_list_shape usdc_trades))).
  vm_compute. left. reflexivity.
Defined.

(** ** The bases of the year-to-date and since-inception returns *)

Lemma last_filter_latest (perfTracker : list PerfRecord) (sel : PerfRecord -> bool)
  (p : PerfRecord) :
  NoDup (map month perfTracker) -> In p perfTracker -> sel p = true ->
  (forall p', In p' perfTracker -> sel p' = true ->
              String.leb (month p') (month p) = true) ->
  last (List.filter sel (sortedPerf perfTracker)) = Some p.
Proof.
  intros Hnd Hin Hsel Hmax. unfold sortedPerf.
  set (fl := List.filter sel (sort_by month_le perfTracker)).
  assert (Hp : In p fl).
  { apply filter_In. split; [apply sort_by_In; exact Hin|exact Hsel]. }
  destruct (last_nonempty fl p Hp) as [r Hr]. rewrite Hr. f_equal.
  assert (Hrin : In r fl) by (apply last_In; exact Hr).
  apply filter_In in Hrin as [Hrin Hrsel]. apply sort_by_In in Hrin.
  apply (NoDup_map_inj month perfTracker); auto.
  apply String.leb_antisym; [apply Hmax; assumption|].
  assert (Hss : StronglySorted (fun a b => month_le a b = true) fl).
  { apply filter_sorted, sort_by_sorted; [apply month_le_total|apply month_le_trans]. }
  destruct (last_sorted_max month_le fl r Hss Hr p Hp) as [->|H].
  - destruct (String.leb_total (month r) (month r)); assumption.
  - exact H.
Qed.

Lemma last_filter_none (perfTracker : list PerfRecord) (sel : PerfRecord -> bool) :
  (forall p, In p perfTracker -> sel p = false) ->
  last (List.filter sel (sortedPerf perfTracker)) = None.
Proof.
  intros H. unfold sortedPerf.
  destruct (last _) as [r|] eqn:E; [|reflexivity].
  apply last_In, filter_In in E as [Hin Hs]. apply sort_by_In in Hin.
  rewrite (H r Hin) in Hs. discriminate Hs.
Qed.

Lemma head_sorted_earliest (perfTracker : list PerfRecord) (p : PerfRecord) :
  NoDup (map month perfTracker) -> In p perfTracker ->
  (forall p', In p' perfTracker -> String.leb (month p) (month p') = true) ->
  hd_error (sortedPerf perfTracker) = Some p.
Proof.
  intros Hnd Hin Hmin. unfold sortedPerf.
  pose proof (sort_by_sorted month_le month_le_total month_le_trans perfTracker)
    as Hss.
  assert (Hp : In p (sort_by month_le perfTracker)) by (apply sort_by_In; exact Hin).
  destruct (sort_by month_le perfTracker) as [|r l] eqn:E; [destruct Hp|].
  simpl. f_equal.
  assert (Hr : In r perfTracker).
  { apply (sort_by_In month_le). rewrite E. left. reflexivity. }
  apply (NoDup_map_inj month perfTracker); auto.
  apply String.leb_antisym; [|apply Hmin, Hr].
  destruct Hp as [->|Hp].
  - destruct (String.leb_total (month p) (month p)); assumption.
  - apply StronglySorted_inv in Hss as [_ Hall].
    rewrite Forall_forall in Hall. apply Hall, list_elem_of_In, Hp.
Qed.

(** X20.  calculateReturns, with one record per month.  The year-to-date
    base is the ending value of the latest record whose month starts with
    the previous calendar year, unless that value is 0 or there is no such
    record, in which case it is the beginning-of-month value.  The
    since-inception base is gp_subs + lp_subs of the earliest record,
    whatever the cash data says, and the total subscriptions only when
    there is no record at all. *)
Theorem year_start_and_inception_bases (perfTracker : list PerfRecord)
  (usdcData : option UsdcData) (currentMonth : string) (currentYear : Z) :
  NoDup (map month perfTracker) ->
  let prior := fun p => String.prefix (String_of_year (currentYear - 1)) (month p) in
  let bv := beginningValue perfTracker usdcData currentMonth in
  (forall p, In p perfTracker -> prior p = true ->
     (forall p', In p' perfTracker -> prior p' = true ->
                 String.leb (month p') (month p) = true) ->
     yearStartValue perfTracker usdcData currentMonth currentYear
     = if Qeq_bool (ending_value p) 0 then bv else ending_value p)
  /\ ((forall p, In p perfTracker -> prior p = false) ->
      yearStartValue perfTracker usdcData currentMonth currentYear = bv)
  /\ (forall p, In p perfTracker ->
        (forall p', In p' perfTracker -> String.leb (month p) (month p') = true) ->
        initialValue perfTracker usdcData = gp_subs p + lp_subs p)
  /\ (perfTracker = [] ->
      initialValue perfTracker usdcData = subscriptions_or_zero usdcData).
Proof.
  intros Hnd. cbv zeta. split; [|split; [|split]].
  - intros p Hin Hsel Hmax. unfold yearStartValue, lastYearEnd.
    rewrite (last_filter_latest perfTracker _ p Hnd Hin Hsel Hmax). reflexivity.
  - intros Hnone. unfold yearStartValue, lastYearEnd.
    rewrite (last_filter_none perfTracker _ Hnone). reflexivity.
  - intros p Hin Hmin. unfold initialValue.
    rewrite (head_sorted_earliest perfTracker p Hnd Hin Hmin). reflexivity.
  - intros ->. reflexivity.
Qed.

(** The statement in March 2024 with records for December 2023, January
    and February 2024: the year starts from December's ending value
    100000 and the fund from December's subscriptions 60000 + 40000. *)
Lemma year_start_and_inception_bases_witness :
  yearStartValue (st_perfTracker three_month_state) (Some cash_120000) "2024-03" 2024
  = 100000
  /\ initialValue (st_perfTracker three_month_state) (Some cash_120000)
     = 60000 + 40000.
Proof.
  assert (Hnd : NoDup (map month (st_perfTracker three_month_state))).
  { apply NoDup_ListNoDup. repeat constructor; simpl; intuition discriminate. }
  destruct (year_start_and_inception_bases (st_perfTracker three_month_state)
              (Some cash_120000) "2024-03" 2024 Hnd) as (Hy & _ & Hi & _).
  split.
  - apply (Hy (perf_record "2023-12" 60000 40000 100000)).
    + right. left. reflexivity.
    + reflexivity.
    + intros p' [<-|[<-|[<-|[]]]]; try discriminate; reflexivity.
  - apply (Hi (perf_record "2023-12" 60000 40000 100000)).
    + right. left. reflexivity.
    + intros p' [<-|[<-|[<-|[]]]]; reflexivity.
Defined.

(** ** Header matching of the spreadsheet uploads *)

(** A key and a name that agree once lower-cased and trimmed. *)
Lemma find_key_spec (rowKeys : list string) (lowerName key : string) :
  find_key rowKeys lowerName = Some key ->
  In key rowKeys /\ trim (toLowerCase key) = lowerName.
Proof.
  induction rowKeys as [|k ks IH]; simpl; [discriminate|].
  destruct (String.eqb_spec (trim (toLowerCase k)) lowerName) as [E|E].
  - intros [= <-]. split; [left; reflexivity|exact E].
  - intros H. destruct (IH H) as [Hin Hk]. split; [right; exact Hin|exact Hk].
Qed.

Lemma find_key_found (rowKeys : list string) (lowerName k : string) :
  In k rowKeys -> trim (toLowerCase k) = lowerName ->
  exists key, find_key rowKeys lowerName = Some key.
Proof.
  induction rowKeys as [|a ks IH]; intros Hin Hk; [destruct Hin|]. simpl.
  destruct (String.eqb_spec (trim (toLowerCase a)) lowerName) as [E|E].
  - exists a. reflexivity.
  - destruct Hin as [->|Hin]; [contradiction|]. apply IH; assumption.
Qed.

Lemma row_get_key (row : Row) (name : string) (v : Cell) :
  row_get row name = Some v -> In name (map fst row).
Proof.
  induction row as [|[k c] r IH]; simpl; [discriminate|].
  destruct (String.eqb_spec k name) as [->|_]; [left; reflexivity|].
  intros H. right. apply IH, H.
Qed.

Lemma first_defined_spec (row : Row) (names : list string) (v : Cell) :
  first_defined row names = Some v ->
  exists n, In n names /\ row_get row n = Some v.
Proof.
  induction names as [|n ns IH]; simpl; [discriminate|].
  destruct (row_get row n) as [c|] eqn:E.
  - destruct c; try (intros [= <-]; exists n; split; [left; reflexivity|exact E]).
    intros H. destruct (IH H) as (m & Hm & Hv). exists m. split; [right|]; assumption.
  - intros H. destruct (IH H) as (m & Hm & Hv). exists m. split; [right|]; assumption.
Qed.

Lemma first_insensitive_spec (row : Row) (names : list string) :
  (exists n k, In n names /\ In k (map fst row)
               /\ trim (toLowerCase k) = trim (toLowerCase n)) ->
  exists n key, In n names /\ In key (map fst row)
                /\ trim (toLowerCase key) = trim (toLowerCase n)
                /\ first_insensitive row names = row_get row key.
Proof.
  induction names as [|n ns IH]; intros (m & k & Hm & Hk & E); [destruct Hm|].
  simpl. destruct (find_key (map fst row) (trim (toLowerCase n))) as [key|] eqn:F.
  - apply find_key_spec in F as [Hin Hkey].
    exists n, key. split; [left; reflexivity|]. split; [exact Hin|].
    split; [exact Hkey|reflexivity].
  - destruct Hm as [->|Hm].
    + destruct (find_key_found _ _ k Hk E) as [key Hf]. congruence.
    + destruct IH as (n' & key & Hn' & Hkey & E' & Hres).
      { exists m, k. auto. }
      exists n', key. split; [right; exact Hn'|]. split; [exact Hkey|].
      split; [exact E'|exact Hres].
Qed.

(** X21.  Column lookup of the spreadsheet uploads ([getColumnValue]):
    when exactly one column of the row has a header that matches one of
    the accepted names, ignoring case and surrounding blanks, the value of
    that column is returned, however the header is spelled; when no header
    matches any accepted name, the result is null. *)
Theorem column_lookup_ignores_header_spelling (row : Row)
  (possibleNames : list string) :
  (forall k v n,
     row_get row k = Some v -> In n possibleNames ->
     trim (toLowerCase k) = trim (toLowerCase n) ->
     (forall k', In k' (map fst row) ->
        (exists n', In n' possibleNames
                    /\ trim (toLowerCase k') = trim (toLowerCase n')) ->
        k' = k) ->
     getColumnValue row possibleNames = v)
  /\ ((forall k n, In k (map fst row) -> In n possibleNames ->
         trim (toLowerCase k) <> trim (toLowerCase n)) ->
      getColumnValue row possibleNames = CNull).
Proof.
  split.
  - intros k v n Hget Hn Hmatch Huniq. unfold getColumnValue.
    destruct (first_defined row possibleNames) as [v'|] eqn:Hfd.
    + apply first_defined_spec in Hfd as (m & Hm & Hv).
      assert (m = k) as ->.
      { apply Huniq; [apply (row_get_key _ _ _ Hv)|]. exists m. auto. }
      congruence.
    + destruct (first_insensitive_spec row possibleNames)
        as (n' & key & Hn' & Hkey & E' & Hres).
      { exists n, k. split; [exact Hn|]. split; [|exact Hmatch].
        apply (row_get_key _ _ _ Hget). }
      assert (key = k) as ->.
      { apply Huniq; [exact Hkey|]. exists n'. auto. }
      rewrite Hres, Hget. reflexivity.
  - intros Hnone. unfold getColumnValue.
    destruct (first_defined row possibleNames) as [v'|] eqn:Hfd.
    + apply first_defined_spec in Hfd as (m & Hm & Hv). exfalso.
      apply (Hnone m m); auto. apply (row_get_key _ _ _ Hv).
    + assert (Hfi : first_insensitive row possibleNames = None).
      { clear Hfd. induction possibleNames as [|n ns IH]; simpl; [reflexivity|].
        destruct (find_key (map fst row) (trim (toLowerCase n))) as [key|] eqn:F.
        - apply find_key_spec in F as [Hin Hkey]. exfalso.
          apply (Hnone key n); auto. left. reflexivity.
        - apply IH. intros k m Hk Hm. apply Hnone; [exact Hk|right; exact Hm]. }
      rewrite Hfi. reflexivity.
Qed.

(** The statement at a row whose token column is headed "symbol ". *)
Lemma column_lookup_ignores_header_spelling_witness :
  getColumnValue loose_header_row ["Token"; "token"; "TOKEN"; "SYMBOL"; "Symbol"]
  = CStr "sol".
Proof.
  apply (proj1 (column_lookup_ignores_header_spelling loose_header_row
                  ["Token"; "token"; "TOKEN"; "SYMBOL"; "Symbol"])
           "symbol " (CStr "sol") "SYMBOL").
  - reflexivity.
  - right. right. right. left. reflexivity.
  - reflexivity.
  - intros k' [<-|[<-|[<-|[]]]] (n' & Hn' & E); [exfalso| reflexivity |exfalso];
      destruct Hn' as [<-|[<-|[<-|[<-|[<-|[]]]]]]; vm_compute in E; discriminate E.
Defined.

(** ** Prices and totals the import derives *)

Section ImportDerivation.

Variable Number_toString : Q -> string.
Variable Date_toString : nat -> nat -> nat -> string.
Variable excel_serial_date : Q -> string.
Variable today : string.

Let row_trade := trade_of_row Number_toString Date_toString excel_serial_date today.

Lemma Qeq_bool_mult_false (a b : Q) :
  Qeq_bool a 0 = false -> Qeq_bool b 0 = false -> Qeq_bool (a * b) 0 = false.
Proof.
  intros Ha Hb. apply Qeq_bool_false_neq in Ha, Hb.
  destruct (Qeq_bool (a * b) 0) eqn:E; [|reflexivity].
  apply Qeq_bool_eq in E. destruct (Qmult_integral _ _ E); contradiction.
Qed.

Lemma import_derives_price (token dateValue type : Cell) (u total : Q) (a : Parsed) :
  parsed_truthy a = false -> Qeq_bool total 0 = false -> Qeq_bool u 0 = false ->
  exists avg_price stored_total,
    t_avg_price (row_trade token dateValue type u a (Pnum total)) = Some avg_price
    /\ t_total (row_trade token dateValue type u a (Pnum total)) = Some stored_total
    /\ 0 <= avg_price
    /\ avg_price * t_units (row_trade token dateValue type u a (Pnum total))
       == stored_total.
Proof.
  intros Ha Ht Hu. unfold row_trade, trade_of_row.
  cbn [t_avg_price t_total t_units]. simpl parsed_truthy. rewrite Ha, Ht, Hu. simpl.
  rewrite Ht. simpl.
  exists (Qabs (total / u)), (Qabs total).
  split; [reflexivity|]. split; [reflexivity|]. split; [apply Qabs_nonneg|].
  rewrite <- Qabs_Qmult. apply Qabs_wd. field. apply Qeq_bool_false_neq, Hu.
Qed.

Lemma import_derives_total (token dateValue type : Cell) (u avg : Q) (t : Parsed) :
  parsed_truthy t = false -> Qeq_bool avg 0 = false -> Qeq_bool u 0 = false ->
  exists stored_total,
    t_avg_price (row_trade token dateValue type u (Pnum avg) t) = Some avg
    /\ t_total (row_trade token dateValue type u (Pnum avg) t) = Some stored_total
    /\ Qabs avg * t_units (row_trade token dateValue type u (Pnum avg) t)
       == stored_total.
Proof.
  intros Ht Ha Hu. unfold row_trade, trade_of_row.
  cbn [t_avg_price t_total t_units]. simpl parsed_truthy. rewrite Ht, Ha, Hu. simpl.
  rewrite (Qeq_bool_mult_false _ _ Ha Hu). simpl.
  exists (Qabs (avg * u)).
  split; [reflexivity|]. split; [reflexivity|].
  rewrite Qabs_Qmult. reflexivity.
Qed.

End ImportDerivation.

(** X22.  A row of the bulk import that passed the checks, with non-zero
    units.  When the price cell is empty, zero or unreadable and the total
    is given, the stored price is non-negative and price x units equals
    the stored total.  When the total is missing and the price is given,
    the stored total is |price| x units while the price keeps its sign, so
    for a negative price the product of the stored price and units is the
    negative of the stored total. *)
Theorem import_price_total_derivation
  (Number_toString : Q -> string) (Date_toString : nat -> nat -> nat -> string)
  (excel_serial_date : Q -> string) (today : string)
  (token dateValue type : Cell) (u x : Q) (missing : Parsed) :
  parsed_truthy missing = false -> ~ x == 0 -> ~ u == 0 ->
  let bought := trade_of_row Number_toString Date_toString excel_serial_date today
                  token dateValue type u missing (Pnum x) in
  let priced := trade_of_row Number_toString Date_toString excel_serial_date today
                  token dateValue type u (Pnum x) missing in
  (exists avg_price stored_total,
     t_avg_price bought = Some avg_price /\ t_total bought = Some stored_total
     /\ 0 <= avg_price /\ avg_price * t_units bought == stored_total)
  /\ (exists stored_total,
        t_avg_price priced = Some x /\ t_total priced = Some stored_total
        /\ Qabs x * t_units priced == stored_total
        /\ (x < 0 -> x * t_units priced == - stored_total)).
Proof.
  intros Hm Hx Hu. cbv zeta.
  assert (Ex : Qeq_bool x 0 = false).
  { destruct (Qeq_bool x 0) eqn:E; [|reflexivity]. exfalso. apply Hx, Qeq_bool_eq, E. }
  assert (Eu : Qeq_bool u 0 = false).
  { destruct (Qeq_bool u 0) eqn:E; [|reflexivity]. exfalso. apply Hu, Qeq_bool_eq, E. }
  split.
  - apply import_derives_price; assumption.
  - destruct (import_derives_total Number_toString Date_toString excel_serial_date
                today token dateValue type u x missing Hm Ex Eu)
      as (T & Ha & Ht & Hprod).
    exists T. split; [exact Ha|]. split; [exact Ht|]. split; [exact Hprod|].
    intros Hneg. rewrite <- Hprod.
    rewrite (Qabs_neg x) by lra. ring.
Qed.

(** The statement for a row of 4 units with total 100 and no price: the
    stored price is 25. *)
Lemma import_price_total_derivation_witness :
  (exists avg_price stored_total,
     t_avg_price (trade_of_row (fun _ => "0") (fun _ _ _ => "date")
                    (fun _ => "1900-01-01") "2024-03-01" (CStr "sol") CNull CNull
                    4 Pnull (Pnum 100)) = Some avg_price
     /\ t_total (trade_of_row (fun _ => "0") (fun _ _ _ => "date")
                   (fun _ => "1900-01-01") "2024-03-01" (CStr "sol") CNull CNull
                   4 Pnull (Pnum 100)) = Some stored_total
     /\ 0 <= avg_price
     /\ avg_price * t_units (trade_of_row (fun _ => "0") (fun _ _ _ => "date")
                               (fun _ => "1900-01-01") "2024-03-01" (CStr "sol")
                               CNull CNull 4 Pnull (Pnum 100))
        == stored_total).
Proof.
  apply (proj1 (import_price_total_derivation (fun _ => "0") (fun _ _ _ => "date")
                  (fun _ => "1900-01-01") "2024-03-01" (CStr "sol") CNull CNull
                  4 100 Pnull eq_refl
                  ltac:(intros H; vm_compute in H; discriminate H)
                  ltac:(intros H; vm_compute in H; discriminate H))).
Defined.
